(** * sky_mcp: the gateway trust boundary

    A shallow embedding of the response-envelope protocol
    ([sky_mcp/response.py]), the sandboxed path resolver
    ([sky_mcp/paths.py]), the report writer ([sky_mcp/report_io.py]), the
    tool registry ([sky_mcp/server.py]) and the neighbour ranking of the
    similarity tools ([sky_mcp/tools.py]), followed by the properties the
    specification states about them.

    Python values are a small inductive type, dictionaries are finite maps
    keyed by strings, raising is an error monad, and everything the code
    obtains from the operating system or from a collaborator is a field of
    an explicit record, so that the definitions stay executable. *)

From Stdlib Require Import ZArith String Ascii List Bool Lia.
From Stdlib Require Import Sorting.Sorted Sorting.Permutation.
From Stdlib Require Import Floats.SpecFloat.
From stdpp Require Import base gmap strings list fin_maps.

#[local] Set Warnings "-register-all".
#[local] Open Scope string_scope.
#[local] Open Scope list_scope.
#[local] Open Scope Z_scope.

(* ===================================================================== *)
(** * Part I: the embedding                                               *)
(* ===================================================================== *)

(** ** Python values, exceptions and the error monad *)

Module Py.

(** The values that cross the gateway: JSON-like data.  A [str] is a
    sequence of code points; a character of a Rocq string stands for a
    code point below 256.  A [float] is an IEEE 754 binary64 number. *)
Inductive value : Type :=
| VNone
| VBool (b : bool)
| VInt (z : Z)
| VFloat (f : spec_float)
| VStr (s : string)
| VList (l : list value)
| VDict (d : gmap string value).

(** A [str] given where a value is expected is that value. *)
Coercion VStr : string >-> value.

Definition prec : Z := 53.
Definition emax : Z := 1024.

(** [x == 0.0] on floats: both zeros, never NaN. *)
Definition float_is_zero (f : spec_float) : bool :=
  match f with S754_zero _ => true | _ => false end.

(** Truth value testing ([bool(x)], [not x], [x or y]). *)
Definition truthy (v : value) : bool :=
  match v with
  | VNone => false
  | VBool b => b
  | VInt z => negb (z =? 0)
  | VFloat f => negb (float_is_zero f)
  | VStr s => negb (String.eqb s "")
  | VList l => match l with [] => false | _ => true end
  | VDict d => negb (Nat.eqb (size d) 0)
  end.

(** [a or b] *)
Definition py_or (a b : value) : value := if truthy a then a else b.

Definition is_dict (v : value) : bool :=
  match v with VDict _ => true | _ => false end.

Definition is_none (v : value) : bool :=
  match v with VNone => true | _ => false end.

(** A dict display [{k1: v1, ..., kn: vn}]: later entries win. *)
Definition dict (kvs : list (string * value)) : gmap string value :=
  foldl (fun m kv => <[kv.1 := kv.2]> m) ∅ kvs.

(** The exception classes the code meets, with their bases. *)
Inductive exn_class : Type :=
| Exception
| AssertionError
| TypeError
| ValueError
| KeyError
| ZeroDivisionError
| RuntimeError
| PathResolutionErrorClass
| OSError
| FileNotFoundError
| FileExistsError
| NotADirectoryError
| IsADirectoryError
| PermissionError.

#[global] Instance exn_class_eq_dec : EqDecision exn_class.
Proof. solve_decision. Defined.

(** The method resolution order of a class, itself first. *)
Definition bases (c : exn_class) : list exn_class :=
  match c with
  | Exception => [Exception]
  | PathResolutionErrorClass => [PathResolutionErrorClass; RuntimeError; Exception]
  | FileNotFoundError | FileExistsError | NotADirectoryError
  | IsADirectoryError | PermissionError => [c; OSError; Exception]
  | _ => [c; Exception]
  end.

Definition subclass_of (c d : exn_class) : bool := bool_decide (d ∈ bases c).

(** A raised exception.  [PathResolutionError] (paths.py, lines 12-17)
    carries [error_type], [message] and [details]. *)
Inductive exn : Type :=
| PyErr (c : exn_class) (msg : string)
| PathResolutionError (error_type message : string) (details : value).

Definition class_of (e : exn) : exn_class :=
  match e with
  | PyErr c _ => c
  | PathResolutionError _ _ _ => PathResolutionErrorClass
  end.

(** [isinstance(e, c)] *)
Definition isinstance (e : exn) (c : exn_class) : bool :=
  subclass_of (class_of e) c.

(** [str(exc)]: [PathResolutionError.__init__] passes [message] to
    [RuntimeError.__init__]. *)
Definition exn_str (e : exn) : string :=
  match e with
  | PyErr _ msg => msg
  | PathResolutionError _ message _ => message
  end.

(** The outcome of a call: a returned value or a raised exception. *)
Inductive result (A : Type) : Type :=
| Ok (a : A)
| Raise (e : exn).
Arguments Ok {A} a.
Arguments Raise {A} e.

Definition bind {A B} (r : result A) (k : A -> result B) : result B :=
  match r with
  | Ok a => k a
  | Raise e => Raise e
  end.

#[global] Instance result_ret : MRet result := @Ok.
#[global] Instance result_bind : MBind result := fun A B k r => bind r k.

(** [try: r  except c as exc: h exc] *)
Definition try_except {A} (r : result A) (c : exn_class)
    (h : exn -> result A) : result A :=
  match r with
  | Ok a => Ok a
  | Raise e => if isinstance e c then h e else Raise e
  end.

(** [assert b, msg] *)
Definition assert_ (b : bool) (msg : string) : result unit :=
  if b then Ok tt else Raise (PyErr AssertionError msg).

(** [d[k]] *)
Definition getitem (d : gmap string value) (k : string) : result value :=
  match d !! k with
  | Some v => Ok v
  | None => Raise (PyErr KeyError k)
  end.

(** [k in d] *)
Definition contains (d : gmap string value) (k : string) : bool :=
  bool_decide (is_Some (d !! k)).

(** The entry [k] of a value that is a dict. *)
Definition field (v : value) (k : string) : option value :=
  match v with
  | VDict d => d !! k
  | _ => None
  end.

(** [v in s] for a set [s] of strings: the operand is hashed first, and
    lists and dicts are unhashable. *)
Definition in_str_set (v : value) (s : list string) : result bool :=
  match v with
  | VStr x => Ok (bool_decide (x ∈ s))
  | VList _ | VDict _ => Raise (PyErr TypeError "unhashable type")
  | _ => Ok false
  end.

(** The builtin [str] on values is the interpreter's; on a [str] it is
    the identity. *)
Class Builtins : Type := {
  py_str : value -> string;
  py_str_VStr : forall s, py_str (VStr s) = s
}.

(** An interpreter for the examples, whose [str] is applied to strings
    and to the constants only. *)
Definition constants_str (v : value) : string :=
  match v with
  | VStr s => s
  | VNone => "None"
  | VBool true => "True"
  | VBool false => "False"
  | _ => ""
  end.

Definition constants_builtins : Builtins :=
  {| py_str := constants_str; py_str_VStr := fun s => eq_refl |}.

(** [try: r  except c1 as exc: h1 exc  except c2 as exc: h2 exc] *)
Definition try_except2 {A} (r : result A) (c1 : exn_class)
    (h1 : exn -> result A) (c2 : exn_class) (h2 : exn -> result A) : result A :=
  match r with
  | Ok a => Ok a
  | Raise e =>
      if isinstance e c1 then h1 e
      else if isinstance e c2 then h2 e
      else Raise e
  end.

(** [sorted(l, key=key)]: a stable sort that compares keys with [<] only;
    each element is put behind the elements that are not greater. *)
Fixpoint insert_by {A} (lt : A -> A -> bool) (x : A) (l : list A) : list A :=
  match l with
  | [] => [x]
  | y :: l' => if lt x y then x :: y :: l' else y :: insert_by lt x l'
  end.

Definition py_sorted {A K} (key : A -> K) (lt : K -> K -> bool)
    (l : list A) : list A :=
  foldl (fun acc x => insert_by (fun a b => lt (key a) (key b)) x acc) [] l.

(** Sequential evaluation of a list of calls: the first raise wins. *)
Fixpoint mapM {A B} (f : A -> result B) (l : list A) : result (list B) :=
  match l with
  | [] => Ok []
  | a :: l' =>
      b ← f a; bs ← mapM f l'; Ok (b :: bs)
  end.

End Py.

Export Py.


(** ** response.py *)

Module Response.
Section WithBuiltins.
Context `{Builtins}.

Definition ALLOWED_ERROR_TYPES : list string :=
  [ "missing_env"; "file_not_found"; "invalid_input"; "permission_denied";
    "file_too_large"; "mp_api_error"; "upstream_timeout";
    "upstream_rate_limited"; "runtime_error" ].

Definition _envelope (ok : bool) (data error meta provenance : value) : value :=
  VDict (dict [ ("ok", VBool ok);
                ("data", data);
                ("error", error);
                ("meta", py_or meta (VDict ∅));
                ("provenance", py_or provenance (VDict ∅)) ]).

(** The chain of assertions in the [try] block of [validate_envelope]. *)
Definition validate_checks (resp : value) : result value :=
  match resp with
  | VDict d =>
      assert_ (contains d "ok") "Envelope missing ok." ;;
      assert_ (contains d "data") "Envelope missing data." ;;
      assert_ (contains d "error") "Envelope missing error." ;;
      assert_ (contains d "meta") "Envelope missing meta." ;;
      assert_ (contains d "provenance") "Envelope missing provenance." ;;
      meta ← getitem d "meta";
      assert_ (is_dict meta) "meta must be dict." ;;
      provenance ← getitem d "provenance";
      assert_ (is_dict provenance) "provenance must be dict." ;;
      ok ← getitem d "ok";
      match ok with
      | VBool true =>
          error ← getitem d "error";
          assert_ (is_none error) "ok True requires error=None." ;;
          Ok resp
      | _ =>
          data ← getitem d "data";
          assert_ (is_none data) "ok False requires data=None." ;;
          error ← getitem d "error";
          match error with
          | VDict e =>
              assert_ (contains e "type") "error missing type." ;;
              assert_ (contains e "message") "error missing message." ;;
              assert_ (contains e "details") "error missing details." ;;
              err_type ← getitem e "type";
              allowed ← in_str_set err_type ALLOWED_ERROR_TYPES;
              assert_ allowed ("Invalid error.type: " +:+ py_str err_type) ;;
              Ok resp
          | _ => Raise (PyErr AssertionError "error must be dict.")
          end
      end
  | _ => Raise (PyErr AssertionError "Envelope must be a dict.")
  end.

Definition validate_envelope (resp : value) (strict : bool) : result value :=
  try_except (validate_checks resp) AssertionError (fun exc =>
    if strict then Raise exc
    else Ok (_envelope false VNone
               (VDict (dict [ ("type", VStr "runtime_error");
                              ("message", VStr "Envelope validation failed.");
                              ("details", VStr (exn_str exc)) ]))
               (VDict ∅) (VDict ∅))).

Definition make_ok (data meta provenance : value) : result value :=
  let resp := _envelope true data VNone meta provenance in
  validate_envelope resp false.

(** The annotations of [error_type] and [message] ([str]) are not
    enforced: the arguments are whatever values the caller passes. *)
Definition make_err (error_type message details meta provenance : value)
    : result value :=
  let resp := _envelope false VNone
                (VDict (dict [ ("type", error_type);
                               ("message", message);
                               ("details", details) ]))
                meta provenance in
  validate_envelope resp false.

(** The envelope substituted when validation fails. *)
Definition validation_failure (details : string) : value :=
  VDict (dict [ ("ok", VBool false);
                ("data", VNone);
                ("error", VDict (dict [ ("type", VStr "runtime_error");
                                        ("message", VStr "Envelope validation failed.");
                                        ("details", VStr details) ]));
                ("meta", VDict ∅);
                ("provenance", VDict ∅) ]).

End WithBuiltins.
End Response.

(** The invariants of an envelope, as the assertions of
    [validate_envelope] state them one by one. *)
Module Envelope.

Definition well_formed (resp : value) : Prop :=
  exists (d meta provenance : gmap string value),
    resp = VDict d
    /\ d !! "meta" = Some (VDict meta)
    /\ d !! "provenance" = Some (VDict provenance)
    /\ ((d !! "ok" = Some (VBool true)
         /\ is_Some (d !! "data")
         /\ d !! "error" = Some VNone)
        \/ (exists ok (e : gmap string value) error_type,
              d !! "ok" = Some ok /\ ok <> VBool true
              /\ d !! "data" = Some VNone
              /\ d !! "error" = Some (VDict e)
              /\ e !! "type" = Some (VStr error_type)
              /\ error_type ∈ Response.ALLOWED_ERROR_TYPES
              /\ is_Some (e !! "message")
              /\ is_Some (e !! "details"))).

(** The error type of an envelope is a list or a dict. *)
Definition unhashable_error_type (resp : value) : Prop :=
  exists error error_type,
    field resp "error" = Some error
    /\ field error "type" = Some error_type
    /\ match error_type with VList _ | VDict _ => True | _ => False end.

(** A value that can be hashed: any value but a list or a dict. *)
Definition hashable (v : value) : Prop :=
  match v with VList _ | VDict _ => False | _ => True end.

(** A [meta] or [provenance] argument that ends up as a dict in the
    envelope: a dict, or a falsy value, which is replaced by the empty
    dict. *)
Definition dict_or_falsy (v : value) : Prop :=
  is_dict v = true \/ truthy v = false.

(** The envelope that stands in for one that failed validation: [ok]
    false, no data, an error of type [runtime_error] with the message
    [Envelope validation failed.] and a text as details, and empty [meta]
    and [provenance]. *)
Definition substituted (env : value) : Prop :=
  exists (d e : gmap string value) (details : string),
    env = VDict d
    /\ d !! "ok" = Some (VBool false)
    /\ d !! "data" = Some VNone
    /\ d !! "error" = Some (VDict e)
    /\ e !! "type" = Some (VStr "runtime_error")
    /\ e !! "message" = Some (VStr "Envelope validation failed.")
    /\ e !! "details" = Some (VStr details)
    /\ d !! "meta" = Some (VDict ∅)
    /\ d !! "provenance" = Some (VDict ∅).

End Envelope.

(** ** Strings *)

Module Str.

Definition code (c : ascii) : Z := Z.of_N (N_of_ascii c).

(** [str.isspace] on the code points below 256. *)
Definition is_space (c : ascii) : bool :=
  let n := code c in
  ((9 <=? n) && (n <=? 13)) || ((28 <=? n) && (n <=? 32))
  || (n =? 133) || (n =? 160).

Fixpoint lstrip (p : ascii -> bool) (s : string) : string :=
  match s with
  | EmptyString => EmptyString
  | String c s' => if p c then lstrip p s' else s
  end.

Fixpoint rstrip (p : ascii -> bool) (s : string) : string :=
  match s with
  | EmptyString => EmptyString
  | String c s' =>
      match rstrip p s' with
      | EmptyString => if p c then EmptyString else String c EmptyString
      | r => String c r
      end
  end.

(** [s.strip()] and [s.strip(chars)] *)
Definition strip_with (p : ascii -> bool) (s : string) : string :=
  rstrip p (lstrip p s).

Definition strip (s : string) : string := strip_with is_space s.

(** [bool(s)] *)
Definition nonempty (s : string) : bool :=
  match s with EmptyString => false | _ => true end.

(** [s.split(sep)] for a one-character separator. *)
Fixpoint split (sep : ascii) (s : string) : list string :=
  match s with
  | EmptyString => [EmptyString]
  | String c s' =>
      if Ascii.eqb c sep then EmptyString :: split sep s'
      else match split sep s' with
           | [] => [String c EmptyString]
           | x :: xs => String c x :: xs
           end
  end.

(** [sep.join(l)] *)
Fixpoint join (sep : string) (l : list string) : string :=
  match l with
  | [] => EmptyString
  | [x] => x
  | x :: l' => x +:+ sep +:+ join sep l'
  end.

(** [s[:n]] *)
Fixpoint take (n : nat) (s : string) : string :=
  match n, s with
  | O, _ => EmptyString
  | _, EmptyString => EmptyString
  | S n', String c s' => String c (take n' s')
  end.

(** Every character of [s] satisfies [p]. *)
Fixpoint all_chars (p : ascii -> bool) (s : string) : bool :=
  match s with
  | EmptyString => true
  | String c s' => p c && all_chars p s'
  end.

Definition is_digit (c : ascii) : bool := (48 <=? code c) && (code c <=? 57).

(** The white space that [int] skips around a literal: the white space of
    C (tab, line feed, vertical tab, form feed, carriage return, space)
    and the two white-space code points above 127 (U+0085 and U+00A0),
    which [int] turns into spaces before it parses.  The separators
    U+001C to U+001F, which [str.strip] removes, are not skipped. *)
Definition is_int_space (c : ascii) : bool :=
  let n := code c in
  ((9 <=? n) && (n <=? 13)) || (n =? 32) || (n =? 133) || (n =? 160).

(** The digits of a literal, read from the left: single underscores are
    allowed between digits.  The result is the value read, the number of
    digits and what follows them; nothing when an underscore is doubled or
    is the last character read. *)
Fixpoint scan_digits (s : string) (acc digits : Z) (after_underscore : bool)
    : option (Z * Z * string) :=
  match s with
  | EmptyString => if after_underscore then None else Some (acc, digits, s)
  | String c s' =>
      if is_digit c then
        scan_digits s' (10 * acc + (code c - 48)) (digits + 1) false
      else if Ascii.eqb c "_" then
        if after_underscore then None else scan_digits s' acc digits true
      else if after_underscore then None else Some (acc, digits, s)
  end.

(** [sys.int_info.default_max_str_digits] and
    [sys.int_info.str_digits_check_threshold]: the interpreter refuses to
    convert a literal of more digits. *)
Definition int_max_str_digits : Z := 4300.
Definition str_digits_check_threshold : Z := 640.

(** [int(s)] on a [str], as [PyLong_FromString] reads it in base 10:
    white space, an optional sign, digits with single underscores between
    them (at most [int_max_str_digits] digits), white space, and nothing
    else.  Every failure is a [ValueError]; of its message, which quotes
    the argument, only the beginning is kept.  (The decimal digits of
    other scripts, which [int] reads as well, are no code points below
    256.) *)
Definition invalid_literal : result Z :=
  Raise (PyErr ValueError "invalid literal for int() with base 10").

(** The literal after the sign. *)
Definition int_digits (negative : bool) (body : string) : result Z :=
  if match body with String c _ => Ascii.eqb c "_" | EmptyString => false end
  then invalid_literal
  else
    match scan_digits body 0 0 false with
    | None => invalid_literal
    | Some (z, digits, rest) =>
        if (str_digits_check_threshold <? digits)
           && (0 <? int_max_str_digits) && (int_max_str_digits <? digits)
        then Raise (PyErr ValueError
                      "Exceeds the limit for integer string conversion")
        else if digits =? 0 then invalid_literal
        else if nonempty (lstrip is_int_space rest) then invalid_literal
        else Ok (if negative then - z else z)
    end.

Definition py_int (s : string) : result Z :=
  match lstrip is_int_space s with
  | String c r =>
      if Ascii.eqb c "+" then int_digits false r
      else if Ascii.eqb c "-" then int_digits true r
      else int_digits false (String c r)
  | EmptyString => int_digits false EmptyString
  end.

(** [c * n] for a one-character string [c]. *)
Fixpoint replicate (n : nat) (c : ascii) : string :=
  match n with
  | O => EmptyString
  | S n' => String c (replicate n' c)
  end.

End Str.

(** ** Pure paths ([pathlib.PurePosixPath]) *)

Module PurePath.

(** A path is its root flag and its components; a component is never
    empty and never [.]. *)
Record t : Type := mk { absolute : bool; parts : list string }.

#[global] Instance t_eq_dec : EqDecision t.
Proof. solve_decision. Defined.

Definition keep_part (s : string) : bool :=
  negb (String.eqb s "") && negb (String.eqb s ".").

(** [Path(s)] *)
Definition parse (s : string) : t :=
  {| absolute := match s with String "/" _ => true | _ => false end;
     parts := filter (fun x => keep_part x = true) (Str.split "/" s) |}.

(** [str(p)] *)
Definition to_str (p : t) : string :=
  if absolute p then "/" +:+ Str.join "/" (parts p)
  else match parts p with
       | [] => "."
       | ps => Str.join "/" ps
       end.

Fixpoint is_prefix (xs ys : list string) : bool :=
  match xs, ys with
  | [], _ => true
  | x :: xs', y :: ys' => String.eqb x y && is_prefix xs' ys'
  | _ :: _, [] => false
  end.

(** [p.is_relative_to(root)]: [p] is [root] or [root] is one of its
    parents; a comparison of components, not of characters. *)
Definition is_relative_to (p root : t) : bool :=
  Bool.eqb (absolute p) (absolute root) && is_prefix (parts root) (parts p).

(** [p / s] *)
Definition joinpath (p : t) (s : string) : t :=
  let q := parse s in
  if absolute q then q
  else {| absolute := absolute p; parts := parts p ++ parts q |}.

(** [p.parent] *)
Definition parent (p : t) : t :=
  {| absolute := absolute p; parts := removelast (parts p) |}.

(** [p.name] *)
Definition name (p : t) : string := List.last (parts p) "".

(** The index of the last [.] of a name, if any ([name.rfind('.')]). *)
Fixpoint rfind_dot (s : string) : option nat :=
  match s with
  | EmptyString => None
  | String c s' =>
      match rfind_dot s' with
      | Some i => Some (S i)
      | None => if Ascii.eqb c "." then Some O else None
      end
  end.

(** [p.stem]: the name without its last suffix. *)
Definition stem_of (nm : string) : string :=
  match rfind_dot nm with
  | Some i =>
      if (0 <? i)%nat && (i <? String.length nm - 1)%nat then Str.take i nm
      else nm
  | None => nm
  end.

Definition stem (p : t) : string := stem_of (name p).

End PurePath.

(** ** paths.py *)

Module Paths.

Definition DEFAULT_MAX_FILE_BYTES : Z := 2000000.

(** [PathResolutionError(error_type, message, details)]: the constructor
    stores [details or {}]. *)
Definition PathResolutionError_init (error_type message : string)
    (details : value) : exn :=
  PathResolutionError error_type message (py_or details (VDict ∅)).

(** What the resolver reads from its surroundings: the process
    environment, the home directories and symbolic links behind
    [expanduser] and [resolve], the file system behind [exists], [is_file]
    and [stat], the location of the module file, the asset directory of
    package [src] and the working directory. *)
Record World : Type := {
  getenv : string -> option string;
  expanduser : PurePath.t -> result PurePath.t;
  resolve : PurePath.t -> result PurePath.t;
  path_exists : PurePath.t -> result bool;
  is_file : PurePath.t -> result bool;
  stat_size : PurePath.t -> result Z;
  repo_root : PurePath.t;
  ASSETS_DIR : PurePath.t;
  cwd : PurePath.t
}.

(** [os.pathsep] *)
Definition pathsep : ascii := ":".

Section WithWorld.
Variable w : World.

Definition _parse_max_bytes : result Z :=
  match getenv w "SKY_MCP_MAX_FILE_BYTES" with
  | None => Ok DEFAULT_MAX_FILE_BYTES
  | Some value =>
      if negb (Str.nonempty value) then Ok DEFAULT_MAX_FILE_BYTES
      else
        try_except
          (parsed ← Str.py_int value;
           Ok (if parsed >? 0 then parsed else DEFAULT_MAX_FILE_BYTES))
          ValueError
          (fun _ => Ok DEFAULT_MAX_FILE_BYTES)
  end.

Definition _default_allowed_roots : list PurePath.t :=
  let roots := [repo_root w; ASSETS_DIR w; cwd w] in
  match getenv w "SKY_MCP_ALLOWED_ROOTS" with
  | None => roots
  | Some extra =>
      if Str.nonempty extra then
        foldl (fun roots raw =>
                 let raw := Str.strip raw in
                 if Str.nonempty raw then roots ++ [PurePath.parse raw]
                 else roots)
              roots (Str.split pathsep extra)
      else roots
  end.

(** [not path_str or not str(path_str).strip()] *)
Definition blank (path_str : string) : bool :=
  negb (Str.nonempty path_str) || negb (Str.nonempty (Str.strip path_str)).

(** [list(allowed_roots) if allowed_roots is not None else
    _default_allowed_roots()] *)
Definition effective_roots (allowed_roots : option (list PurePath.t))
    : list PurePath.t :=
  match allowed_roots with
  | Some rs => rs
  | None => _default_allowed_roots
  end.

(** [max_bytes if max_bytes is not None else _parse_max_bytes()] *)
Definition effective_limit (max_bytes : option Z) : result Z :=
  match max_bytes with
  | Some m => Ok m
  | None => _parse_max_bytes
  end.

(** [Path(root).expanduser().resolve(strict=False)] *)
Definition normalize_root (root : PurePath.t) : result PurePath.t :=
  candidate ← expanduser w root; resolve w candidate.

Definition path_value (p : PurePath.t) : value := VStr (PurePath.to_str p).

Definition resolve_local_path (path_str : string)
    (allowed_roots : option (list PurePath.t)) (max_bytes : option Z)
    : result PurePath.t :=
  if blank path_str
  then Raise (PathResolutionError_init "invalid_input" "Path is required." VNone)
  else
    candidate ←
      try_except (expanduser w (PurePath.parse path_str)) Exception
        (fun exc =>
           Raise (PathResolutionError_init "invalid_input" "Invalid path string."
                    (VDict (dict [("error", VStr (exn_str exc))]))));
    resolved ← resolve w candidate;
    let roots := effective_roots allowed_roots in
    resolved_roots ← mapM normalize_root roots;
    if negb (existsb (PurePath.is_relative_to resolved) resolved_roots) then
      Raise (PathResolutionError_init "permission_denied"
               "Path is outside allowed roots."
               (VDict (dict [ ("path", path_value resolved);
                              ("allowed_roots",
                               VList (path_value <$> resolved_roots)) ])))
    else
      found ← path_exists w resolved;
      if negb found then
        Raise (PathResolutionError_init "file_not_found" "File not found."
                 (VDict (dict [("path", path_value resolved)])))
      else
        regular ← is_file w resolved;
        if negb regular then
          Raise (PathResolutionError_init "invalid_input" "Path is not a file."
                   (VDict (dict [("path", path_value resolved)])))
        else
          limit ← effective_limit max_bytes;
          size ←
            try_except (stat_size w resolved) OSError
              (fun exc =>
                 Raise (PathResolutionError_init "runtime_error"
                          "Unable to stat file."
                          (VDict (dict [ ("path", path_value resolved);
                                         ("error", VStr (exn_str exc)) ]))));
          if size >? limit then
            Raise (PathResolutionError_init "file_too_large"
                     "File exceeds size limit."
                     (VDict (dict [ ("path", path_value resolved);
                                    ("size", VInt size);
                                    ("max_bytes", VInt limit) ])))
          else Ok resolved.

End WithWorld.

(** A path lies within a root when it is the root or below it. *)
Definition within (p root : PurePath.t) : Prop :=
  PurePath.absolute p = PurePath.absolute root
  /\ exists rest, PurePath.parts p = PurePath.parts root ++ rest.

(** Two worlds agree when every observation the resolver can make gives
    the same answer in both. *)
Definition world_agree (w1 w2 : World) : Prop :=
  (forall k, getenv w1 k = getenv w2 k)
  /\ (forall p, expanduser w1 p = expanduser w2 p)
  /\ (forall p, resolve w1 p = resolve w2 p)
  /\ (forall p, path_exists w1 p = path_exists w2 p)
  /\ (forall p, is_file w1 p = is_file w2 p)
  /\ (forall p, stat_size w1 p = stat_size w2 p)
  /\ repo_root w1 = repo_root w2
  /\ ASSETS_DIR w1 = ASSETS_DIR w2
  /\ cwd w1 = cwd w2.

(** The interpreter and pathlib raise exceptions of their own classes,
    never a [PathResolutionError]. *)
Definition raises_builtin {A} (r : result A) : Prop :=
  match r with
  | Raise (PathResolutionError _ _ _) => False
  | _ => True
  end.

Definition library_world (w : World) : Prop :=
  (forall p, raises_builtin (expanduser w p))
  /\ (forall p, raises_builtin (resolve w p))
  /\ (forall p, raises_builtin (path_exists w p))
  /\ (forall p, raises_builtin (is_file w p))
  /\ (forall p, raises_builtin (stat_size w p)).

(** The error types the resolver raises itself. *)
Definition RESOLVER_ERROR_TYPES : list string :=
  [ "invalid_input"; "permission_denied"; "file_not_found"; "runtime_error";
    "file_too_large" ].

(** *** A world to run the resolver in

    A file system without symbolic links, given by the sizes of its
    regular files and by its directories; [resolve] is then the lexical
    normalisation against the working directory, which rejects a
    component with a NUL character as the system calls do. *)

Definition has_nul (s : string) : bool :=
  existsb (fun c => Str.code c =? 0) (list_ascii_of_string s).

Fixpoint fold_dots (stack : list string) (ps : list string) : list string :=
  match ps with
  | [] => rev stack
  | p :: ps' =>
      if String.eqb p ".." then fold_dots (tl stack) ps'
      else fold_dots (p :: stack) ps'
  end.

Definition lexical_resolve (cwd : PurePath.t) (p : PurePath.t) : result PurePath.t :=
  if existsb has_nul (PurePath.parts p) then
    Raise (PyErr ValueError "embedded null byte")
  else
    let base := if PurePath.absolute p then [] else PurePath.parts cwd in
    Ok (PurePath.mk true (fold_dots [] (base ++ PurePath.parts p))).

Definition home_expanduser (home : PurePath.t) (p : PurePath.t) : result PurePath.t :=
  match PurePath.absolute p, PurePath.parts p with
  | false, String "~" EmptyString :: rest =>
      Ok (PurePath.mk (PurePath.absolute home) (PurePath.parts home ++ rest))
  | false, String "~" _ :: _ =>
      Raise (PyErr RuntimeError "Could not determine home directory.")
  | _, _ => Ok p
  end.

Definition lookup_size (files : list (PurePath.t * Z)) (p : PurePath.t) : option Z :=
  snd <$> List.find (fun f => bool_decide (fst f = p)) files.

Definition plain_world (env : list (string * string))
    (home cwd : PurePath.t)
    (dirs : list PurePath.t) (files : list (PurePath.t * Z)) : World :=
  {| getenv := fun k => snd <$> List.find (fun kv => String.eqb (fst kv) k) env;
     expanduser := home_expanduser home;
     resolve := lexical_resolve cwd;
     path_exists := fun p =>
       Ok (bool_decide (p ∈ dirs) || bool_decide (is_Some (lookup_size files p)));
     is_file := fun p => Ok (bool_decide (is_Some (lookup_size files p)));
     stat_size := fun p =>
       match lookup_size files p with
       | Some n => Ok n
       | None =>
           if bool_decide (p ∈ dirs) then Ok 4096
           else Raise (PyErr FileNotFoundError "No such file or directory")
       end;
     repo_root := PurePath.parse "/srv/sky";
     ASSETS_DIR := PurePath.parse "/srv/sky/assets";
     cwd := cwd |}.

(** A repository under [/srv/sky], the working directory [/srv/sky/work],
    no environment variable set, a small file and one of 2,000,001 bytes. *)
Definition sample_world : World :=
  plain_world [] (PurePath.parse "/home/u") (PurePath.parse "/srv/sky/work")
    [ PurePath.parse "/srv/sky"; PurePath.parse "/srv/sky/work" ]
    [ (PurePath.parse "/srv/sky/a.cif", 10);
      (PurePath.parse "/srv/sky/big.cif", 2000001) ].

(** The same with the size ceiling overridden in the environment. *)
Definition tuned_world (value : string) : World :=
  plain_world [("SKY_MCP_MAX_FILE_BYTES", value)]
    (PurePath.parse "/home/u") (PurePath.parse "/srv/sky/work")
    [ PurePath.parse "/srv/sky"; PurePath.parse "/srv/sky/work" ]
    [ (PurePath.parse "/srv/sky/a.cif", 10);
      (PurePath.parse "/srv/sky/big.cif", 2000001) ].

(** The sample world with a file system that refuses [stat]. *)
Definition unreadable_world : World :=
  {| getenv := getenv sample_world;
     expanduser := expanduser sample_world;
     resolve := resolve sample_world;
     path_exists := path_exists sample_world;
     is_file := is_file sample_world;
     stat_size := fun _ => Raise (PyErr PermissionError "Permission denied");
     repo_root := repo_root sample_world;
     ASSETS_DIR := ASSETS_DIR sample_world;
     cwd := cwd sample_world |}.

(** The sample world with two more roots in the environment. *)
Definition widened_world : World :=
  plain_world [("SKY_MCP_ALLOWED_ROOTS", "/data/cifs: :/mnt/shared ")]
    (PurePath.parse "/home/u") (PurePath.parse "/srv/sky/work")
    [ PurePath.parse "/srv/sky"; PurePath.parse "/srv/sky/work" ] [].

(** The string [a\x00b]. *)
Definition nul_path : string := String "a" (String Ascii.zero "b").

End Paths.

(** ** The file system seen by the report writer *)

Module FS.

(** Files are located by the components of their absolute, normalised
    path.  There are no symbolic links, and locating a path is the lexical
    normalisation against the working directory: a [..] cancels the
    component before it.  This is where the system calls look when the
    path has no [..] component, or when every component that a [..]
    cancels is an existing directory. *)
Definition loc : Type := list string.

Inductive node : Type :=
| Dir
| File (content : string).

(** The system calls that change the file system, as they are issued. *)
Inductive syscall : Type :=
| SysMkdir (p : loc)
| SysOpenExcl (p : loc)
| SysWriteClose (p : loc) (content : string)
| SysRename (src dst : loc).

(** [write_fault l content] is what the device does to a write of
    [content] to the open file [l]: nothing, or an exception raised by
    the write or by the close after so many characters have reached the
    file. *)
Record state : Type := {
  cwd : loc;
  nodes : gmap loc node;
  log : list syscall;
  write_fault : loc -> string -> option (exn * nat)
}.

(** The root always exists. *)
Definition lookup_node (st : state) (p : loc) : option node :=
  match p with
  | [] => Some Dir
  | _ => nodes st !! p
  end.

Definition is_dir (st : state) (p : loc) : bool :=
  match lookup_node st p with Some Dir => true | _ => false end.

Definition locate (st : state) (p : PurePath.t) : loc :=
  Paths.fold_dots []
    ((if PurePath.absolute p then [] else cwd st) ++ PurePath.parts p).


Definition is_rename (c : syscall) : Prop :=
  match c with SysRename _ _ => True | _ => False end.



(** Calls that read and change the file system and may raise. *)
Definition io (A : Type) : Type := state -> result A * state.

#[global] Instance io_ret : MRet io := fun A a st => (Ok a, st).
#[global] Instance io_bind : MBind io := fun A B k m st =>
  match m st with
  | (Ok a, st') => k a st'
  | (Raise e, st') => (Raise e, st')
  end.

Definition raise {A} (e : exn) : io A := fun st => (Raise e, st).

Definition update (p : loc) (n : option node) (c : syscall) (st : state) : state :=
  {| cwd := cwd st;
     nodes := match n with
              | Some n => <[p := n]> (nodes st)
              | None => delete p (nodes st)
              end;
     log := log st ++ [c];
     write_fault := write_fault st |}.

(** [os.mkdir(p)] *)
Definition os_mkdir (p : PurePath.t) : io unit := fun st =>
  let l := locate st p in
  match lookup_node st l with
  | Some _ => (Raise (PyErr FileExistsError "File exists"), st)
  | None =>
      match lookup_node st (removelast l) with
      | Some Dir => (Ok tt, update l (Some Dir) (SysMkdir l) st)
      | Some (File _) => (Raise (PyErr NotADirectoryError "Not a directory"), st)
      | None => (Raise (PyErr FileNotFoundError "No such file or directory"), st)
      end
  end.

(** [p.mkdir(parents=..., exist_ok=...)] as pathlib defines it: try
    [os.mkdir]; when the parent is missing create it first and try again;
    when the call fails otherwise, accept an existing directory. *)
Fixpoint mkdir (fuel : nat) (p : PurePath.t) (parents exist_ok : bool) : io unit :=
  fun st =>
    match os_mkdir p st with
    | (Ok tt, st') => (Ok tt, st')
    | (Raise e, st') =>
        if isinstance e FileNotFoundError then
          if negb parents || bool_decide (PurePath.parent p = p) then (Raise e, st')
          else
            match fuel with
            | O => (Raise e, st')
            | S fuel' =>
                match mkdir fuel' (PurePath.parent p) true true st' with
                | (Ok tt, st'') => mkdir fuel' p false exist_ok st''
                | (Raise e', st'') => (Raise e', st'')
                end
            end
        else if isinstance e OSError then
          if negb exist_ok || negb (is_dir st' (locate st' p)) then (Raise e, st')
          else (Ok tt, st')
        else (Raise e, st')
    end.

(** [os.open(p, O_CREAT | O_EXCL)]: a new, empty file. *)
Definition open_excl (p : PurePath.t) : io unit := fun st =>
  let l := locate st p in
  match lookup_node st l with
  | Some _ => (Raise (PyErr FileExistsError "File exists"), st)
  | None =>
      match lookup_node st (removelast l) with
      | Some Dir => (Ok tt, update l (Some (File "")) (SysOpenExcl l) st)
      | Some (File _) => (Raise (PyErr NotADirectoryError "Not a directory"), st)
      | None => (Raise (PyErr FileNotFoundError "No such file or directory"), st)
      end
  end.

(** Writing [content] to the open file [p] and closing it: [tmp.write]
    and the end of the [with] block.  When the device fails, the file
    keeps what reached it and the exception is raised. *)
Definition write_close (p : PurePath.t) (content : string) : io unit := fun st =>
  let l := locate st p in
  match write_fault st l content with
  | Some (e, written) =>
      let reached := Str.take written content in
      (Raise e, update l (Some (File reached)) (SysWriteClose l reached) st)
  | None =>
      (Ok tt, update l (Some (File content)) (SysWriteClose l content) st)
  end.

(** [os.replace(src, dst)]: the rename system call. *)
Definition os_replace (src dst : PurePath.t) : io unit := fun st =>
  let s := locate st src in
  let d := locate st dst in
  match lookup_node st s with
  | None => (Raise (PyErr FileNotFoundError "No such file or directory"), st)
  | Some Dir => (Raise (PyErr OSError "renaming directories is not modelled"), st)
  | Some (File content) =>
      match lookup_node st d with
      | Some Dir => (Raise (PyErr IsADirectoryError "Is a directory"), st)
      | _ =>
          match lookup_node st (removelast d) with
          | Some Dir =>
              if bool_decide (s = d) then
                (Ok tt, {| cwd := cwd st; nodes := nodes st;
                           log := log st ++ [SysRename s d];
                           write_fault := write_fault st |})
              else
                (Ok tt,
                 {| cwd := cwd st;
                    nodes := delete s (<[d := File content]> (nodes st));
                    log := log st ++ [SysRename s d];
                    write_fault := write_fault st |})
          | Some (File _) =>
              (Raise (PyErr NotADirectoryError "Not a directory"), st)
          | None =>
              (Raise (PyErr FileNotFoundError "No such file or directory"), st)
          end
      end
  end.

(** [tempfile.NamedTemporaryFile(delete=False, dir=..., prefix=...,
    suffix=...)]: the candidate names come from the random name sequence
    of [tempfile], given here as the list of the names it would yield (at
    most [TMP_MAX] of them); the first one that is free is created. *)
Fixpoint named_temporary_file (names : list string) (dir : PurePath.t)
    (prefix suffix : string) : io PurePath.t :=
  match names with
  | [] => raise (PyErr FileExistsError "No usable temporary file name found")
  | name :: names' =>
      let file := PurePath.mk (PurePath.absolute dir)
                    (PurePath.parts dir ++ [prefix +:+ name +:+ suffix]) in
      fun st =>
        match open_excl file st with
        | (Ok tt, st') => (Ok file, st')
        | (Raise e, st') =>
            if isinstance e FileExistsError then
              named_temporary_file names' dir prefix suffix st'
            else (Raise e, st')
        end
  end.

End FS.

(** ** report_io.py *)

Module ReportIO.

(** The characters of the set [A-Za-z0-9_-]. *)
Definition slug_char (c : ascii) : bool :=
  let n := Str.code c in
  ((65 <=? n) && (n <=? 90)) || ((97 <=? n) && (n <=? 122))
  || ((48 <=? n) && (n <=? 57)) || (n =? 95) || (n =? 45).

(** [re.sub(r"[^A-Za-z0-9_-]+", "_", text)]: every maximal run of
    characters outside the set is one match. *)
Fixpoint sub_runs (in_run : bool) (text : string) : string :=
  match text with
  | EmptyString => EmptyString
  | String c text' =>
      if slug_char c then String c (sub_runs false text')
      else if in_run then sub_runs true text'
      else String "_" (sub_runs true text')
  end.

Definition is_underscore (c : ascii) : bool := Ascii.eqb c "_".

Definition _slugify (text : string) (max_len : nat) : string :=
  let slug := Str.strip_with is_underscore (sub_runs false text) in
  let slug := if negb (Str.nonempty slug) then "report" else slug in
  Str.take max_len slug.

(** [uuid_func] stands for the identifier generator together with [str]:
    it yields the text of a fresh identifier. *)
Definition build_report_path (query : string) (reports_dir : PurePath.t)
    (uuid_func : unit -> string) : PurePath.t :=
  let slug := _slugify query 50 in
  let uid := uuid_func tt in
  let filename := slug +:+ "_" +:+ uid +:+ ".html" in
  PurePath.joinpath reports_dir filename.

(** [names] is what the random name sequence of [tempfile] yields during
    the call. *)
Definition atomic_write_text (names : list string) (target_path : PurePath.t)
    (content : string) : FS.io unit :=
  let parent := PurePath.parent target_path in
  FS.mkdir (length (PurePath.parts parent)) parent true true ;;
  tmp ← FS.named_temporary_file names parent
          (PurePath.stem target_path +:+ "_") ".tmp";
  FS.write_close tmp content ;;
  FS.os_replace tmp target_path.

(** *** The slug as the specification words it *)

(** Every character outside the set becomes [_]. *)
Fixpoint replace_each (text : string) : string :=
  match text with
  | EmptyString => EmptyString
  | String c text' =>
      String (if slug_char c then c else "_"%char) (replace_each text')
  end.

(** Replace each character, trim [_], truncate to 50, default to
    [report]. *)
Definition slug_by_character (text : string) : string :=
  let slug := Str.take 50 (Str.strip_with is_underscore (replace_each text)) in
  if Str.nonempty slug then slug else "report".

(** The maximal blocks of a text: characters of the set, or characters
    outside it. *)
Fixpoint blocks (text : string) : list (bool * string) :=
  match text with
  | EmptyString => []
  | String c text' =>
      match blocks text' with
      | (b, s) :: rest =>
          if Bool.eqb b (slug_char c) then (b, String c s) :: rest
          else (slug_char c, String c EmptyString) :: (b, s) :: rest
      | [] => [(slug_char c, String c EmptyString)]
      end
  end.

(** Every maximal run of characters outside the set becomes a single
    [_]; the other blocks stay. *)
Definition block_text (b : bool * string) : string :=
  if fst b then snd b else "_".

Definition replace_runs (text : string) : string :=
  Str.join "" (block_text <$> blocks text).

(** What a substitution that starts inside a run sees of the blocks: a
    leading block of characters outside the set belongs to the match
    already begun. *)
Definition after_run (bs : list (bool * string)) : list (bool * string) :=
  match bs with
  | (false, _) :: rest => rest
  | _ => bs
  end.

(** Replace each run, trim [_], truncate to 50, default to [report]. *)
Definition slug_by_run (text : string) : string :=
  let slug := Str.take 50 (Str.strip_with is_underscore (replace_runs text)) in
  if Str.nonempty slug then slug else "report".

(** A file system that holds the working directory [/srv/sky/work] and
    nothing else, on a device that does not fail. *)
Definition bare_state : FS.state :=
  {| FS.cwd := ["srv"; "sky"; "work"];
     FS.nodes := <[ ["srv"; "sky"; "work"] := FS.Dir ]>
                   (<[ ["srv"; "sky"] := FS.Dir ]>
                      (<[ ["srv"] := FS.Dir ]> ∅));
     FS.log := [];
     FS.write_fault := fun _ _ => None |}.

(** The same with an earlier report [r.html] in the working directory,
    on a device that is full after six more characters. *)
Definition full_state : FS.state :=
  {| FS.cwd := ["srv"; "sky"; "work"];
     FS.nodes := <[ ["srv"; "sky"; "work"; "r.html"] := FS.File "<html>old</html>" ]>
                   (FS.nodes bare_state);
     FS.log := [];
     FS.write_fault := fun _ _ =>
       Some (PyErr OSError "No space left on device", 6%nat) |}.

Definition not_slash (c : ascii) : bool := negb (Ascii.eqb c "/").

Definition fixed_uuid : unit -> string := fun _ => "fixed-uuid".

End ReportIO.

(** ** server.py *)

Module Server.

(** A tool handler is a function of module [tools]; registration looks at
    nothing of it but its [__name__]. *)
Record handler : Type := { fn_name : string }.

(** [ToolDef = Tuple[str, Callable[..., dict], str]] *)
Record ToolDef : Type := {
  td_name : string;
  td_func : handler;
  td_description : string
}.

Definition tool (name : string) : handler := {| fn_name := name |}.

Definition TOOL_DEFS : list ToolDef :=
  [ {| td_name := "capabilities"; td_func := tool "capabilities";
       td_description := "Report available assets, env vars, and versions." |};
    {| td_name := "search_similar_by_composition";
       td_func := tool "search_similar_by_composition";
       td_description := "Find similar materials by composition." |};
    {| td_name := "search_similar_by_structure_cif";
       td_func := tool "search_similar_by_structure_cif";
       td_description := "Find similar materials by CIF text (canonical)." |};
    {| td_name := "search_similar_by_structure_path";
       td_func := tool "search_similar_by_structure_path";
       td_description := "Find similar materials by CIF file path (local-only)." |};
    {| td_name := "read_cif"; td_func := tool "read_cif";
       td_description := "Read CIF text and return structure metadata." |};
    {| td_name := "read_cif_path"; td_func := tool "read_cif_path";
       td_description :=
         "Read CIF file path and return structure metadata (local-only)." |};
    {| td_name := "get_material_properties";
       td_func := tool "get_material_properties";
       td_description := "Fetch Materials Project properties." |};
    {| td_name := "get_synthesis_recipes";
       td_func := tool "get_synthesis_recipes";
       td_description := "Retrieve synthesis recipes for a formula." |};
    {| td_name := "analyze_synthesis_parameters";
       td_func := tool "analyze_synthesis_parameters";
       td_description := "Extract synthesis parameters from text." |};
    {| td_name := "recursive_synthesis_search";
       td_func := tool "recursive_synthesis_search";
       td_description :=
         "Recursive synthesis search using similarity neighbors." |};
    {| td_name := "discover_synthesis_report";
       td_func := tool "discover_synthesis_report";
       td_description :=
         "Expensive, networked, nondeterministic synthesis report." |};
    {| td_name := "self_check"; td_func := tool "self_check";
       td_description := "Run deterministic checks for MCP readiness." |} ].

(** The registration function of a transport backend ([mcp.tool],
    [server.tool]) over the backend's state [S]: the parameter names
    [inspect.signature] reports for it, or the exception it raises, and
    the effect of [factory(name=..., description=...)(func)] and of
    [factory()(func)] on the backend. *)
Record Factory (S : Type) : Type := {
  signature : result (list string);
  decorate : option (string * string) -> handler -> S -> result S
}.
Arguments signature {S} _.
Arguments decorate {S} _ _ _ _.

Section WithBackend.
Context {S : Type}.

Definition _supports_named (tool_func : Factory S) : result bool :=
  try_except
    (try_except
       (parameters ← signature tool_func;
        Ok (bool_decide ("name" ∈ parameters)))
       TypeError (fun _ => Ok false))
    ValueError (fun _ => Ok false).

(** The loop of [_register_tools] over a list of descriptors. *)
Fixpoint register_each (tool_decorator_factory : Factory S)
    (supports_named : bool) (defs : list ToolDef) (backend : S) : result S :=
  match defs with
  | [] => Ok backend
  | d :: defs' =>
      let arguments :=
        if supports_named then Some (td_name d, td_description d) else None in
      backend' ← decorate tool_decorator_factory arguments (td_func d) backend;
      register_each tool_decorator_factory supports_named defs' backend'
  end.

Definition _register_tools (tool_decorator_factory : Factory S) (backend : S)
    : result S :=
  supports_named ← _supports_named tool_decorator_factory;
  register_each tool_decorator_factory supports_named TOOL_DEFS backend.

End WithBackend.

(** A backend that records what it is given, in order, and refuses
    nothing. *)
Definition recording (parameters : list string)
    : Factory (list (option (string * string) * handler)) :=
  {| signature := Ok parameters;
     decorate := fun arguments func registered =>
                   Ok (registered ++ [(arguments, func)]) |}.

(** A list of descriptors in which a name occurs twice. *)
Definition twice : list ToolDef :=
  [ {| td_name := "read_cif"; td_func := tool "read_cif";
       td_description := "Read CIF text and return structure metadata." |};
    {| td_name := "read_cif"; td_func := tool "read_cif_path";
       td_description := "Read CIF file path." |} ].

End Server.

(** ** tools.py: the similarity search by composition *)

Module Tools.

(** A neighbour record of the search collaborator. *)
Record Neighbor : Type := {
  material_id : string;
  formula : string;
  distance : spec_float
}.

(** [1.0] *)
Definition float_one : spec_float := SFone prec emax.

Definition is_nan (f : spec_float) : bool :=
  match f with S754_nan => true | _ => false end.

(** [a / b] on floats raises when [b == 0.0]. *)
Definition py_truediv (a b : spec_float) : result spec_float :=
  if float_is_zero b then Raise (PyErr ZeroDivisionError "float division by zero")
  else Ok (SFdiv prec emax a b).

Definition _derived_similarity (distance : spec_float) : result spec_float :=
  py_truediv float_one (SFadd prec emax float_one distance).

(** [lambda n: (n.distance, n.material_id, n.formula)] *)
Definition sort_key (n : Neighbor) : spec_float * string * string :=
  (distance n, material_id n, formula n).

(** [a < b] on such tuples: the first components that differ decide. *)
Definition key_lt (a b : spec_float * string * string) : bool :=
  let '(da, ia, fa) := a in
  let '(db, ib, fb) := b in
  if negb (SFeqb da db) then SFltb da db
  else if negb (String.eqb ia ib) then String.ltb ia ib
  else if negb (String.eqb fa fb) then String.ltb fa fb
  else false.

(** [a <= b] on such tuples. *)
Definition key_le (a b : spec_float * string * string) : bool :=
  let '(da, ia, fa) := a in
  let '(db, ib, fb) := b in
  if negb (SFeqb da db) then SFleb da db
  else if negb (String.eqb ia ib) then String.leb ia ib
  else if negb (String.eqb fa fb) then String.leb fa fb
  else true.

(** An entry of the returned neighbour list. *)
Record Entry : Type := {
  rank : Z;
  e_material_id : string;
  e_formula : string;
  e_distance : spec_float;
  similarity : spec_float
}.

Definition entry_value (e : Entry) : value :=
  VDict (dict [ ("rank", VInt (rank e));
                ("material_id", VStr (e_material_id e));
                ("formula", VStr (e_formula e));
                ("distance", VFloat (e_distance e));
                ("similarity", VFloat (similarity e)) ]).

Definition neighbor_of (e : Entry) : Neighbor :=
  {| material_id := e_material_id e; formula := e_formula e;
     distance := e_distance e |}.

(** The loop over [enumerate(neighbors, start=idx)]. *)
Fixpoint rank_from (idx : Z) (neighbors : list Neighbor) : result (list Entry) :=
  match neighbors with
  | [] => Ok []
  | neighbor :: rest =>
      sim ← _derived_similarity (distance neighbor);
      results ← rank_from (idx + 1) rest;
      Ok ({| rank := idx;
             e_material_id := material_id neighbor;
             e_formula := formula neighbor;
             e_distance := distance neighbor;
             similarity := sim |} :: results)
  end.

(** The collaborators of the tool: [Composition], the lookup of the
    embedding file ([_composition_embedding_path()], which returns the
    file found, or [None], or raises what [exists], [glob] or [is_file]
    raise on the asset directory), [SearchAPI(input_type=COMPOSITION,
    max_neighbors=m).query(c, n_neighbors=n)] with the imports it needs,
    the package version and the asset directory. *)
Record Services (comp : Type) : Type := {
  parse_composition : string -> result comp;
  composition_embedding : result (option PurePath.t);
  search_query : comp -> Z -> Z -> result (list Neighbor);
  sky_version : string;
  assets_dir : PurePath.t
}.
Arguments parse_composition {comp} _ _.
Arguments composition_embedding {comp} _.
Arguments search_query {comp} _ _ _ _.
Arguments sky_version {comp} _.
Arguments assets_dir {comp} _.

Section WithServices.
Context `{Builtins} {comp : Type}.
Variable svc : Services comp.

Definition _meta (tool_name : string) (warnings : value) : value :=
  VDict (dict [ ("tool", VStr tool_name);
                ("version", VStr (sky_version svc));
                ("warnings", py_or warnings (VList [])) ]).

Definition _missing_asset_error (tool_name : string) (base : PurePath.t)
    (preferred globs : list string) : result value :=
  Response.make_err "file_not_found" "Required asset not found."
    (VDict (dict [ ("base_dir", VStr (PurePath.to_str base));
                   ("preferred_names", VList (VStr <$> preferred));
                   ("globs", VList (VStr <$> globs)) ]))
    (_meta tool_name VNone) VNone.

Definition search_similar_by_composition (formula : string) (top_n : Z)
    : result value :=
  let tool_name := "search_similar_by_composition" in
  if negb (Str.nonempty formula) || negb (Str.nonempty (Str.strip formula)) then
    Response.make_err "invalid_input" "Formula is required." VNone
      (_meta tool_name VNone) VNone
  else
    match parse_composition svc formula with
    | Raise exc =>
        if isinstance exc Exception then
          Response.make_err "invalid_input" "Invalid formula."
            (VStr (exn_str exc)) (_meta tool_name VNone) VNone
        else Raise exc
    | Ok composition =>
        embedding_path ← composition_embedding svc;
        match embedding_path with
        | None =>
            _missing_asset_error tool_name
              (PurePath.joinpath (assets_dir svc) "embedding")
              ["mp_dataset_composition_magpie.h5"] ["*composition*.h5"]
        | Some _ =>
            try_except2
              (neighbors ← search_query svc composition (Z.max 100 top_n) top_n;
               let neighbors := py_sorted sort_key key_lt neighbors in
               results ← rank_from 1 neighbors;
               Response.make_ok
                 (VDict (dict [ ("query", VStr formula);
                                ("num_results", VInt (Z.of_nat (length results)));
                                ("neighbors", VList (entry_value <$> results)) ]))
                 (_meta tool_name VNone)
                 (VDict (dict [ ("source", VStr "computed");
                                ("ids", VList ((fun n => VStr (e_material_id n))
                                                 <$> results)) ])))
              FileNotFoundError
              (fun exc =>
                 Response.make_err "file_not_found" "Embedding dataset not found."
                   (VStr (exn_str exc)) (_meta tool_name VNone) VNone)
              Exception
              (fun exc =>
                 Response.make_err "runtime_error" "Similarity search failed."
                   (VStr (exn_str exc)) (_meta tool_name VNone) VNone)
        end
    end.

End WithServices.

(** The key of a neighbour whose distance is a number. *)
Definition no_nan (k : spec_float * string * string) : Prop :=
  is_nan (fst (fst k)) = false.

(** Two neighbours in nondecreasing order of their keys. *)
Definition key_ordered (a b : Neighbor) : Prop :=
  key_le (sort_key a) (sort_key b) = true.

(** Two sets of collaborators agree when they answer alike. *)
Definition services_agree {comp} (svc1 svc2 : Services comp) : Prop :=
  (forall formula, parse_composition svc1 formula = parse_composition svc2 formula)
  /\ composition_embedding svc1 = composition_embedding svc2
  /\ (forall c m n, search_query svc1 c m n = search_query svc2 c m n)
  /\ sky_version svc1 = sky_version svc2
  /\ assets_dir svc1 = assets_dir svc2.

(** A call answered: it returned an envelope that satisfies the envelope
    invariants, with [ok] set or with an error type among [types]. *)
Definition answered `{Builtins} (types : list string) (r : result value)
    : Prop :=
  exists env,
    r = Ok env
    /\ Envelope.well_formed env
    /\ Response.validate_envelope env true = Ok env
    /\ (field env "ok" = Some (VBool true)
        \/ exists error (error_type : string),
             field env "ok" = Some (VBool false)
             /\ field env "error" = Some error
             /\ field error "type" = Some (VStr error_type)
             /\ error_type ∈ types).

(** *** Collaborators to run the tool with *)

(** [0.5], [1.0] and [2.0]. *)
Definition float_half : spec_float := S754_finite false 4503599627370496 (-53).
Definition float_two : spec_float := S754_finite false 4503599627370496 (-51).

(** A search collaborator that answers every query with [neighbors]. *)
Definition answering (neighbors : list Neighbor) : Services string :=
  {| parse_composition := fun formula => Ok formula;
     composition_embedding :=
       Ok (Some (PurePath.parse
                   "/srv/sky/assets/embedding/mp_dataset_composition_magpie.h5"));
     search_query := fun _ _ _ => Ok neighbors;
     sky_version := "0.1.0";
     assets_dir := PurePath.parse "/srv/sky/assets" |}.

(** The same with an asset directory on which [exists] fails. *)
Definition unreadable_assets : Services string :=
  {| parse_composition := fun formula => Ok formula;
     composition_embedding := Raise (PyErr OSError "File name too long");
     search_query := fun _ _ _ => Ok [];
     sky_version := "0.1.0";
     assets_dir := PurePath.parse "/srv/sky/assets" |}.

Definition unordered : list Neighbor :=
  [ {| material_id := "mp-9"; formula := "Fe3O4"; distance := float_one |};
    {| material_id := "mp-3"; formula := "Fe2O3"; distance := float_half |};
    {| material_id := "mp-1"; formula := "FeO"; distance := float_half |} ].

Definition with_nan : list Neighbor :=
  [ {| material_id := "mp-1"; formula := "FeO"; distance := S754_nan |};
    {| material_id := "mp-3"; formula := "Fe2O3"; distance := float_one |} ].

End Tools.

(** ** tools.py: reading a CIF file by path *)

Module PathTools.
Import Tools.

Section WithServices.
Context `{Builtins} {comp : Type}.
Variable svc : Services comp.
Variable w : Paths.World.

(** [_structure_summary(Structure.from_file(path))]: the parser of
    pymatgen and the summary of what it returns, or the exception
    raised. *)
Variable summary_of_file : PurePath.t -> result value.

Definition local_provenance : value :=
  VDict (dict [("source", VStr "local"); ("ids", VList [])]).

Definition read_cif_path (cif_path : string) : result value :=
  let tool_name := "read_cif_path" in
  match Paths.resolve_local_path w cif_path None None with
  | Raise exc =>
      match exc with
      | PathResolutionError error_type message details =>
          Response.make_err error_type message details
            (_meta svc tool_name VNone) VNone
      | _ => Raise exc
      end
  | Ok path =>
      try_except
        (data ← summary_of_file path;
         Response.make_ok data (_meta svc tool_name VNone) local_provenance)
        Exception
        (fun exc =>
           Response.make_err "runtime_error" "Failed to read CIF file."
             (VStr (exn_str exc)) (_meta svc tool_name VNone) VNone)
  end.

End WithServices.

(** A parser that accepts every file and reports its name. *)
Definition naming_summary (path : PurePath.t) : result value :=
  Ok (VDict (dict [("formula", VStr (PurePath.name path))])).

End PathTools.

(** ** server.py: choosing the transport backend *)

Module Launcher.
Import Server.

(** What [main] finds at start: the preferred backend ([FastMCP("sky")]
    after its import) and the fallback ([Server("sky")] after its
    imports), each with its registration function and its state, or the
    exception raised on the way; and the two serving loops. *)
Record Runtime (S : Type) : Type := {
  fastmcp : result (Factory S * S);
  fastmcp_run : S -> result unit;
  stdio : result (Factory S * S);
  stdio_run : S -> result unit
}.
Arguments fastmcp {S} _.
Arguments fastmcp_run {S} _ _.
Arguments stdio {S} _.
Arguments stdio_run {S} _ _.

(** The backend that served, with its state when the serving loop
    ended. *)
Inductive served (S : Type) : Type :=
| ByFastMCP (backend : S)
| ByStdio (backend : S).
Arguments ByFastMCP {S} _.
Arguments ByStdio {S} _.

Section WithRuntime.
Context {S : Type}.
Variable rt : Runtime S.

(** The runner is the registered backend; [None] when anything failed. *)
Definition _try_fastmcp : result (option S) :=
  try_except
    (backend ← fastmcp rt;
     registered ← _register_tools (fst backend) (snd backend);
     Ok (Some registered))
    Exception (fun _ => Ok None).

Definition _run_stdio : result S :=
  backend ← stdio rt;
  registered ← _register_tools (fst backend) (snd backend);
  stdio_run rt registered ;;
  Ok registered.

Definition main : result (served S) :=
  fastmcp_runner ← _try_fastmcp;
  match fastmcp_runner with
  | Some registered =>
      fastmcp_run rt registered ;;
      Ok (ByFastMCP registered)
  | None =>
      registered ← _run_stdio;
      Ok (ByStdio registered)
  end.

End WithRuntime.

(** A preferred backend whose registration function rejects the tool
    [read_cif], beside a fallback that records. *)
Definition picky : Factory (list (option (string * string) * handler)) :=
  {| signature := Ok ["name"; "description"];
     decorate := fun arguments func registered =>
       if String.eqb (fn_name func) "read_cif" then
         Raise (PyErr ValueError "bad tool")
       else Ok (registered ++ [(arguments, func)]) |}.

Definition sample_runtime
    : Runtime (list (option (string * string) * handler)) :=
  {| fastmcp := Ok (picky, []);
     fastmcp_run := fun _ => Ok tt;
     stdio := Ok (recording [], []);
     stdio_run := fun _ => Ok tt |}.

End Launcher.

(* ===================================================================== *)
(** * Part II: the properties                                             *)
(* ===================================================================== *)

Module PathsFacts.
Import Paths.

Ltac run :=
  repeat (progress (cbn [mbind result_bind bind try_except mret result_ret negb]
                    || rewrite ?orb_false_r)).

Lemma is_prefix_spec xs ys :
  PurePath.is_prefix xs ys = true <-> exists rest, ys = xs ++ rest.
Proof.
  revert ys. induction xs as [|x xs IH]; intros ys; simpl.
  - split; eauto.
  - destruct ys as [|y ys].
    + split; [discriminate | intros [rest E]; discriminate].
    + rewrite andb_true_iff, String.eqb_eq, IH. split.
      * intros [-> [rest ->]]. eauto.
      * intros [rest E]. injection E as -> ->. eauto.
Qed.

(** [is_relative_to] holds of a path and a root exactly when the path is
    the root or lies below it. *)
Lemma is_relative_to_spec p root :
  PurePath.is_relative_to p root = true <->
  PurePath.absolute p = PurePath.absolute root
  /\ exists rest, PurePath.parts p = PurePath.parts root ++ rest.
Proof.
  unfold PurePath.is_relative_to.
  rewrite andb_true_iff, Bool.eqb_true_iff, is_prefix_spec. reflexivity.
Qed.

Lemma existsb_none {A} (f : A -> bool) (l : list A) :
  (forall x, x ∈ l -> f x = false) -> existsb f l = false.
Proof.
  induction l as [|a l IH]; intros Hall; simpl; [reflexivity|].
  rewrite Hall by left. apply IH. intros x Hx. apply Hall. by right.
Qed.

Section WithWorld.
Variable w : World.

Lemma init_details_dict error_type message kvs :
  kvs <> [] ->
  PathResolutionError_init error_type message (VDict (dict kvs)) =
  PathResolutionError error_type message (VDict (dict kvs)).
Proof.
  intros Hne. unfold PathResolutionError_init, py_or.
  replace (truthy (VDict (dict kvs))) with true; [reflexivity|].
  symmetry. simpl. apply negb_true_iff, Nat.eqb_neq.
  intros E. apply map_size_empty_inv in E.
  destruct (exists_last Hne) as [kvs' [[k v] ->]].
  unfold dict in E. rewrite foldl_snoc in E. simpl in E.
  by apply insert_non_empty in E.
Qed.

(** The resolver up to the containment check, for an input that is not
    blank and that normalises, against roots that normalise. *)
Lemma resolve_local_path_outside path_str allowed_roots max_bytes
    candidate resolved resolved_roots :
  blank path_str = false ->
  expanduser w (PurePath.parse path_str) = Ok candidate ->
  resolve w candidate = Ok resolved ->
  mapM (normalize_root w) (effective_roots w allowed_roots) = Ok resolved_roots ->
  existsb (PurePath.is_relative_to resolved) resolved_roots = false ->
  resolve_local_path w path_str allowed_roots max_bytes =
    Raise (PathResolutionError "permission_denied"
             "Path is outside allowed roots."
             (VDict (dict [ ("path", path_value resolved);
                            ("allowed_roots",
                             VList (path_value <$> resolved_roots)) ]))).
Proof.
  intros Hblank Hexp Hres Hroots Hout.
  unfold resolve_local_path. rewrite Hblank, Hexp. run.
  rewrite Hres. run. rewrite Hroots. run. rewrite Hout. run.
  rewrite init_details_dict by discriminate. reflexivity.
Qed.

Lemma outside_all resolved (resolved_roots : list PurePath.t) :
  (forall root, root ∈ resolved_roots -> ~ within resolved root) ->
  existsb (PurePath.is_relative_to resolved) resolved_roots = false.
Proof.
  intros Hall. apply existsb_none. intros root Hin.
  apply not_true_is_false. rewrite is_relative_to_spec. by apply Hall.
Qed.

Lemma inside_one resolved (resolved_roots : list PurePath.t) root :
  root ∈ resolved_roots -> within resolved root ->
  existsb (PurePath.is_relative_to resolved) resolved_roots = true.
Proof.
  intros Hin Hw. apply existsb_exists. exists root. split.
  - by apply list_elem_of_In.
  - by apply is_relative_to_spec.
Qed.

(** C1, amended. For every input string that is not blank, whose
    normalised form is neither one of the normalised allowed roots nor
    below one, [resolve_local_path] raises [permission_denied] and returns
    no path, whatever the file system holds at that place: the containment
    check comes before the existence test.  The details carry the rejected
    path and every normalised root. *)
Theorem escaping_path_is_permission_denied path_str allowed_roots max_bytes
    candidate resolved resolved_roots :
  blank path_str = false ->
  expanduser w (PurePath.parse path_str) = Ok candidate ->
  resolve w candidate = Ok resolved ->
  mapM (normalize_root w) (effective_roots w allowed_roots) = Ok resolved_roots ->
  (forall root, root ∈ resolved_roots -> ~ within resolved root) ->
  resolve_local_path w path_str allowed_roots max_bytes =
    Raise (PathResolutionError "permission_denied"
             "Path is outside allowed roots."
             (VDict (dict [ ("path", VStr (PurePath.to_str resolved));
                            ("allowed_roots",
                             VList ((fun r => VStr (PurePath.to_str r))
                                      <$> resolved_roots)) ]))).
Proof.
  intros Hblank Hexp Hres Hroots Hout.
  apply (resolve_local_path_outside _ _ _ candidate); try assumption.
  by apply outside_all.
Qed.

(** A blank input is refused before anything else is looked at. *)
Lemma blank_is_invalid_input path_str allowed_roots max_bytes :
  blank path_str = true ->
  resolve_local_path w path_str allowed_roots max_bytes =
    Raise (PathResolutionError "invalid_input" "Path is required." (VDict ∅)).
Proof.
  intros Hblank. unfold resolve_local_path. rewrite Hblank. reflexivity.
Qed.

(** C10. With an empty collection of allowed roots the resolver never
    returns a path: the empty collection is used as it is (the default
    roots replace only an absent argument), so a blank input is an
    [invalid_input] and every other input that normalises is a
    [permission_denied] whose details list no root. *)
Theorem empty_roots_never_resolve path_str max_bytes :
  effective_roots w (Some []) = []
  /\ effective_roots w None = _default_allowed_roots w
  /\ (forall p, resolve_local_path w path_str (Some []) max_bytes <> Ok p)
  /\ (blank path_str = true ->
      resolve_local_path w path_str (Some []) max_bytes =
        Raise (PathResolutionError "invalid_input" "Path is required." (VDict ∅)))
  /\ (forall candidate resolved,
        blank path_str = false ->
        expanduser w (PurePath.parse path_str) = Ok candidate ->
        resolve w candidate = Ok resolved ->
        resolve_local_path w path_str (Some []) max_bytes =
          Raise (PathResolutionError "permission_denied"
                   "Path is outside allowed roots."
                   (VDict (dict [ ("path", VStr (PurePath.to_str resolved));
                                  ("allowed_roots", VList []) ])))).
Proof.
  split; [reflexivity|]. split; [reflexivity|].
  assert (Hdenied : forall candidate resolved,
             blank path_str = false ->
             expanduser w (PurePath.parse path_str) = Ok candidate ->
             resolve w candidate = Ok resolved ->
             resolve_local_path w path_str (Some []) max_bytes =
               Raise (PathResolutionError "permission_denied"
                        "Path is outside allowed roots."
                        (VDict (dict [ ("path", VStr (PurePath.to_str resolved));
                                       ("allowed_roots", VList []) ])))).
  { intros candidate resolved Hblank Hexp Hres.
    apply (resolve_local_path_outside _ _ _ candidate resolved []);
      try assumption; reflexivity. }
  split; [|split; [apply blank_is_invalid_input | exact Hdenied]].
  intros p Hp.
  destruct (blank path_str) eqn:Hblank.
  - rewrite blank_is_invalid_input in Hp by assumption. discriminate.
  - destruct (expanduser w (PurePath.parse path_str)) as [candidate|e] eqn:Hexp.
    + destruct (resolve w candidate) as [resolved|e] eqn:Hres.
      * rewrite (Hdenied candidate resolved) in Hp by (assumption || reflexivity).
        discriminate.
      * revert Hp. unfold resolve_local_path. rewrite Hblank, Hexp. run.
        rewrite Hres. run. discriminate.
    + revert Hp. unfold resolve_local_path. rewrite Hblank, Hexp. run.
      destruct (isinstance e Exception); run; discriminate.
Qed.

Lemma int_digits_cases negative body :
  (exists n, Str.int_digits negative body = Ok n)
  \/ (exists msg, Str.int_digits negative body = Raise (PyErr ValueError msg)).
Proof.
  unfold Str.int_digits, Str.invalid_literal.
  destruct (match body with String c _ => Ascii.eqb c "_" | _ => false end);
    [eauto|].
  destruct (Str.scan_digits body 0 0 false) as [[[z digits] rest]|]; [|eauto].
  destruct ((Str.str_digits_check_threshold <? digits)
            && (0 <? Str.int_max_str_digits)
            && (Str.int_max_str_digits <? digits)); [eauto|].
  destruct (digits =? 0); [eauto|].
  destruct (Str.nonempty (Str.lstrip Str.is_int_space rest)); eauto.
Qed.

Lemma py_int_cases value :
  (exists n, Str.py_int value = Ok n)
  \/ (exists msg, Str.py_int value = Raise (PyErr ValueError msg)).
Proof.
  unfold Str.py_int.
  destruct (Str.lstrip Str.is_int_space value) as [|c r];
    [apply int_digits_cases|].
  destruct (Ascii.eqb c "+"); [apply int_digits_cases|].
  destruct (Ascii.eqb c "-"); apply int_digits_cases.
Qed.

Lemma py_int_empty : Str.py_int "" = Raise (PyErr ValueError "invalid literal for int() with base 10").
Proof. reflexivity. Qed.

(** [_parse_max_bytes] always returns. *)
Lemma parse_max_bytes_total : exists n, _parse_max_bytes w = Ok n.
Proof.
  unfold _parse_max_bytes.
  destruct (getenv w "SKY_MCP_MAX_FILE_BYTES") as [value|]; [|eauto].
  destruct (Str.nonempty value); simpl; [|eauto].
  destruct (py_int_cases value) as [[n ->] | [msg ->]]; run; eauto.
Qed.

Lemma parse_max_bytes_positive value n :
  getenv w "SKY_MCP_MAX_FILE_BYTES" = Some value ->
  Str.py_int value = Ok n -> 0 < n ->
  _parse_max_bytes w = Ok n.
Proof.
  intros Henv Hint Hpos. unfold _parse_max_bytes. rewrite Henv.
  destruct value as [|c value].
  - rewrite py_int_empty in Hint. discriminate.
  - simpl Str.nonempty. cbn [negb]. rewrite Hint. run.
    destruct (Z.gtb_spec n 0); [reflexivity | lia].
Qed.

Lemma parse_max_bytes_ignored value :
  getenv w "SKY_MCP_MAX_FILE_BYTES" = Some value ->
  (forall n, Str.py_int value = Ok n -> n <= 0) ->
  _parse_max_bytes w = Ok DEFAULT_MAX_FILE_BYTES.
Proof.
  intros Henv Hbad. unfold _parse_max_bytes. rewrite Henv.
  destruct (Str.nonempty value); simpl; [|reflexivity].
  destruct (py_int_cases value) as [[n Hn] | [msg Hmsg]].
  - rewrite Hn. run. specialize (Hbad n Hn).
    destruct (Z.gtb_spec n 0); [lia | reflexivity].
  - rewrite Hmsg. run. reflexivity.
Qed.

(** The resolver past the containment, existence and file checks. *)
Lemma resolve_local_path_sized path_str allowed_roots max_bytes
    candidate resolved resolved_roots size limit :
  blank path_str = false ->
  expanduser w (PurePath.parse path_str) = Ok candidate ->
  resolve w candidate = Ok resolved ->
  mapM (normalize_root w) (effective_roots w allowed_roots) = Ok resolved_roots ->
  existsb (PurePath.is_relative_to resolved) resolved_roots = true ->
  path_exists w resolved = Ok true ->
  is_file w resolved = Ok true ->
  effective_limit w max_bytes = Ok limit ->
  stat_size w resolved = Ok size ->
  resolve_local_path w path_str allowed_roots max_bytes =
    if size >? limit then
      Raise (PathResolutionError "file_too_large" "File exceeds size limit."
               (VDict (dict [ ("path", path_value resolved);
                              ("size", VInt size);
                              ("max_bytes", VInt limit) ])))
    else Ok resolved.
Proof.
  intros Hblank Hexp Hres Hroots Hin Hex Hfile Hlimit Hstat.
  unfold resolve_local_path. rewrite Hblank, Hexp. run.
  rewrite Hres. run. rewrite Hroots. run. rewrite Hin. run.
  rewrite Hex. run. rewrite Hfile. run. rewrite Hlimit. run.
  rewrite Hstat. run.
  rewrite init_details_dict by discriminate. reflexivity.
Qed.

(** C4. The ceiling is the caller's [max_bytes] when there is one; else
    the value of [SKY_MCP_MAX_FILE_BYTES] when [int] accepts it and it is
    positive; else 2,000,000 (the variable unset, empty, not a number or
    not positive).  A regular file within an allowed root whose size
    exceeds the ceiling is refused as [file_too_large], and the details
    carry the size and the ceiling. *)
Theorem size_ceiling :
  DEFAULT_MAX_FILE_BYTES = 2000000
  /\ (forall m, effective_limit w (Some m) = Ok m)
  /\ (forall value n,
        getenv w "SKY_MCP_MAX_FILE_BYTES" = Some value ->
        Str.py_int value = Ok n -> 0 < n ->
        effective_limit w None = Ok n)
  /\ (forall value,
        getenv w "SKY_MCP_MAX_FILE_BYTES" = Some value ->
        (forall n, Str.py_int value = Ok n -> n <= 0) ->
        effective_limit w None = Ok DEFAULT_MAX_FILE_BYTES)
  /\ (getenv w "SKY_MCP_MAX_FILE_BYTES" = None ->
      effective_limit w None = Ok DEFAULT_MAX_FILE_BYTES)
  /\ (forall path_str allowed_roots max_bytes candidate resolved
             resolved_roots root size limit,
        blank path_str = false ->
        expanduser w (PurePath.parse path_str) = Ok candidate ->
        resolve w candidate = Ok resolved ->
        mapM (normalize_root w) (effective_roots w allowed_roots)
          = Ok resolved_roots ->
        root ∈ resolved_roots -> within resolved root ->
        path_exists w resolved = Ok true ->
        is_file w resolved = Ok true ->
        stat_size w resolved = Ok size ->
        effective_limit w max_bytes = Ok limit ->
        limit < size ->
        resolve_local_path w path_str allowed_roots max_bytes =
          Raise (PathResolutionError "file_too_large" "File exceeds size limit."
                   (VDict (dict [ ("path", VStr (PurePath.to_str resolved));
                                  ("size", VInt size);
                                  ("max_bytes", VInt limit) ])))).
Proof.
  split; [reflexivity|]. split; [reflexivity|].
  split; [exact parse_max_bytes_positive|].
  split; [exact parse_max_bytes_ignored|].
  split.
  - intros Henv. unfold effective_limit, _parse_max_bytes. by rewrite Henv.
  - intros path_str allowed_roots max_bytes candidate resolved resolved_roots
           root size limit Hblank Hexp Hres Hroots Hin Hwithin Hex Hfile
           Hstat Hlimit Hbig.
    rewrite (resolve_local_path_sized _ _ _ candidate resolved resolved_roots
               size limit); try assumption.
    + destruct (Z.gtb_spec size limit); [reflexivity | lia].
    + by apply (inside_one _ _ root).
Qed.

(** When [resolve] raises, the exception leaves the resolver as it is. *)
Lemma resolve_exception_escapes path_str allowed_roots max_bytes candidate e :
  blank path_str = false ->
  expanduser w (PurePath.parse path_str) = Ok candidate ->
  resolve w candidate = Raise e ->
  resolve_local_path w path_str allowed_roots max_bytes = Raise e.
Proof.
  intros Hblank Hexp Hres. unfold resolve_local_path.
  rewrite Hblank, Hexp. run. rewrite Hres. reflexivity.
Qed.

(** When [expanduser] raises, the resolver raises [invalid_input]. *)
Lemma expanduser_exception_is_invalid_input path_str allowed_roots max_bytes e :
  blank path_str = false ->
  expanduser w (PurePath.parse path_str) = Raise e ->
  resolve_local_path w path_str allowed_roots max_bytes =
    Raise (PathResolutionError "invalid_input" "Invalid path string."
             (VDict (dict [("error", VStr (exn_str e))]))).
Proof.
  intros Hblank Hexp. unfold resolve_local_path.
  rewrite Hblank, Hexp. run.
  replace (isinstance e Exception) with true
    by (destruct e as [[]|]; reflexivity).
  rewrite init_details_dict by discriminate. reflexivity.
Qed.

End WithWorld.

Lemma world_agree_refl w : world_agree w w.
Proof. repeat split. Qed.

Lemma agree_roots w1 w2 allowed_roots :
  world_agree w1 w2 ->
  mapM (normalize_root w1) (effective_roots w1 allowed_roots)
  = mapM (normalize_root w2) (effective_roots w2 allowed_roots).
Proof.
  intros (Henv & Hexp & Hres & _ & _ & _ & Hrepo & Hassets & Hcwd).
  assert (effective_roots w1 allowed_roots = effective_roots w2 allowed_roots) as ->.
  { destruct allowed_roots; [reflexivity|]. simpl.
    unfold _default_allowed_roots. by rewrite Henv, Hrepo, Hassets, Hcwd. }
  induction (effective_roots w2 allowed_roots) as [|root roots IH];
    [reflexivity|].
  simpl. rewrite IH. unfold normalize_root. rewrite Hexp.
  destruct (expanduser w2 root); run; [|reflexivity].
  by rewrite Hres.
Qed.

Lemma agree_limit w1 w2 max_bytes :
  world_agree w1 w2 -> effective_limit w1 max_bytes = effective_limit w2 max_bytes.
Proof.
  intros (Henv & _). destruct max_bytes; [reflexivity|]. simpl.
  unfold _parse_max_bytes. by rewrite Henv.
Qed.

Lemma resolve_local_path_agree w1 w2 path_str allowed_roots max_bytes :
  world_agree w1 w2 ->
  resolve_local_path w1 path_str allowed_roots max_bytes
  = resolve_local_path w2 path_str allowed_roots max_bytes.
Proof.
  intros Hagree.
  pose proof (agree_roots _ _ allowed_roots Hagree) as Hroots.
  pose proof (agree_limit _ _ max_bytes Hagree) as Hlimit.
  destruct Hagree as (_ & Hexp & Hres & Hex & Hfile & Hstat & _).
  unfold resolve_local_path.
  destruct (blank path_str); [reflexivity|].
  rewrite Hexp.
  destruct (expanduser w2 (PurePath.parse path_str)) as [candidate|e];
    [|run; destruct (isinstance e Exception); reflexivity].
  run. rewrite Hres.
  destruct (resolve w2 candidate) as [resolved|e]; [|reflexivity].
  run. rewrite Hroots.
  destruct (mapM (normalize_root w2) (effective_roots w2 allowed_roots))
    as [resolved_roots|e]; [|reflexivity].
  run.
  destruct (existsb (PurePath.is_relative_to resolved) resolved_roots);
    [|reflexivity].
  run. rewrite Hex.
  destruct (path_exists w2 resolved) as [[]|e]; try reflexivity.
  run. rewrite Hfile.
  destruct (is_file w2 resolved) as [[]|e]; try reflexivity.
  run. rewrite Hlimit.
  destruct (effective_limit w2 max_bytes) as [limit|e]; [|reflexivity].
  run. rewrite Hstat. reflexivity.
Qed.

(** C9. A path that resolves resolves to the same value when the call is
    repeated in a world that answers every query as before: the result is
    a function of the arguments, the file system and the environment. *)
Theorem resolve_local_path_repeatable w1 w2 path_str allowed_roots max_bytes p :
  world_agree w1 w2 ->
  resolve_local_path w1 path_str allowed_roots max_bytes = Ok p ->
  resolve_local_path w2 path_str allowed_roots max_bytes = Ok p.
Proof.
  intros Hagree Hfirst.
  by rewrite <- (resolve_local_path_agree w1 w2).
Qed.

Lemma outside_by_check resolved (resolved_roots : list PurePath.t) :
  existsb (PurePath.is_relative_to resolved) resolved_roots = false ->
  forall root, root ∈ resolved_roots -> ~ within resolved root.
Proof.
  intros Hnone root Hin Hwithin.
  rewrite (inside_one _ _ root Hin Hwithin) in Hnone. discriminate.
Qed.

(** [../../etc/passwd], which does not exist, against the default roots. *)
Lemma escaping_path_example :
  resolve_local_path sample_world "../../etc/passwd" None None =
    Raise (PathResolutionError "permission_denied"
             "Path is outside allowed roots."
             (VDict (dict [ ("path", VStr "/srv/etc/passwd");
                            ("allowed_roots",
                             VList [ VStr "/srv/sky"; VStr "/srv/sky/assets";
                                     VStr "/srv/sky/work" ]) ]))).
Proof.
  apply (escaping_path_is_permission_denied sample_world
           "../../etc/passwd" None None
           (PurePath.parse "../../etc/passwd")
           (PurePath.parse "/srv/etc/passwd")
           [ PurePath.parse "/srv/sky"; PurePath.parse "/srv/sky/assets";
             PurePath.parse "/srv/sky/work" ]).
  - reflexivity.
  - reflexivity.
  - reflexivity.
  - reflexivity.
  - apply outside_by_check. reflexivity.
Defined.

(** C1 as stated fails on a blank input: the string of one space
    normalises to a path outside the only allowed root, and the resolver
    answers [invalid_input], not [permission_denied]. *)
Lemma blank_path_outside_roots_is_invalid_input :
  let roots := [PurePath.parse "/srv/data"] in
  let resolved := PurePath.mk true ["srv"; "sky"; "work"; " "] in
  expanduser sample_world (PurePath.parse " ") = Ok (PurePath.parse " ")
  /\ resolve sample_world (PurePath.parse " ") = Ok resolved
  /\ mapM (normalize_root sample_world) (effective_roots sample_world (Some roots))
     = Ok roots
  /\ (forall root, root ∈ roots -> ~ within resolved root)
  /\ resolve_local_path sample_world " " (Some roots) None =
       Raise (PathResolutionError "invalid_input" "Path is required." (VDict ∅)).
Proof.
  repeat split; try reflexivity.
  apply outside_by_check. reflexivity.
Qed.

(** C6: the code at a string with a NUL character.  [expanduser] accepts
    it, [resolve] raises [ValueError], and the resolver lets that
    exception through instead of raising [invalid_input]. *)
Theorem nul_path_escapes_as_ValueError :
  blank nul_path = false
  /\ expanduser sample_world (PurePath.parse nul_path) = Ok (PurePath.parse nul_path)
  /\ resolve sample_world (PurePath.parse nul_path)
     = Raise (PyErr ValueError "embedded null byte")
  /\ resolve_local_path sample_world nul_path None None
     = Raise (PyErr ValueError "embedded null byte").
Proof. repeat split; reflexivity. Qed.

(** A failure of [expanduser] is caught. *)
Example unknown_user_is_invalid_input :
  resolve_local_path sample_world "~nobody/x.cif" None None =
    Raise (PathResolutionError "invalid_input" "Invalid path string."
             (VDict (dict [("error", VStr "Could not determine home directory.")]))).
Proof. reflexivity. Qed.

(** The file of 2,000,001 bytes under the default configuration. *)
Lemma size_ceiling_example :
  resolve_local_path sample_world "/srv/sky/big.cif" None None =
    Raise (PathResolutionError "file_too_large" "File exceeds size limit."
             (VDict (dict [ ("path", VStr "/srv/sky/big.cif");
                            ("size", VInt 2000001);
                            ("max_bytes", VInt 2000000) ]))).
Proof.
  destruct (size_ceiling sample_world) as (_ & _ & _ & _ & _ & Hbig).
  apply (Hbig "/srv/sky/big.cif" None None
           (PurePath.parse "/srv/sky/big.cif")
           (PurePath.parse "/srv/sky/big.cif")
           [ PurePath.parse "/srv/sky"; PurePath.parse "/srv/sky/assets";
             PurePath.parse "/srv/sky/work" ]
           (PurePath.parse "/srv/sky") 2000001 2000000).
  - reflexivity.
  - reflexivity.
  - reflexivity.
  - reflexivity.
  - apply list_elem_of_here.
  - split; [reflexivity | exists ["big.cif"]; reflexivity].
  - reflexivity.
  - reflexivity.
  - reflexivity.
  - reflexivity.
  - lia.
Defined.

Example override_used :
  effective_limit (tuned_world "1_000") None = Ok 1000
  /\ resolve_local_path (tuned_world " 5 ") "/srv/sky/a.cif" None None =
       Raise (PathResolutionError "file_too_large" "File exceeds size limit."
                (VDict (dict [ ("path", VStr "/srv/sky/a.cif");
                               ("size", VInt 10);
                               ("max_bytes", VInt 5) ]))).
Proof. split; reflexivity. Qed.

(** A separator character that [str.strip] removes and [int] does not
    skip, a literal of more digits than the interpreter converts, and
    misplaced underscores: the default stays. *)
Example override_not_a_literal :
  effective_limit (tuned_world (String (Ascii.ascii_of_nat 28) "7")) None
  = Ok 2000000
  /\ effective_limit (tuned_world (Str.replicate 4301 "1")) None = Ok 2000000
  /\ effective_limit (tuned_world (Str.replicate 4300 "1")) None
     = Ok ((10 ^ 4300 - 1) / 9)
  /\ effective_limit (tuned_world "1__0") None = Ok 2000000
  /\ effective_limit (tuned_world "_10") None = Ok 2000000
  /\ effective_limit (tuned_world "10_") None = Ok 2000000
  /\ effective_limit (tuned_world "+ 10") None = Ok 2000000
  /\ effective_limit (tuned_world " +10 ") None = Ok 10.
Proof. repeat split; by vm_compute. Qed.

Example override_ignored :
  effective_limit (tuned_world "2MB") None = Ok 2000000
  /\ effective_limit (tuned_world "-5") None = Ok 2000000
  /\ effective_limit (tuned_world "0") None = Ok 2000000
  /\ effective_limit (tuned_world "") None = Ok 2000000
  /\ effective_limit (tuned_world "0") (Some 7) = Ok 7.
Proof. repeat split; reflexivity. Qed.

Lemma repeatable_example :
  resolve_local_path sample_world "../a.cif" None None
  = Ok (PurePath.parse "/srv/sky/a.cif").
Proof.
  apply (resolve_local_path_repeatable sample_world sample_world).
  - apply world_agree_refl.
  - reflexivity.
Defined.

(** A file that resolves against the default roots is refused against
    an empty collection of roots. *)
Lemma empty_roots_example :
  resolve_local_path sample_world "/srv/sky/a.cif" (Some []) None =
    Raise (PathResolutionError "permission_denied"
             "Path is outside allowed roots."
             (VDict (dict [ ("path", VStr "/srv/sky/a.cif");
                            ("allowed_roots", VList []) ])))
  /\ resolve_local_path sample_world "/srv/sky/a.cif" None None
     = Ok (PurePath.parse "/srv/sky/a.cif").
Proof.
  split; [|reflexivity].
  destruct (empty_roots_never_resolve sample_world "/srv/sky/a.cif" None)
    as (_ & _ & _ & _ & Hdenied).
  apply (Hdenied (PurePath.parse "/srv/sky/a.cif")
                 (PurePath.parse "/srv/sky/a.cif")); reflexivity.
Defined.

End PathsFacts.

Module StrFacts.

Lemma append_cons c s t : String c s +:+ t = String c (s +:+ t).
Proof. reflexivity. Qed.

Lemma append_nil_l t : "" +:+ t = t.
Proof. reflexivity. Qed.

Lemma append_nil_r s : s +:+ "" = s.
Proof.
  induction s as [|c s IH]; [reflexivity|]. by rewrite append_cons, IH.
Qed.



Lemma all_chars_append p a b :
  Str.all_chars p (a +:+ b) = Str.all_chars p a && Str.all_chars p b.
Proof.
  induction a as [|x a IH]; [reflexivity|].
  rewrite append_cons. simpl. by rewrite IH, andb_assoc.
Qed.

Lemma all_chars_weaken (p q : ascii -> bool) s :
  (forall c, p c = true -> q c = true) ->
  Str.all_chars p s = true -> Str.all_chars q s = true.
Proof.
  intros Hpq. induction s as [|c s IH]; simpl; [done|].
  rewrite !andb_true_iff. intros [Hc Hs]. auto.
Qed.

Lemma all_chars_take p n s :
  Str.all_chars p s = true -> Str.all_chars p (Str.take n s) = true.
Proof.
  revert s. induction n as [|n IH]; intros [|c s]; simpl; try done.
  rewrite !andb_true_iff. intros [Hc Hs]. auto.
Qed.

Lemma all_chars_lstrip p q s :
  Str.all_chars p s = true -> Str.all_chars p (Str.lstrip q s) = true.
Proof.
  induction s as [|c s IH]; simpl; [done|].
  destruct (q c); simpl; [|done].
  rewrite andb_true_iff. intros [_ Hs]. auto.
Qed.

Lemma all_chars_rstrip p q s :
  Str.all_chars p s = true -> Str.all_chars p (Str.rstrip q s) = true.
Proof.
  induction s as [|c s IH]; simpl; [done|].
  rewrite andb_true_iff. intros [Hc Hs]. specialize (IH Hs).
  destruct (Str.rstrip q s) as [|c' r].
  - destruct (q c); simpl; [done | by rewrite Hc].
  - simpl in *. by rewrite Hc.
Qed.

Lemma all_chars_strip_with p q s :
  Str.all_chars p s = true -> Str.all_chars p (Str.strip_with q s) = true.
Proof. intros Hs. by apply all_chars_rstrip, all_chars_lstrip. Qed.

(** A string without the separator is a single field. *)
Lemma split_no_sep sep s :
  Str.all_chars (fun c => negb (Ascii.eqb c sep)) s = true ->
  Str.split sep s = [s].
Proof.
  induction s as [|c s IH]; simpl; [done|].
  rewrite andb_true_iff, negb_true_iff. intros [Hc Hs].
  rewrite Hc, (IH Hs). reflexivity.
Qed.

Lemma join_empty_cons x l : Str.join "" (x :: l) = x +:+ Str.join "" l.
Proof.
  destruct l as [|y l]; simpl; [symmetry; apply append_nil_r | reflexivity].
Qed.

End StrFacts.

Module FSFacts.
Import FS StrFacts.

Lemma rev_tl_removelast {A} (stack : list A) :
  rev (tl stack) = removelast (rev stack).
Proof.
  destruct stack as [|a stack]; [reflexivity|].
  simpl. by rewrite removelast_last.
Qed.

(** Locating a path with one more component: [..] goes up, any other name
    goes down. *)
Lemma fold_dots_snoc stack xs c :
  Paths.fold_dots stack (xs ++ [c]) =
    if String.eqb c ".." then removelast (Paths.fold_dots stack xs)
    else Paths.fold_dots stack xs ++ [c].
Proof.
  revert stack. induction xs as [|x xs IH]; intros stack; simpl.
  - destruct (String.eqb c ".."); [apply rev_tl_removelast | reflexivity].
  - destruct (String.eqb x ".."); apply IH.
Qed.

Lemma locate_snoc st abs ps c :
  locate st (PurePath.mk abs (ps ++ [c])) =
    if String.eqb c ".." then removelast (locate st (PurePath.mk abs ps))
    else locate st (PurePath.mk abs ps) ++ [c].
Proof. unfold locate. simpl. rewrite app_assoc. apply fold_dots_snoc. Qed.




Lemma snoc_neq_self {A} (l : list A) x : l ++ [x] <> l.
Proof.
  intros E. apply (f_equal length) in E. rewrite length_app in E.
  simpl in E. lia.
Qed.

Lemma lookup_node_snoc st l x : lookup_node st (l ++ [x]) = nodes st !! (l ++ [x]).
Proof. unfold lookup_node. by destruct l. Qed.


Lemma lookup_node_update_ne st l l' n c :
  l <> l' -> lookup_node (update l (Some n) c st) l' = lookup_node st l'.
Proof.
  intros Hl. unfold lookup_node. destruct l'; [done|].
  simpl. by apply lookup_insert_ne.
Qed.

Lemma lookup_node_nil_some st : lookup_node st [] = Some Dir.
Proof. reflexivity. Qed.

Lemma lookup_none_nonempty st l : lookup_node st l = None -> l <> [].
Proof. intros E ->. discriminate. Qed.

Lemma removelast_neq {A} (l : list A) : l <> [] -> removelast l <> l.
Proof.
  intros Hl E. destruct (exists_last Hl) as [l' [a ->]].
  rewrite removelast_last in E. symmetry in E. by apply snoc_neq_self in E.
Qed.


Lemma os_mkdir_inv p st r st' :
  os_mkdir p st = (r, st') ->
  (r = Ok tt /\ lookup_node st (locate st p) = None
   /\ is_dir st (removelast (locate st p)) = true
   /\ st' = update (locate st p) (Some Dir) (SysMkdir (locate st p)) st)
  \/ (exists e, r = Raise e /\ st' = st).
Proof.
  unfold os_mkdir, is_dir.
  destruct (lookup_node st (locate st p)) as [n|]; [intros [= <- <-]; eauto|].
  destruct (lookup_node st (removelast (locate st p))) as [[|c]|];
    intros [= <- <-]; eauto 10.
Qed.

Lemma open_excl_inv p st r st' :
  open_excl p st = (r, st') ->
  (r = Ok tt /\ lookup_node st (locate st p) = None
   /\ is_dir st (removelast (locate st p)) = true
   /\ st' = update (locate st p) (Some (File "")) (SysOpenExcl (locate st p)) st)
  \/ (exists e, r = Raise e /\ st' = st).
Proof.
  unfold open_excl, is_dir.
  destruct (lookup_node st (locate st p)) as [n|]; [intros [= <- <-]; eauto|].
  destruct (lookup_node st (removelast (locate st p))) as [[|c]|];
    intros [= <- <-]; eauto 10.
Qed.





(** The fuel of [mkdir] stands for the recursion of pathlib on the parent,
    which ends at the root: the number of components is enough, and more
    changes nothing. *)
Lemma mkdir_no_parents fuel fuel' p exist_ok st :
  mkdir fuel p false exist_ok st = mkdir fuel' p false exist_ok st.
Proof. by destruct fuel, fuel'. Qed.

Lemma parent_fixed p : PurePath.parent p = p -> PurePath.parts p = [].
Proof.
  destruct p as [abs parts]. unfold PurePath.parent. simpl.
  intros [= E]. destruct (decide (parts = [])) as [|Hne]; [done|].
  by apply removelast_neq in Hne.
Qed.

Lemma length_removelast {A} (l : list A) :
  l <> [] -> S (length (removelast l)) = length l.
Proof.
  intros Hne. destruct (exists_last Hne) as (l' & a & ->).
  rewrite removelast_last, length_app. simpl. lia.
Qed.

Lemma mkdir_fuel fuel fuel' p parents exist_ok st :
  (length (PurePath.parts p) <= fuel)%nat ->
  (length (PurePath.parts p) <= fuel')%nat ->
  mkdir fuel p parents exist_ok st = mkdir fuel' p parents exist_ok st.
Proof.
  revert fuel' p parents exist_ok st.
  induction fuel as [|fuel IH]; intros fuel' p parents exist_ok st Hle Hle'.
  - destruct fuel' as [|fuel']; [reflexivity|]. simpl.
    destruct (os_mkdir p st) as [[[]|e] st0]; [reflexivity|].
    destruct (isinstance e FileNotFoundError); [|reflexivity].
    destruct parents; [|reflexivity]. simpl.
    destruct (bool_decide_reflect (PurePath.parent p = p)) as [|Hne];
      [reflexivity|].
    exfalso. apply Hne. destruct p as [abs [|x parts]]; [reflexivity|].
    simpl in Hle. lia.
  - destruct fuel' as [|fuel'].
    + simpl.
      destruct (os_mkdir p st) as [[[]|e] st0]; [reflexivity|].
      destruct (isinstance e FileNotFoundError); [|reflexivity].
      destruct parents; [|reflexivity]. simpl.
      destruct (bool_decide_reflect (PurePath.parent p = p)) as [|Hne];
        [reflexivity|].
      exfalso. apply Hne. destruct p as [abs [|x parts]]; [reflexivity|].
      simpl in Hle'. lia.
    + simpl.
      destruct (os_mkdir p st) as [[[]|e] st0]; [reflexivity|].
      destruct (isinstance e FileNotFoundError); [|reflexivity].
      destruct parents; [|reflexivity]. simpl.
      destruct (bool_decide_reflect (PurePath.parent p = p)) as [|Hne];
        [reflexivity|].
      assert (PurePath.parts p <> []) as Hparts.
      { intros E. apply Hne. destruct p as [abs parts]. simpl in E.
        by subst. }
      apply length_removelast in Hparts.
      rewrite (IH fuel' (PurePath.parent p) true true st0)
        by (simpl; lia).
      destruct (mkdir fuel' (PurePath.parent p) true true st0)
        as [[[]|e1] st1]; [|reflexivity].
      apply mkdir_no_parents.
Qed.

Lemma named_temporary_file_ok names dir prefix suffix st tmp st' :
  named_temporary_file names dir prefix suffix st = (Ok tmp, st') ->
  exists name,
    name ∈ names
    /\ tmp = PurePath.mk (PurePath.absolute dir)
               (PurePath.parts dir ++ [prefix +:+ name +:+ suffix])
    /\ lookup_node st (locate st tmp) = None
    /\ is_dir st (removelast (locate st tmp)) = true
    /\ st' = update (locate st tmp) (Some (File ""))
               (SysOpenExcl (locate st tmp)) st.
Proof.
  induction names as [|name names IH]; simpl; [discriminate|].
  destruct (open_excl _ st) as [r st0] eqn:Hopen.
  apply open_excl_inv in Hopen as [(-> & Hnew & Hparent & ->) | (e & -> & ->)].
  - intros [= <- <-]. exists name. repeat split; try done. by left.
  - destruct (isinstance e FileExistsError); [|discriminate].
    intros Hrest. destruct (IH Hrest) as (name' & Hin & Hrest').
    exists name'. split; [by right | done].
Qed.



Lemma is_dir_update_ne st l l' n c :
  l <> l' -> is_dir (update l (Some n) c st) l' = is_dir st l'.
Proof. intros Hne. unfold is_dir. by rewrite lookup_node_update_ne. Qed.

End FSFacts.

Module ReportIOFacts.
Import ReportIO StrFacts.

Lemma sub_runs_blocks text :
  sub_runs false text = Str.join "" (block_text <$> blocks text)
  /\ sub_runs true text = Str.join "" (block_text <$> after_run (blocks text)).
Proof.
  induction text as [|c text [IHf IHt]]; [split; reflexivity|].
  simpl sub_runs. simpl blocks. rewrite IHf, IHt.
  destruct (blocks text) as [|[b s] rest].
  - destruct (slug_char c); split; reflexivity.
  - destruct b, (slug_char c); simpl Bool.eqb; cbn iota;
      rewrite ?fmap_cons, ?join_empty_cons; simpl after_run;
      rewrite ?fmap_cons, ?join_empty_cons; split; reflexivity.
Qed.

(** The substitution of the code replaces every maximal run by one [_]. *)
Lemma sub_runs_replace_runs text : sub_runs false text = replace_runs text.
Proof. apply sub_runs_blocks. Qed.

(** Defaulting before truncating, as the code does, or after, as the
    specification says, gives the same slug. *)
Lemma slugify_slug_by_run text : _slugify text 50 = slug_by_run text.
Proof.
  unfold _slugify, slug_by_run. rewrite sub_runs_replace_runs.
  destruct (Str.strip_with is_underscore (replace_runs text)); reflexivity.
Qed.

Lemma sub_runs_chars in_run text :
  Str.all_chars slug_char (sub_runs in_run text) = true.
Proof.
  revert in_run. induction text as [|c text IH]; intros in_run; simpl; [done|].
  destruct (slug_char c) eqn:Hc; simpl.
  - by rewrite Hc, IH.
  - destruct in_run; simpl; by rewrite ?IH.
Qed.

(** A slug is not empty, has at most [max_len] characters when
    [max_len] is positive, and consists of characters of the set. *)
Lemma slugify_chars text max_len :
  Str.all_chars slug_char (_slugify text max_len) = true.
Proof.
  unfold _slugify. apply all_chars_take.
  destruct (Str.strip_with is_underscore (sub_runs false text)) eqn:E;
    simpl negb; cbn iota; [reflexivity|].
  rewrite <- E. apply all_chars_strip_with, sub_runs_chars.
Qed.

Lemma take_length n s : (String.length (Str.take n s) <= n)%nat.
Proof.
  revert s. induction n as [|n IH]; intros [|c s]; simpl; try lia.
  specialize (IH s). lia.
Qed.

Lemma slugify_nonempty text max_len :
  (0 < max_len)%nat -> Str.nonempty (_slugify text max_len) = true.
Proof.
  intros Hpos. unfold _slugify.
  destruct max_len as [|n]; [lia|].
  destruct (Str.strip_with is_underscore (sub_runs false text)); reflexivity.
Qed.

Lemma slug_char_not_slash c : slug_char c = true -> not_slash c = true.
Proof.
  intros Hc. unfold not_slash. apply negb_true_iff, Ascii.eqb_neq.
  intros ->. discriminate.
Qed.

Lemma slug_char_not_dot c : slug_char c = true -> c <> "."%char.
Proof. intros Hc ->. discriminate. Qed.

(** A name that starts with a character of the set and holds no [/] is a
    single relative component. *)
Lemma parse_plain_name c s :
  slug_char c = true ->
  Str.all_chars not_slash s = true ->
  PurePath.parse (String c s) = PurePath.mk false [String c s].
Proof.
  intros Hc Hs. unfold PurePath.parse. f_equal.
  - destruct c as [[] [] [] [] [] [] [] []]; try reflexivity; discriminate.
  - rewrite split_no_sep.
    + rewrite filter_cons_True, filter_nil; [reflexivity|].
      unfold PurePath.keep_part. simpl.
      destruct (Ascii.eqb_spec c "."); [|reflexivity].
      by apply slug_char_not_dot in Hc.
    + change (Str.all_chars not_slash (String c s) = true). simpl.
      by rewrite slug_char_not_slash.
Qed.

(** C7, amended. [build_report_path] returns the directory joined with
    [slug_uid.html], where [uid] is the text the identifier generator
    yields and [slug] is the query with every maximal run of characters
    outside [A-Za-z0-9_-] replaced by a single [_], trimmed of leading and
    trailing [_], cut to 50 characters, and [report] when that is empty.
    When the identifier holds no [/], the file name is the last component
    of the result. *)
Theorem build_report_path_spec query reports_dir uuid_func :
  let filename := slug_by_run query +:+ "_" +:+ uuid_func tt +:+ ".html" in
  build_report_path query reports_dir uuid_func
    = PurePath.joinpath reports_dir filename
  /\ (Str.all_chars not_slash (uuid_func tt) = true ->
      build_report_path query reports_dir uuid_func
        = PurePath.mk (PurePath.absolute reports_dir)
                      (PurePath.parts reports_dir ++ [filename])
      /\ PurePath.name (build_report_path query reports_dir uuid_func)
         = filename).
Proof.
  intros filename. subst filename.
  unfold build_report_path. rewrite slugify_slug_by_run.
  split; [reflexivity|]. intros Huid.
  pose proof (slugify_chars query 50) as Hchars.
  pose proof (slugify_nonempty query 50 ltac:(lia)) as Hne.
  rewrite slugify_slug_by_run in Hchars, Hne.
  destruct (slug_by_run query) as [|c slug]; [discriminate|].
  simpl in Hchars. apply andb_true_iff in Hchars as [Hc Hslug].
  rewrite append_cons. unfold PurePath.joinpath.
  rewrite parse_plain_name; [|assumption|].
  - simpl. split; [reflexivity|]. unfold PurePath.name. simpl.
    by rewrite last_last.
  - rewrite !all_chars_append, Huid.
    rewrite (all_chars_weaken slug_char not_slash slug slug_char_not_slash Hslug).
    reflexivity.
Qed.

(** The scenario of the specification. *)
Lemma Fe2O3_report_path :
  PurePath.name
    (build_report_path "Fe2O3" (PurePath.parse "sky_reports") fixed_uuid)
  = "Fe2O3_fixed-uuid.html"
  /\ PurePath.to_str
       (build_report_path "Fe2O3" (PurePath.parse "sky_reports") fixed_uuid)
     = "sky_reports/Fe2O3_fixed-uuid.html".
Proof.
  destruct (build_report_path_spec "Fe2O3" (PurePath.parse "sky_reports")
              fixed_uuid) as [_ Hplain].
  destruct (Hplain eq_refl) as [Hpath Hname].
  split.
  - rewrite Hname. reflexivity.
  - rewrite Hpath. reflexivity.
Defined.

(** C7 as stated fails where two characters outside the set follow each
    other: the code writes one [_] for the run, the claim one for each
    character. *)
Lemma run_of_two_spaces :
  slug_by_character "a  b" = "a__b"
  /\ _slugify "a  b" 50 = "a_b"
  /\ build_report_path "a  b" (PurePath.parse "sky_reports") fixed_uuid
     = PurePath.parse "sky_reports/a_b_fixed-uuid.html"
  /\ PurePath.joinpath (PurePath.parse "sky_reports")
       (slug_by_character "a  b" +:+ "_" +:+ fixed_uuid tt +:+ ".html")
     = PurePath.parse "sky_reports/a__b_fixed-uuid.html"
  /\ build_report_path "a  b" (PurePath.parse "sky_reports") fixed_uuid
     <> PurePath.joinpath (PurePath.parse "sky_reports")
          (slug_by_character "a  b" +:+ "_" +:+ fixed_uuid tt +:+ ".html").
Proof. repeat split; try reflexivity. discriminate. Qed.

(** Where no two such characters are adjacent the two readings agree. *)
Example slug_readings_agree :
  slug_by_character "LiFePO4 olivine" = _slugify "LiFePO4 olivine" 50
  /\ _slugify "  " 50 = "report"
  /\ _slugify "" 50 = "report".
Proof. repeat split; reflexivity. Qed.

(** *** The atomic writer *)

Import FS FSFacts.









End ReportIOFacts.

Module ResponseFacts.
Import Response.
Section WithBuiltins.
Context `{Builtins}.

Lemma contains_lookup (d : gmap string value) k v :
  d !! k = Some v -> contains d k = true.
Proof. intros E. unfold contains. rewrite E. reflexivity. Qed.

Lemma contains_none (d : gmap string value) k :
  d !! k = None -> contains d k = false.
Proof. intros E. unfold contains. rewrite E. reflexivity. Qed.

Lemma getitem_lookup (d : gmap string value) k v :
  d !! k = Some v -> getitem d k = Ok v.
Proof. intros E. unfold getitem. rewrite E. reflexivity. Qed.

Ltac key d k v E :=
  destruct (d !! k) as [v|] eqn:E;
  [ rewrite ?(contains_lookup d k v E), ?(getitem_lookup d k v E)
  | rewrite (contains_none d k E); simpl; try discriminate ].

Ltac step := cbn [mbind result_bind bind assert_ is_dict is_none].

Ltac lookups :=
  repeat match goal with
         | E : ?d !! ?k = Some ?v |- context [contains ?d ?k] =>
             rewrite (contains_lookup d k v E)
         | E : ?d !! ?k = Some ?v |- context [getitem ?d ?k] =>
             rewrite (getitem_lookup d k v E)
         end.

(** What the assertions accept is returned unchanged. *)
Lemma validate_checks_id resp resp' :
  validate_checks resp = Ok resp' -> resp' = resp.
Proof.
  unfold validate_checks.
  destruct resp as [| | | | | |d]; try discriminate.
  key d "ok" ok Hok. key d "data" data Hdata. key d "error" err Herror.
  key d "meta" meta Hmeta. key d "provenance" provenance Hprov.
  step.
  destruct (is_dict meta); step; try discriminate.
  destruct (is_dict provenance); step; try discriminate.
  assert (Hfailed :
    (data0 ← Ok data;
     assert_ (is_none data0) "ok False requires data=None." ;;
     error0 ← Ok err;
     match error0 with
     | VDict e0 =>
         assert_ (contains e0 "type") "error missing type." ;;
         assert_ (contains e0 "message") "error missing message." ;;
         assert_ (contains e0 "details") "error missing details." ;;
         err_type ← getitem e0 "type";
         allowed ← in_str_set err_type ALLOWED_ERROR_TYPES;
         assert_ allowed ("Invalid error.type: " +:+ py_str err_type) ;;
         Ok (VDict d)
     | _ => Raise (PyErr AssertionError "error must be dict.")
     end) = Ok resp' -> resp' = VDict d).
  { step. destruct (is_none data); step; try discriminate.
    destruct err as [| | | | | |e0]; try discriminate.
    key e0 "type" err_type Htype. key e0 "message" message Hmessage.
    key e0 "details" details Hdetails.
    step.
    destruct (in_str_set err_type ALLOWED_ERROR_TYPES) as [[]|]; step;
      try discriminate.
    congruence. }
  destruct ok as [|[]| | | | |]; try exact Hfailed.
  step. destruct (is_none err); step; [congruence | discriminate].
Qed.

(** The assertions on a dict whose five fields are known, [ok] true. *)
Lemma checks_ok_shape (d : gmap string value) data error meta provenance :
  d !! "ok" = Some (VBool true) -> d !! "data" = Some data ->
  d !! "error" = Some error -> d !! "meta" = Some meta ->
  d !! "provenance" = Some provenance ->
  validate_checks (VDict d) =
    if is_dict meta then
      if is_dict provenance then
        if is_none error then Ok (VDict d)
        else Raise (PyErr AssertionError "ok True requires error=None.")
      else Raise (PyErr AssertionError "provenance must be dict.")
    else Raise (PyErr AssertionError "meta must be dict.").
Proof.
  intros Hok Hdata Herr Hmeta Hprov.
  unfold validate_checks. lookups. simpl.
  destruct (is_dict meta); [|reflexivity]. simpl.
  destruct (is_dict provenance); [|reflexivity]. simpl.
  destruct (is_none error); reflexivity.
Qed.

(** The same with [ok] false and an error dict whose type is a [str]. *)
Lemma checks_err_shape (d e : gmap string value) meta provenance et msg det :
  d !! "ok" = Some (VBool false) -> d !! "data" = Some VNone ->
  d !! "error" = Some (VDict e) -> d !! "meta" = Some meta ->
  d !! "provenance" = Some provenance ->
  e !! "type" = Some (VStr et) -> e !! "message" = Some msg ->
  e !! "details" = Some det ->
  validate_checks (VDict d) =
    if is_dict meta then
      if is_dict provenance then
        if bool_decide (et ∈ ALLOWED_ERROR_TYPES) then Ok (VDict d)
        else Raise (PyErr AssertionError ("Invalid error.type: " +:+ et))
      else Raise (PyErr AssertionError "provenance must be dict.")
    else Raise (PyErr AssertionError "meta must be dict.").
Proof.
  intros Hok Hdata Herr Hmeta Hprov Htype Hmsg Hdet.
  unfold validate_checks. lookups. simpl.
  destruct (is_dict meta); [|reflexivity]. simpl.
  destruct (is_dict provenance); [|reflexivity]. simpl.
  lookups. simpl. rewrite py_str_VStr.
  destruct (bool_decide (et ∈ ALLOWED_ERROR_TYPES)); reflexivity.
Qed.

Lemma checks_ok_envelope data meta provenance :
  validate_checks (_envelope true data VNone meta provenance) =
    if is_dict (py_or meta (VDict ∅)) then
      if is_dict (py_or provenance (VDict ∅)) then
        Ok (_envelope true data VNone meta provenance)
      else Raise (PyErr AssertionError "provenance must be dict.")
    else Raise (PyErr AssertionError "meta must be dict.").
Proof.
  unfold _envelope.
  erewrite checks_ok_shape by reflexivity. reflexivity.
Qed.

Lemma checks_err_envelope (error_type : string) (message : value) details
    meta provenance :
  let resp := _envelope false VNone
                (VDict (dict [ ("type", VStr error_type);
                               ("message", message);
                               ("details", details) ]))
                meta provenance in
  validate_checks resp =
    if is_dict (py_or meta (VDict ∅)) then
      if is_dict (py_or provenance (VDict ∅)) then
        if bool_decide (error_type ∈ ALLOWED_ERROR_TYPES) then Ok resp
        else Raise (PyErr AssertionError ("Invalid error.type: " +:+ error_type))
      else Raise (PyErr AssertionError "provenance must be dict.")
    else Raise (PyErr AssertionError "meta must be dict.").
Proof.
  intros resp. subst resp. unfold _envelope.
  erewrite checks_err_shape by reflexivity. reflexivity.
Qed.

(** The substituted envelope is itself well formed. *)
Lemma checks_validation_failure details :
  validate_checks (validation_failure details) = Ok (validation_failure details).
Proof.
  unfold validation_failure.
  erewrite checks_err_shape by reflexivity. reflexivity.
Qed.

Lemma envelope_failure_eq details :
  _envelope false VNone
    (VDict (dict [ ("type", VStr "runtime_error");
                   ("message", VStr "Envelope validation failed.");
                   ("details", VStr details) ]))
    (VDict ∅) (VDict ∅) = validation_failure details.
Proof. reflexivity. Qed.

(** Without [strict], a failed assertion is turned into the substituted
    envelope; with [strict] it is raised. *)
Lemma validate_envelope_assertion resp msg strict :
  validate_checks resp = Raise (PyErr AssertionError msg) ->
  validate_envelope resp strict =
    if strict then Raise (PyErr AssertionError msg)
    else Ok (validation_failure msg).
Proof.
  intros E. unfold validate_envelope. rewrite E. simpl.
  destruct strict; reflexivity.
Qed.

Lemma validate_envelope_accepts resp strict :
  validate_checks resp = Ok resp -> validate_envelope resp strict = Ok resp.
Proof. intros E. unfold validate_envelope. rewrite E. reflexivity. Qed.

(** The fields of the substituted envelope. *)
Lemma validation_failure_fields details :
  exists d e,
    validation_failure details = VDict d
    /\ d !! "ok" = Some (VBool false)
    /\ d !! "data" = Some VNone
    /\ d !! "error" = Some (VDict e)
    /\ d !! "meta" = Some (VDict ∅)
    /\ d !! "provenance" = Some (VDict ∅)
    /\ e !! "type" = Some (VStr "runtime_error")
    /\ e !! "message" = Some (VStr "Envelope validation failed.")
    /\ e !! "details" = Some (VStr details).
Proof. do 2 eexists. repeat split; reflexivity. Qed.

(** An error type outside the closed set is answered by the substituted
    envelope, and so is a [meta] that is neither falsy nor a dict. *)
Lemma make_err_foreign_type (error_type : string) message details :
  error_type ∉ ALLOWED_ERROR_TYPES ->
  make_err error_type message details VNone VNone =
    Ok (validation_failure ("Invalid error.type: " +:+ error_type)).
Proof.
  intros Hnot. unfold make_err.
  apply validate_envelope_assertion with (strict := false).
  rewrite checks_err_envelope. simpl.
  rewrite bool_decide_false by assumption. reflexivity.
Qed.

Lemma make_ok_meta_not_dict data provenance :
  make_ok data (VStr "x") provenance = Ok (validation_failure "meta must be dict.").
Proof.
  unfold make_ok.
  apply validate_envelope_assertion with (strict := false).
  rewrite checks_ok_envelope. reflexivity.
Qed.

(** [make_err] never answers with [ok] set. *)
Lemma make_err_not_ok error_type message details meta provenance env :
  make_err error_type message details meta provenance = Ok env ->
  field env "ok" = Some (VBool false).
Proof.
  unfold make_err, validate_envelope.
  destruct (validate_checks _) as [r|e] eqn:Hchecks; simpl.
  - intros [= <-]. by apply validate_checks_id in Hchecks as ->.
  - destruct (isinstance e AssertionError); [|discriminate].
    by intros [= <-].
Qed.

(** With dicts for [meta] and [provenance], [make_ok] returns the
    envelope it built. *)
Lemma make_ok_dicts data (meta provenance : gmap string value) :
  make_ok data (VDict meta) (VDict provenance) =
    Ok (_envelope true data VNone (VDict meta) (VDict provenance)).
Proof.
  unfold make_ok. apply validate_envelope_accepts.
  rewrite checks_ok_envelope. unfold py_or.
  by destruct (truthy (VDict meta)), (truthy (VDict provenance)).
Qed.

Lemma envelope_data ok data error meta provenance :
  field (_envelope ok data error meta provenance) "data" = Some data.
Proof. reflexivity. Qed.

End WithBuiltins.
End ResponseFacts.

Module ServerFacts.
Import Server.

Lemma register_each_recording parameters named defs registered :
  register_each (recording parameters) named defs registered =
    Ok (registered ++
        ((fun d => (if named then Some (td_name d, td_description d) else None,
                    td_func d)) <$> defs)).
Proof.
  revert registered. induction defs as [|d defs IH]; intros registered; simpl.
  - by rewrite app_nil_r.
  - unfold mbind, result_bind, bind. simpl. rewrite IH.
    by rewrite <- app_assoc.
Qed.

(** C8 as stated fails in its last part: nothing in the registration loop
    compares names.  A list in which [read_cif] occurs twice is registered
    without an error, both entries reaching the backend. *)
Lemma duplicate_names_are_registered :
  ~ NoDup (td_name <$> twice)
  /\ (supports_named ← _supports_named (recording ["name"; "description"]);
      register_each (recording ["name"; "description"]) supports_named twice [])
     = Ok [ (Some ("read_cif", "Read CIF text and return structure metadata."),
             tool "read_cif");
            (Some ("read_cif", "Read CIF file path."), tool "read_cif_path") ].
Proof.
  split; [|reflexivity].
  intros Hnodup. apply NoDup_cons in Hnodup as [Hnotin _].
  apply Hnotin. by left.
Qed.

(** C8, amended. The registry is a fixed list of twelve descriptors whose
    names are pairwise distinct, each being the name of its handler.
    Registration hands the descriptors to the backend in the order of the
    list, with name and description when the backend's registration
    function has a [name] parameter and the bare handler otherwise; it
    compares no names itself, whatever list it runs over. *)
Theorem registry_fixed_and_distinct :
  length TOOL_DEFS = 12%nat
  /\ NoDup (td_name <$> TOOL_DEFS)
  /\ Forall (fun d => fn_name (td_func d) = td_name d) TOOL_DEFS
  /\ _register_tools (recording ["name"; "description"]) []
     = Ok ((fun d => (Some (td_name d, td_description d), td_func d))
             <$> TOOL_DEFS)
  /\ _register_tools (recording []) []
     = Ok ((fun d => (None, td_func d)) <$> TOOL_DEFS)
  /\ (forall parameters named defs,
        register_each (recording parameters) named defs []
        = Ok ((fun d => (if named then Some (td_name d, td_description d)
                         else None, td_func d)) <$> defs)).
Proof.
  split; [reflexivity|].
  split; [apply (bool_decide_unpack (NoDup _)); by vm_compute|].
  split; [by repeat constructor|].
  split; [reflexivity|]. split; [reflexivity|].
  intros parameters named defs. apply register_each_recording.
Qed.

(** A registration function whose signature cannot be inspected is
    treated as one without a [name] parameter. *)
Example uninspectable_factory :
  _supports_named
    {| signature := Raise (PyErr ValueError "no signature found");
       decorate := decorate (recording []) |} = Ok false.
Proof. reflexivity. Qed.

End ServerFacts.

Module SortFacts.
Section Insertion.
Context {A : Type} (lt le : A -> A -> bool) (good : A -> Prop).
Hypothesis lt_le : forall x y, lt x y = true -> le x y = true.
Hypothesis not_lt_ge :
  forall x y, good x -> good y -> lt x y = false -> le y x = true.

#[local] Abbreviation ordered := (Sorted (fun a b => le a b = true)).
#[local] Abbreviation heads := (HdRel (fun a b => le a b = true)).

Lemma insert_by_perm x l : Permutation (insert_by lt x l) (x :: l).
Proof.
  induction l as [|y l IH]; simpl; [reflexivity|].
  destruct (lt x y); [reflexivity|].
  rewrite IH. apply perm_swap.
Qed.

Lemma insert_by_heads y x l :
  le y x = true -> heads y l -> heads y (insert_by lt x l).
Proof.
  intros Hyx Hhd. destruct l as [|z l]; simpl.
  - by constructor.
  - destruct (lt x z); constructor; [assumption|].
    by inversion Hhd.
Qed.

Lemma insert_by_sorted x l :
  good x -> Forall good l -> ordered l -> ordered (insert_by lt x l).
Proof.
  intros Hx Hgood Hsorted.
  induction l as [|y l IH]; simpl.
  - by repeat constructor.
  - apply Forall_cons in Hgood as [Hy Hl].
    apply Sorted_inv in Hsorted as [Hsl Hhd].
    destruct (lt x y) eqn:Hlt.
    + constructor; [by constructor|]. constructor. by apply lt_le.
    + constructor; [by apply IH|].
      apply insert_by_heads; [|assumption]. by apply not_lt_ge.
Qed.

Lemma foldl_insert_perm acc l :
  Permutation (foldl (fun acc x => insert_by lt x acc) acc l) (acc ++ l).
Proof.
  revert acc. induction l as [|x l IH]; intros acc; simpl.
  - by rewrite app_nil_r.
  - rewrite IH, insert_by_perm. simpl. apply Permutation_middle.
Qed.

Lemma foldl_insert_sorted acc l :
  Forall good acc -> Forall good l -> ordered acc ->
  ordered (foldl (fun acc x => insert_by lt x acc) acc l).
Proof.
  revert acc. induction l as [|x l IH]; intros acc Hacc Hl Hsorted; simpl;
    [assumption|].
  apply Forall_cons in Hl as [Hx Hl].
  apply IH; [|assumption|by apply insert_by_sorted].
  rewrite insert_by_perm. by constructor.
Qed.

End Insertion.

(** [sorted] returns a rearrangement of its argument. *)
Lemma py_sorted_perm {A K} (key : A -> K) (lt : K -> K -> bool) l :
  Permutation (py_sorted key lt l) l.
Proof. unfold py_sorted. by rewrite foldl_insert_perm. Qed.

(** Where the keys are totally preordered the result is in nondecreasing
    order. *)
Lemma py_sorted_sorted {A K} (key : A -> K) (lt le : K -> K -> bool)
    (good : K -> Prop) l :
  (forall x y, lt x y = true -> le x y = true) ->
  (forall x y, good x -> good y -> lt x y = false -> le y x = true) ->
  Forall (fun a => good (key a)) l ->
  Sorted (fun a b => le (key a) (key b) = true) (py_sorted key lt l).
Proof.
  intros Hlt Hge Hgood. unfold py_sorted.
  apply (foldl_insert_sorted _ (fun a b => le (key a) (key b))
           (fun a => good (key a))); auto.
Qed.

End SortFacts.

Module ToolsFacts.
Import Tools SortFacts.

(** *** The order of floats and of keys *)

Lemma SFcompare_antisym x y : SFcompare y x = CompOpp <$> SFcompare x y.
Proof.
  destruct x as [sx|sx| |sx mx ex], y as [sy|sy| |sy my ey]; simpl;
    try reflexivity; try (by destruct sx); try (by destruct sy);
    try (by destruct sx, sy).
  rewrite (Z.compare_antisym ex ey).
  change (Pos.compare_cont Eq my mx) with (Pos.compare my mx).
  change (Pos.compare_cont Eq mx my) with (Pos.compare mx my).
  rewrite (Pos.compare_antisym mx my).
  destruct sx, sy; try reflexivity;
    destruct (ex ?= ey); simpl; try reflexivity;
    destruct (mx ?= my)%positive; reflexivity.
Qed.

Lemma SFcompare_some x y :
  is_nan x = false -> is_nan y = false -> exists c, SFcompare x y = Some c.
Proof.
  destruct x, y; simpl; try discriminate; eauto.
Qed.

Lemma SFeqb_sym x y : SFeqb y x = SFeqb x y.
Proof.
  unfold SFeqb. rewrite SFcompare_antisym.
  by destruct (SFcompare x y) as [[]|].
Qed.

Lemma string_not_lt_ge a b :
  String.ltb a b = false -> String.leb b a = true.
Proof.
  intros Hlt. unfold String.ltb in Hlt. unfold String.leb.
  rewrite String.compare_antisym.
  by destruct (String.compare a b).
Qed.

Lemma string_lt_le a b : String.ltb a b = true -> String.leb a b = true.
Proof.
  unfold String.ltb, String.leb. by destruct (String.compare a b).
Qed.

Lemma key_lt_le a b : key_lt a b = true -> key_le a b = true.
Proof.
  destruct a as [[da ia] fa], b as [[db ib] fb]. unfold key_lt, key_le.
  destruct (SFeqb da db).
  - simpl. destruct (String.eqb ia ib); simpl.
    + destruct (String.eqb fa fb); simpl; [done | apply string_lt_le].
    + apply string_lt_le.
  - simpl. unfold SFltb, SFleb. by destruct (SFcompare da db) as [[]|].
Qed.

Lemma key_not_lt_ge a b :
  no_nan a -> no_nan b -> key_lt a b = false -> key_le b a = true.
Proof.
  destruct a as [[da ia] fa], b as [[db ib] fb]. unfold no_nan. simpl.
  intros Ha Hb. unfold key_lt, key_le.
  rewrite (SFeqb_sym da db), (String.eqb_sym ib ia), (String.eqb_sym fb fa).
  destruct (SFeqb da db) eqn:Heq; simpl.
  - destruct (String.eqb ia ib) eqn:Hi; simpl.
    + destruct (String.eqb fa fb) eqn:Hf; simpl; [done|].
      by apply string_not_lt_ge.
    + by apply string_not_lt_ge.
  - unfold SFeqb in Heq. unfold SFltb, SFleb. rewrite (SFcompare_antisym da db).
    destruct (SFcompare_some da db Ha Hb) as [c Hc]. rewrite Hc in *.
    by destruct c.
Qed.

(** *** The ranking loop *)

Lemma derived_similarity_ok d sim :
  _derived_similarity d = Ok sim ->
  sim = SFdiv prec emax float_one (SFadd prec emax float_one d).
Proof.
  unfold _derived_similarity, py_truediv.
  destruct (float_is_zero _); [discriminate|]. by intros [= <-].
Qed.

Lemma rank_from_ok idx neighbors results :
  rank_from idx neighbors = Ok results ->
  neighbor_of <$> results = neighbors
  /\ (forall k e, results !! k = Some e ->
        rank e = idx + Z.of_nat k
        /\ similarity e
           = SFdiv prec emax float_one (SFadd prec emax float_one (e_distance e))).
Proof.
  revert idx results.
  induction neighbors as [|n neighbors IH]; intros idx results; simpl.
  - intros [= <-]. split; [reflexivity|]. intros k e Hk. by destruct k.
  - destruct (_derived_similarity (distance n)) as [sim|e] eqn:Hsim;
      [|discriminate]. simpl.
    destruct (rank_from (idx + 1) neighbors) as [rest|e] eqn:Hrest;
      [|discriminate]. simpl.
    intros [= <-]. destruct (IH _ _ Hrest) as [Hmap Hrank]. split.
    + rewrite fmap_cons, Hmap. by destruct n.
    + intros [|k] e Hk; simpl in Hk.
      * injection Hk as <-. simpl. split; [lia|].
        by apply derived_similarity_ok.
      * destruct (Hrank k e Hk) as [Hr Hs]. split; [lia | assumption].
Qed.

(** The loop returns unless some distance [d] makes [1.0 + d] zero. *)
Lemma rank_from_total idx neighbors :
  Forall (fun n => float_is_zero (SFadd prec emax float_one (distance n)) = false)
    neighbors ->
  exists results, rank_from idx neighbors = Ok results.
Proof.
  revert idx. induction neighbors as [|n neighbors IH]; intros idx Hall; simpl.
  - eauto.
  - apply Forall_cons in Hall as [Hn Hall].
    unfold _derived_similarity, py_truediv. rewrite Hn. simpl.
    destruct (IH (idx + 1) Hall) as [rest ->]. simpl. eauto.
Qed.

(** *** The tool *)

Lemma services_agree_refl {comp} (svc : Services comp) : services_agree svc svc.
Proof. repeat split. Qed.

Section WithServices.
Context `{Builtins} {comp : Type}.

Lemma search_agree (svc1 svc2 : Services comp) formula top_n :
  services_agree svc1 svc2 ->
  search_similar_by_composition svc1 formula top_n
  = search_similar_by_composition svc2 formula top_n.
Proof.
  intros (Hparse & Hemb & Hquery & Hversion & Hassets).
  unfold search_similar_by_composition, _missing_asset_error, _meta.
  rewrite Hparse, Hemb, Hversion, Hassets.
  destruct (parse_composition svc2 formula) as [composition|exc];
    [|reflexivity].
  destruct (composition_embedding svc2) as [[path|]|exc]; try reflexivity.
  simpl. by rewrite Hquery.
Qed.

(** C5, amended. When the similarity search by composition succeeds, the
    neighbour list it returns is a rearrangement of what the collaborator
    supplied; when no supplied distance is NaN it is in nondecreasing
    lexicographic order of (distance, material_id, formula), whatever the
    order of the supply; the rank of an entry is its position counted
    from 1 and its similarity is [1.0 / (1.0 + distance)] in binary64
    arithmetic.  Collaborators that answer alike give the same output. *)
Theorem similarity_search_sorted (svc : Services comp) formula top_n :
  (forall env,
     search_similar_by_composition svc formula top_n = Ok env ->
     field env "ok" = Some (VBool true) ->
     exists composition neighbors results,
       parse_composition svc formula = Ok composition
       /\ search_query svc composition (Z.max 100 top_n) top_n = Ok neighbors
       /\ field env "data" =
            Some (VDict (dict
              [ ("query", VStr formula);
                ("num_results", VInt (Z.of_nat (length results)));
                ("neighbors", VList (entry_value <$> results)) ]))
       /\ Permutation (neighbor_of <$> results) neighbors
       /\ (Forall (fun n => is_nan (distance n) = false) neighbors ->
           Sorted key_ordered (neighbor_of <$> results))
       /\ (forall k e, results !! k = Some e ->
             rank e = Z.of_nat k + 1
             /\ similarity e =
                  SFdiv prec emax float_one
                    (SFadd prec emax float_one (e_distance e))))
  /\ (forall svc',
        services_agree svc svc' ->
        search_similar_by_composition svc' formula top_n
        = search_similar_by_composition svc formula top_n).
Proof.
  split; [|intros svc' Hagree; symmetry; by apply search_agree].
  intros env Hrun Hok.
  assert (Hfail : forall error_type message details meta provenance,
             Response.make_err error_type message details meta provenance
             = Ok env -> False).
  { intros ? ? ? ? ? Herr.
    apply ResponseFacts.make_err_not_ok in Herr. congruence. }
  unfold search_similar_by_composition in Hrun.
  destruct (negb (Str.nonempty formula) || negb (Str.nonempty (Str.strip formula)));
    [by apply Hfail in Hrun|].
  destruct (parse_composition svc formula) as [composition|exc] eqn:Hparse.
  2: { destruct (isinstance exc Exception);
         [by apply Hfail in Hrun | discriminate]. }
  destruct (composition_embedding svc) as [[path|]|exc];
    [|unfold _missing_asset_error in Hrun; by apply Hfail in Hrun
     |discriminate].
  simpl in Hrun.
  destruct (search_query svc composition (Z.max 100 top_n) top_n)
    as [neighbors|exc] eqn:Hquery.
  2: { simpl in Hrun.
       destruct (isinstance exc FileNotFoundError);
         [by apply Hfail in Hrun|].
       destruct (isinstance exc Exception);
         [by apply Hfail in Hrun | discriminate]. }
  simpl in Hrun.
  destruct (rank_from 1 (py_sorted sort_key key_lt neighbors))
    as [results|exc] eqn:Hrank.
  2: { simpl in Hrun.
       destruct (isinstance exc FileNotFoundError);
         [by apply Hfail in Hrun|].
       destruct (isinstance exc Exception);
         [by apply Hfail in Hrun | discriminate]. }
  simpl in Hrun. unfold _meta in Hrun.
  rewrite ResponseFacts.make_ok_dicts in Hrun. simpl in Hrun.
  injection Hrun as <-.
  apply rank_from_ok in Hrank as [Hmap Hranks].
  exists composition, neighbors, results.
  split; [reflexivity|]. split; [assumption|]. split; [reflexivity|].
  rewrite Hmap. split; [apply py_sorted_perm|]. split.
  - intros Hnan.
    apply (py_sorted_sorted sort_key key_lt key_le no_nan).
    + apply key_lt_le.
    + apply key_not_lt_ge.
    + exact Hnan.
  - intros k e Hk. destruct (Hranks k e Hk) as [Hr Hs].
    split; [lia | assumption].
Qed.

End WithServices.

(** C5 as stated fails when a supplied distance is NaN: the search
    succeeds, and the two neighbours it returns are in nondecreasing order
    neither as returned nor the other way round. *)
Lemma nan_distance_is_not_sorted :
  let first := {| rank := 1; e_material_id := "mp-1"; e_formula := "FeO";
                  e_distance := S754_nan; similarity := S754_nan |} in
  let second := {| rank := 2; e_material_id := "mp-3"; e_formula := "Fe2O3";
                   e_distance := float_one; similarity := float_half |} in
  exists env,
    @search_similar_by_composition constants_builtins _ (answering with_nan)
      "FeO" 10 = Ok env
    /\ field env "ok" = Some (VBool true)
    /\ (data ← field env "data"; field data "neighbors")
       = Some (VList [entry_value first; entry_value second])
    /\ key_le (sort_key (neighbor_of first)) (sort_key (neighbor_of second))
       = false
    /\ key_le (sort_key (neighbor_of second)) (sort_key (neighbor_of first))
       = false.
Proof.
  intros first second. eexists. split; [by vm_compute|].
  repeat split; reflexivity.
Qed.

(** Three neighbours supplied out of order. *)
Lemma unordered_neighbors_are_sorted :
  exists env results,
    @search_similar_by_composition constants_builtins _ (answering unordered)
      "Fe2O3" 10 = Ok env
    /\ field env "data" =
         Some (VDict (dict
           [ ("query", VStr "Fe2O3");
             ("num_results", VInt (Z.of_nat (length results)));
             ("neighbors", VList (entry_value <$> results)) ]))
    /\ Permutation (neighbor_of <$> results) unordered
    /\ Sorted key_ordered (neighbor_of <$> results).
Proof.
  destruct (@search_similar_by_composition constants_builtins _
              (answering unordered) "Fe2O3" 10) as [env|exc] eqn:Hrun;
    [|by vm_compute in Hrun].
  assert (Hok : field env "ok" = Some (VBool true))
    by (vm_compute in Hrun; by injection Hrun as <-).
  destruct (@similarity_search_sorted constants_builtins _
              (answering unordered) "Fe2O3" 10) as [Hsorted _].
  destruct (Hsorted env Hrun Hok)
    as (composition & neighbors & results & _ & Hquery & Hdata & Hperm
        & Hord & _).
  injection Hquery as <-.
  exists env, results. split; [reflexivity|]. split; [assumption|].
  split; [assumption|].
  apply Hord. by repeat constructor.
Defined.

Example unordered_neighbors_output :
  rank_from 1 (py_sorted sort_key key_lt unordered) =
    Ok [ {| rank := 1; e_material_id := "mp-1"; e_formula := "FeO";
            e_distance := float_half;
            similarity := S754_finite false 6004799503160661 (-53) |};
         {| rank := 2; e_material_id := "mp-3"; e_formula := "Fe2O3";
            e_distance := float_half;
            similarity := S754_finite false 6004799503160661 (-53) |};
         {| rank := 3; e_material_id := "mp-9"; e_formula := "Fe3O4";
            e_distance := float_one; similarity := float_half |} ].
Proof. reflexivity. Qed.

(** A distance of [-1.0] makes the division raise, and the tool answers
    with a [runtime_error]. *)
Example minus_one_is_runtime_error :
  exists env,
    @search_similar_by_composition constants_builtins _
      (answering [ {| material_id := "mp-1"; formula := "FeO";
                      distance := SFopp float_one |} ])
      "FeO" 10 = Ok env
    /\ field env "ok" = Some (VBool false)
    /\ (error ← field env "error"; field error "type")
       = Some (VStr "runtime_error").
Proof. eexists. split; [by vm_compute|]. split; reflexivity. Qed.

End ToolsFacts.

(** * More of paths.py: the checks behind the containment check *)

Module ResolverFacts.
Import Paths PathsFacts.

Section WithWorld.
Variable w : World.

Lemma init_details_none error_type message :
  PathResolutionError_init error_type message VNone =
  PathResolutionError error_type message (VDict ∅).
Proof. reflexivity. Qed.

Lemma existsb_within resolved (resolved_roots : list PurePath.t) :
  existsb (PurePath.is_relative_to resolved) resolved_roots = true ->
  exists root, root ∈ resolved_roots /\ within resolved root.
Proof.
  intros Hex. apply existsb_exists in Hex as (root & Hin & Hrel).
  exists root. split; [by apply list_elem_of_In|].
  by apply is_relative_to_spec.
Qed.

(** The resolver up to the existence test, for a path inside a root. *)
Lemma resolve_local_path_inside path_str allowed_roots max_bytes
    candidate resolved resolved_roots :
  blank path_str = false ->
  expanduser w (PurePath.parse path_str) = Ok candidate ->
  resolve w candidate = Ok resolved ->
  mapM (normalize_root w) (effective_roots w allowed_roots) = Ok resolved_roots ->
  existsb (PurePath.is_relative_to resolved) resolved_roots = true ->
  resolve_local_path w path_str allowed_roots max_bytes =
    (found ← path_exists w resolved;
     if negb found then
       Raise (PathResolutionError "file_not_found" "File not found."
                (VDict (dict [("path", path_value resolved)])))
     else
       regular ← is_file w resolved;
       if negb regular then
         Raise (PathResolutionError "invalid_input" "Path is not a file."
                  (VDict (dict [("path", path_value resolved)])))
       else
         limit ← effective_limit w max_bytes;
         size ←
           try_except (stat_size w resolved) OSError
             (fun exc =>
                Raise (PathResolutionError "runtime_error"
                         "Unable to stat file."
                         (VDict (dict [ ("path", path_value resolved);
                                        ("error", VStr (exn_str exc)) ]))));
         if size >? limit then
           Raise (PathResolutionError "file_too_large"
                    "File exceeds size limit."
                    (VDict (dict [ ("path", path_value resolved);
                                   ("size", VInt size);
                                   ("max_bytes", VInt limit) ])))
         else Ok resolved).
Proof.
  intros Hblank Hexp Hres Hroots Hin.
  unfold resolve_local_path. rewrite Hblank, Hexp. run.
  rewrite Hres. run. rewrite Hroots. run. rewrite Hin. run.
  rewrite !init_details_dict by discriminate. reflexivity.
Qed.

(** The guarantee behind a returned path: it is the normalised form of
    the input, lies within a normalised allowed root, exists, is a regular
    file, and its size does not exceed the ceiling in force. *)
Theorem resolved_path_guarantee path_str allowed_roots max_bytes p :
  resolve_local_path w path_str allowed_roots max_bytes = Ok p ->
  blank path_str = false
  /\ exists candidate resolved_roots limit size,
       expanduser w (PurePath.parse path_str) = Ok candidate
       /\ resolve w candidate = Ok p
       /\ mapM (normalize_root w) (effective_roots w allowed_roots)
          = Ok resolved_roots
       /\ (exists root, root ∈ resolved_roots /\ within p root)
       /\ path_exists w p = Ok true
       /\ is_file w p = Ok true
       /\ effective_limit w max_bytes = Ok limit
       /\ stat_size w p = Ok size
       /\ size <= limit.
Proof.
  intros Hrun.
  destruct (blank path_str) eqn:Hblank.
  { rewrite blank_is_invalid_input in Hrun by assumption. discriminate. }
  split; [reflexivity|].
  destruct (expanduser w (PurePath.parse path_str)) as [candidate|e] eqn:Hexp.
  2: { rewrite (expanduser_exception_is_invalid_input w _ _ _ e) in Hrun
         by assumption. discriminate. }
  destruct (resolve w candidate) as [resolved|e] eqn:Hres.
  2: { rewrite (resolve_exception_escapes w _ _ _ candidate e) in Hrun
         by assumption. discriminate. }
  destruct (mapM (normalize_root w) (effective_roots w allowed_roots))
    as [resolved_roots|e] eqn:Hroots.
  2: { revert Hrun. unfold resolve_local_path. rewrite Hblank, Hexp. run.
       rewrite Hres. run. rewrite Hroots. discriminate. }
  destruct (existsb (PurePath.is_relative_to resolved) resolved_roots) eqn:Hin.
  2: { rewrite (resolve_local_path_outside w _ _ _ candidate resolved
                  resolved_roots) in Hrun by assumption. discriminate. }
  rewrite (resolve_local_path_inside _ _ _ candidate resolved resolved_roots)
    in Hrun by assumption.
  destruct (path_exists w resolved) as [[]|e] eqn:Hex; try discriminate.
  revert Hrun. run.
  destruct (is_file w resolved) as [[]|e] eqn:Hfile; try discriminate. run.
  destruct (effective_limit w max_bytes) as [limit|e] eqn:Hlimit;
    [|discriminate]. run.
  destruct (stat_size w resolved) as [size|e] eqn:Hstat.
  2: { run. destruct (isinstance e OSError); discriminate. }
  run. destruct (Z.gtb_spec size limit); [discriminate|].
  intros [= <-].
  exists candidate, resolved_roots, limit, size.
  repeat split; try assumption. by apply existsb_within.
Qed.

(** A path that passes every check is returned; a file whose size equals
    the ceiling is within it. *)
Theorem admissible_path_is_returned path_str allowed_roots max_bytes
    candidate resolved resolved_roots root size limit :
  blank path_str = false ->
  expanduser w (PurePath.parse path_str) = Ok candidate ->
  resolve w candidate = Ok resolved ->
  mapM (normalize_root w) (effective_roots w allowed_roots) = Ok resolved_roots ->
  root ∈ resolved_roots -> within resolved root ->
  path_exists w resolved = Ok true ->
  is_file w resolved = Ok true ->
  effective_limit w max_bytes = Ok limit ->
  stat_size w resolved = Ok size ->
  size <= limit ->
  resolve_local_path w path_str allowed_roots max_bytes = Ok resolved.
Proof.
  intros Hblank Hexp Hres Hroots Hin Hwithin Hex Hfile Hlimit Hstat Hle.
  rewrite (resolve_local_path_sized w _ _ _ candidate resolved resolved_roots
             size limit); try assumption.
  - destruct (Z.gtb_spec size limit); [lia | reflexivity].
  - by apply (inside_one _ _ root).
Qed.

(** Inside a root, a path that does not exist is a [file_not_found] and
    one that exists without being a regular file an [invalid_input]; the
    details name the normalised path. *)
Theorem missing_or_irregular_path path_str allowed_roots max_bytes
    candidate resolved resolved_roots root :
  blank path_str = false ->
  expanduser w (PurePath.parse path_str) = Ok candidate ->
  resolve w candidate = Ok resolved ->
  mapM (normalize_root w) (effective_roots w allowed_roots) = Ok resolved_roots ->
  root ∈ resolved_roots -> within resolved root ->
  (path_exists w resolved = Ok false ->
   resolve_local_path w path_str allowed_roots max_bytes =
     Raise (PathResolutionError "file_not_found" "File not found."
              (VDict (dict [("path", VStr (PurePath.to_str resolved))]))))
  /\ (path_exists w resolved = Ok true -> is_file w resolved = Ok false ->
      resolve_local_path w path_str allowed_roots max_bytes =
        Raise (PathResolutionError "invalid_input" "Path is not a file."
                 (VDict (dict [("path", VStr (PurePath.to_str resolved))])))).
Proof.
  intros Hblank Hexp Hres Hroots Hin Hwithin.
  pose proof (inside_one _ _ root Hin Hwithin) as Hinside.
  rewrite (resolve_local_path_inside _ _ _ candidate resolved resolved_roots)
    by assumption.
  split.
  - intros ->. reflexivity.
  - intros -> ->. reflexivity.
Qed.

(** When [stat] fails with an [OSError] the resolver raises
    [runtime_error] with the text of the failure; any other exception of
    [stat] leaves the resolver as it is. *)
Theorem stat_failure path_str allowed_roots max_bytes
    candidate resolved resolved_roots root limit e :
  blank path_str = false ->
  expanduser w (PurePath.parse path_str) = Ok candidate ->
  resolve w candidate = Ok resolved ->
  mapM (normalize_root w) (effective_roots w allowed_roots) = Ok resolved_roots ->
  root ∈ resolved_roots -> within resolved root ->
  path_exists w resolved = Ok true ->
  is_file w resolved = Ok true ->
  effective_limit w max_bytes = Ok limit ->
  stat_size w resolved = Raise e ->
  resolve_local_path w path_str allowed_roots max_bytes =
    if isinstance e OSError then
      Raise (PathResolutionError "runtime_error" "Unable to stat file."
               (VDict (dict [ ("path", VStr (PurePath.to_str resolved));
                              ("error", VStr (exn_str e)) ])))
    else Raise e.
Proof.
  intros Hblank Hexp Hres Hroots Hin Hwithin Hex Hfile Hlimit Hstat.
  pose proof (inside_one _ _ root Hin Hwithin) as Hinside.
  rewrite (resolve_local_path_inside _ _ _ candidate resolved resolved_roots)
    by assumption.
  rewrite Hex. run. rewrite Hfile. run. rewrite Hlimit. run. rewrite Hstat.
  run. destruct (isinstance e OSError); reflexivity.
Qed.

Lemma scan_digits_no_digit s acc d after_underscore z digits rest :
  Str.all_chars (fun c => negb (Str.is_digit c)) s = true ->
  Str.scan_digits s acc d after_underscore = Some (z, digits, rest) ->
  digits = d.
Proof.
  revert after_underscore.
  induction s as [|c s IH]; intros after_underscore; simpl.
  - intros _. destruct after_underscore; [discriminate|]. by intros [= _ <- _].
  - rewrite andb_true_iff, negb_true_iff. intros [-> Hs].
    destruct (Ascii.eqb c "_"), after_underscore; try discriminate.
    + by apply IH.
    + by intros [= _ <- _].
Qed.

Lemma lstrip_all_chars p q s :
  Str.all_chars q s = true -> Str.all_chars q (Str.lstrip p s) = true.
Proof.
  induction s as [|c s IH]; simpl; [done|].
  rewrite andb_true_iff. intros [Hc Hs].
  destruct (p c); [by apply IH|]. simpl. by rewrite Hc, Hs.
Qed.

Lemma int_digits_needs_digit negative body n :
  Str.all_chars (fun c => negb (Str.is_digit c)) body = true ->
  Str.int_digits negative body <> Ok n.
Proof.
  intros Hbody. unfold Str.int_digits, Str.invalid_literal.
  destruct (match body with String c _ => Ascii.eqb c "_" | _ => false end);
    [discriminate|].
  destruct (Str.scan_digits body 0 0 false) as [[[z digits] rest]|] eqn:Hscan;
    [|discriminate].
  apply scan_digits_no_digit in Hscan as ->; [|assumption]. discriminate.
Qed.

(** What [int] accepts holds a digit. *)
Lemma py_int_needs_digit value n :
  Str.all_chars (fun c => negb (Str.is_digit c)) value = true ->
  Str.py_int value <> Ok n.
Proof.
  intros Hvalue. unfold Str.py_int.
  apply (lstrip_all_chars Str.is_int_space) in Hvalue.
  destruct (Str.lstrip Str.is_int_space value) as [|c r];
    [by apply int_digits_needs_digit|].
  destruct (Ascii.eqb c "+"), (Ascii.eqb c "-");
    apply int_digits_needs_digit; try assumption;
    simpl in Hvalue; by apply andb_true_iff in Hvalue as [_ Hr].
Qed.

(** [_parse_max_bytes] never raises and its result is positive.  The
    result is what [int] reads from [SKY_MCP_MAX_FILE_BYTES] when that is
    positive, and the default in every other case: the variable unset or
    empty, a value that [int] rejects (one without a digit, for
    instance), zero or a negative number. *)
Theorem parse_max_bytes_positive_always :
  exists n,
    _parse_max_bytes w = Ok n
    /\ 0 < n
    /\ (forall value m,
          getenv w "SKY_MCP_MAX_FILE_BYTES" = Some value ->
          Str.py_int value = Ok m -> 0 < m -> n = m)
    /\ (n <> DEFAULT_MAX_FILE_BYTES ->
        exists value,
          getenv w "SKY_MCP_MAX_FILE_BYTES" = Some value
          /\ Str.py_int value = Ok n)
    /\ (forall value,
          getenv w "SKY_MCP_MAX_FILE_BYTES" = Some value ->
          Str.all_chars (fun c => negb (Str.is_digit c)) value = true ->
          n = DEFAULT_MAX_FILE_BYTES).
Proof.
  destruct (getenv w "SKY_MCP_MAX_FILE_BYTES") as [value|] eqn:Henv.
  - destruct (py_int_cases value) as [[k Hk] | [msg Hmsg]];
      [destruct (Z_lt_le_dec 0 k) as [Hpos | Hneg]|].
    + exists k.
      rewrite (parse_max_bytes_positive w value k Henv Hk Hpos).
      split; [reflexivity|]. split; [assumption|]. split; [|split].
      * intros value' m [= <-] Hm _. congruence.
      * intros _. by exists value.
      * intros value' [= <-] Hnone. by destruct (py_int_needs_digit value k).
    + exists DEFAULT_MAX_FILE_BYTES.
      rewrite (parse_max_bytes_ignored w value Henv).
      2: { intros n Hn. congruence. }
      split; [reflexivity|]. split; [reflexivity|]. split; [|split].
      * intros value' m [= <-] Hm Hpos. rewrite Hk in Hm.
        injection Hm as <-. lia.
      * intros Hnot. by destruct Hnot.
      * reflexivity.
    + exists DEFAULT_MAX_FILE_BYTES.
      rewrite (parse_max_bytes_ignored w value Henv).
      2: { intros n Hn. congruence. }
      split; [reflexivity|]. split; [reflexivity|]. split; [|split].
      * intros value' m [= <-] Hm _. congruence.
      * intros Hnot. by destruct Hnot.
      * reflexivity.
  - exists DEFAULT_MAX_FILE_BYTES. unfold _parse_max_bytes. rewrite Henv.
    split; [reflexivity|]. split; [reflexivity|]. split; [|split].
    + discriminate.
    + intros Hnot. by destruct Hnot.
    + discriminate.
Qed.

Lemma mapM_raise {A B} (f : A -> result B) (l : list A) e :
  mapM f l = Raise e -> exists a, a ∈ l /\ f a = Raise e.
Proof.
  induction l as [|a l IH]; simpl; [discriminate|].
  destruct (f a) as [b|e'] eqn:Hfa; run.
  - destruct (mapM f l) as [bs|e'] eqn:Hrest; run; [discriminate|].
    intros [= ->]. destruct (IH eq_refl) as (a' & Hin & Ha').
    exists a'. split; [by right | assumption].
  - intros [= ->]. exists a. split; [by left | assumption].
Qed.

Lemma normalize_root_builtin root :
  library_world w -> raises_builtin (normalize_root w root).
Proof.
  intros (Hexp & Hres & _). unfold normalize_root.
  specialize (Hexp root).
  destruct (expanduser w root) as [candidate|e]; run; [apply Hres | exact Hexp].
Qed.

Ltac known_type :=
  intros [= <- <- <-];
  split; [apply (bool_decide_unpack _); by vm_compute | reflexivity].

Lemma resolver_raises_known path_str allowed_roots max_bytes
    error_type message details :
  library_world w ->
  resolve_local_path w path_str allowed_roots max_bytes
    = Raise (PathResolutionError error_type message details) ->
  error_type ∈ RESOLVER_ERROR_TYPES /\ is_dict details = true.
Proof.
  intros Hlib.
  pose proof Hlib as (Hexp_b & Hres_b & Hex_b & Hfile_b & Hstat_b).
  destruct (blank path_str) eqn:Hblank.
  { rewrite blank_is_invalid_input by assumption. known_type. }
  destruct (expanduser w (PurePath.parse path_str)) as [candidate|e] eqn:Hexp.
  2: { rewrite (expanduser_exception_is_invalid_input w _ _ _ e)
         by assumption. known_type. }
  destruct (resolve w candidate) as [resolved|e] eqn:Hres.
  2: { rewrite (resolve_exception_escapes w _ _ _ candidate e) by assumption.
       intros [= ->]. specialize (Hres_b candidate). by rewrite Hres in Hres_b. }
  destruct (mapM (normalize_root w) (effective_roots w allowed_roots))
    as [resolved_roots|e] eqn:Hroots.
  2: { unfold resolve_local_path. rewrite Hblank, Hexp. run.
       rewrite Hres. run. rewrite Hroots. intros [= ->].
       apply mapM_raise in Hroots as (root & _ & Hroot).
       pose proof (normalize_root_builtin root Hlib) as Hb.
       by rewrite Hroot in Hb. }
  destruct (existsb (PurePath.is_relative_to resolved) resolved_roots) eqn:Hin.
  2: { rewrite (resolve_local_path_outside w _ _ _ candidate resolved
                  resolved_roots) by assumption. known_type. }
  rewrite (resolve_local_path_inside _ _ _ candidate resolved resolved_roots)
    by assumption.
  specialize (Hex_b resolved). specialize (Hfile_b resolved).
  specialize (Hstat_b resolved).
  destruct (path_exists w resolved) as [[]|e]; run;
    [| known_type | intros [= ->]; contradiction].
  destruct (is_file w resolved) as [[]|e]; run;
    [| known_type | intros [= ->]; contradiction].
  destruct (parse_max_bytes_total w) as [n Hn].
  assert (exists limit, effective_limit w max_bytes = Ok limit) as [limit ->].
  { destruct max_bytes; simpl; eauto. }
  run.
  destruct (stat_size w resolved) as [size|e]; run.
  - destruct (size >? limit); [known_type | discriminate].
  - destruct (isinstance e OSError); [known_type|].
    intros [= ->]. contradiction.
Qed.

Lemma resolver_types_allowed error_type :
  error_type ∈ RESOLVER_ERROR_TYPES ->
  error_type ∈ Response.ALLOWED_ERROR_TYPES.
Proof.
  unfold RESOLVER_ERROR_TYPES, Response.ALLOWED_ERROR_TYPES.
  rewrite !elem_of_cons. intros Hin.
  repeat (destruct Hin as [->|Hin]; [tauto|]).
  by apply elem_of_nil in Hin.
Qed.

(** Whatever the resolver raises as a [PathResolutionError] carries one
    of five error types, each a member of the closed set of the envelope
    protocol, and a dict of details. *)
Theorem resolver_error_types path_str allowed_roots max_bytes
    error_type message details :
  library_world w ->
  resolve_local_path w path_str allowed_roots max_bytes
    = Raise (PathResolutionError error_type message details) ->
  error_type ∈ RESOLVER_ERROR_TYPES
  /\ error_type ∈ Response.ALLOWED_ERROR_TYPES
  /\ is_dict details = true.
Proof.
  intros Hlib Hrun.
  destruct (resolver_raises_known _ _ _ _ _ _ Hlib Hrun) as [Hown Hdict].
  split; [assumption|]. split; [|assumption].
  by apply resolver_types_allowed.
Qed.

(** The default roots are the repository root, the asset directory and
    the working directory, in this order, followed by the entries of
    [SKY_MCP_ALLOWED_ROOTS] that are not blank, stripped, in their order:
    the environment adds roots and removes none. *)
Theorem default_allowed_roots_spec :
  _default_allowed_roots w =
    [repo_root w; ASSETS_DIR w; cwd w]
    ++ match getenv w "SKY_MCP_ALLOWED_ROOTS" with
       | None => []
       | Some extra =>
           PurePath.parse
             <$> filter (fun raw => Str.nonempty raw = true)
                   (Str.strip <$> Str.split pathsep extra)
       end.
Proof.
  unfold _default_allowed_roots.
  destruct (getenv w "SKY_MCP_ALLOWED_ROOTS") as [extra|]; [|reflexivity].
  assert (Hloop : forall raws roots,
    foldl (fun roots raw =>
             let raw := Str.strip raw in
             if Str.nonempty raw then roots ++ [PurePath.parse raw] else roots)
          roots raws
    = roots ++ (PurePath.parse
                  <$> filter (fun raw => Str.nonempty raw = true)
                        (Str.strip <$> raws))).
  { induction raws as [|raw raws IH]; intros roots.
    - simpl. by rewrite app_nil_r.
    - cbn [foldl]. rewrite IH. rewrite fmap_cons. cbn zeta.
      destruct (Str.nonempty (Str.strip raw)) eqn:Hraw.
      + rewrite filter_cons_True by done. rewrite fmap_cons.
        by rewrite <- app_assoc.
      + rewrite filter_cons_False; [reflexivity|]. by rewrite Hraw. }
  destruct (Str.nonempty extra) eqn:Hextra; [apply Hloop|].
  destruct extra; [reflexivity | discriminate].
Qed.

End WithWorld.

(** *** Witnesses *)

Lemma sample_world_library : library_world sample_world.
Proof.
  repeat split; intros p; simpl; try exact I.
  - unfold home_expanduser.
    destruct (PurePath.absolute p); [exact I|].
    destruct (PurePath.parts p) as [|[|c [|c' s']] rest]; try exact I;
      by destruct c as [[] [] [] [] [] [] [] []].
  - unfold lexical_resolve. by destruct (existsb has_nul (PurePath.parts p)).
  - destruct (lookup_size _ p); [exact I|]. by case_bool_decide.
Qed.

Lemma resolved_path_guarantee_example :
  exists root,
    root ∈ [ PurePath.parse "/srv/sky"; PurePath.parse "/srv/sky/assets";
             PurePath.parse "/srv/sky/work" ]
    /\ within (PurePath.parse "/srv/sky/a.cif") root.
Proof.
  destruct (resolved_path_guarantee sample_world "../a.cif" None None
              (PurePath.parse "/srv/sky/a.cif") eq_refl)
    as (_ & candidate & resolved_roots & limit & size & _ & _ & Hroots
        & Hwithin & _).
  injection Hroots as <-. exact Hwithin.
Defined.

(** A file of exactly 10 bytes under a ceiling of 10 bytes. *)
Lemma admissible_path_example :
  resolve_local_path sample_world "../a.cif" None (Some 10)
  = Ok (PurePath.parse "/srv/sky/a.cif").
Proof.
  apply (admissible_path_is_returned sample_world "../a.cif" None (Some 10)
           (PurePath.parse "../a.cif") (PurePath.parse "/srv/sky/a.cif")
           [ PurePath.parse "/srv/sky"; PurePath.parse "/srv/sky/assets";
             PurePath.parse "/srv/sky/work" ]
           (PurePath.parse "/srv/sky") 10 10); try reflexivity.
  - apply list_elem_of_here.
  - split; [reflexivity | exists ["a.cif"]; reflexivity].
Defined.

(** A missing file and a directory, both inside the default roots. *)
Lemma missing_or_irregular_example :
  resolve_local_path sample_world "missing.cif" None None =
    Raise (PathResolutionError "file_not_found" "File not found."
             (VDict (dict [("path", VStr "/srv/sky/work/missing.cif")])))
  /\ resolve_local_path sample_world "/srv/sky/work" None None =
       Raise (PathResolutionError "invalid_input" "Path is not a file."
                (VDict (dict [("path", VStr "/srv/sky/work")]))).
Proof.
  split.
  - apply (missing_or_irregular_path sample_world "missing.cif" None None
             (PurePath.parse "missing.cif")
             (PurePath.parse "/srv/sky/work/missing.cif")
             [ PurePath.parse "/srv/sky"; PurePath.parse "/srv/sky/assets";
               PurePath.parse "/srv/sky/work" ]
             (PurePath.parse "/srv/sky")); try reflexivity.
    + apply list_elem_of_here.
    + split; [reflexivity | exists ["work"; "missing.cif"]; reflexivity].
  - apply (missing_or_irregular_path sample_world "/srv/sky/work" None None
             (PurePath.parse "/srv/sky/work")
             (PurePath.parse "/srv/sky/work")
             [ PurePath.parse "/srv/sky"; PurePath.parse "/srv/sky/assets";
               PurePath.parse "/srv/sky/work" ]
             (PurePath.parse "/srv/sky")); try reflexivity.
    + apply list_elem_of_here.
    + split; [reflexivity | exists ["work"]; reflexivity].
Defined.

Lemma resolver_error_types_example :
  "permission_denied" ∈ RESOLVER_ERROR_TYPES
  /\ "permission_denied" ∈ Response.ALLOWED_ERROR_TYPES.
Proof.
  destruct (resolver_error_types sample_world "../../etc/passwd" None None
              "permission_denied" "Path is outside allowed roots."
              (VDict (dict [ ("path", VStr "/srv/etc/passwd");
                             ("allowed_roots",
                              VList [ VStr "/srv/sky"; VStr "/srv/sky/assets";
                                      VStr "/srv/sky/work" ]) ]))
              sample_world_library eq_refl) as (Hown & Hallowed & _).
  by split.
Defined.

Lemma stat_failure_example :
  resolve_local_path unreadable_world "../a.cif" None None =
    Raise (PathResolutionError "runtime_error" "Unable to stat file."
             (VDict (dict [ ("path", VStr "/srv/sky/a.cif");
                            ("error", VStr "Permission denied") ]))).
Proof.
  apply (stat_failure unreadable_world "../a.cif" None None
           (PurePath.parse "../a.cif") (PurePath.parse "/srv/sky/a.cif")
           [ PurePath.parse "/srv/sky"; PurePath.parse "/srv/sky/assets";
             PurePath.parse "/srv/sky/work" ]
           (PurePath.parse "/srv/sky") 2000000
           (PyErr PermissionError "Permission denied")); try reflexivity.
  - apply list_elem_of_here.
  - split; [reflexivity | exists ["a.cif"]; reflexivity].
Defined.

Example widened_roots :
  PurePath.to_str <$> _default_allowed_roots widened_world
  = ["/srv/sky"; "/srv/sky/assets"; "/srv/sky/work"; "/data/cifs"; "/mnt/shared"].
Proof. reflexivity. Qed.

End ResolverFacts.

(** * More of response.py: validation of arbitrary values *)

Module EnvelopeFacts.
Import Response ResponseFacts Envelope.
Section WithBuiltins.
Context `{Builtins}.

Ltac key d k v E :=
  destruct (d !! k) as [v|] eqn:E;
  [ rewrite ?(contains_lookup d k v E), ?(getitem_lookup d k v E)
  | rewrite (contains_none d k E); simpl; try discriminate ].

Ltac step := cbn [mbind result_bind bind assert_ is_dict is_none].

Ltac lookups :=
  repeat match goal with
         | E : ?d !! ?k = Some ?v |- context [contains ?d ?k] =>
             rewrite (contains_lookup d k v E)
         | E : ?d !! ?k = Some ?v |- context [getitem ?d ?k] =>
             rewrite (getitem_lookup d k v E)
         end.

(** The assertions raise [AssertionError], or [TypeError] when the error
    type cannot be hashed, and nothing else: every lookup is guarded. *)
Lemma validate_checks_raises resp e :
  validate_checks resp = Raise e ->
  (exists msg, e = PyErr AssertionError msg)
  \/ (e = PyErr TypeError "unhashable type" /\ unhashable_error_type resp).
Proof.
  unfold validate_checks.
  destruct resp as [| | | | | |d]; try (intros [= <-]; eauto).
  key d "ok" ok Hok; [|intros [= <-]; eauto].
  key d "data" data Hdata; [|intros [= <-]; eauto].
  key d "error" err Herror; [|intros [= <-]; eauto].
  key d "meta" meta Hmeta; [|intros [= <-]; eauto].
  key d "provenance" provenance Hprov; [|intros [= <-]; eauto].
  step.
  destruct (is_dict meta); step; [|intros [= <-]; eauto].
  destruct (is_dict provenance); step; [|intros [= <-]; eauto].
  assert (Hfailed :
    (data0 ← Ok data;
     assert_ (is_none data0) "ok False requires data=None." ;;
     error0 ← Ok err;
     match error0 with
     | VDict e0 =>
         assert_ (contains e0 "type") "error missing type." ;;
         assert_ (contains e0 "message") "error missing message." ;;
         assert_ (contains e0 "details") "error missing details." ;;
         err_type ← getitem e0 "type";
         allowed ← in_str_set err_type ALLOWED_ERROR_TYPES;
         assert_ allowed ("Invalid error.type: " +:+ py_str err_type) ;;
         Ok (VDict d)
     | _ => Raise (PyErr AssertionError "error must be dict.")
     end) = Raise e ->
    (exists msg, e = PyErr AssertionError msg)
    \/ (e = PyErr TypeError "unhashable type"
        /\ unhashable_error_type (VDict d))).
  { step. destruct (is_none data); step; [|intros [= <-]; eauto].
    destruct err as [| | | | | |e0]; try (intros [= <-]; eauto).
    key e0 "type" err_type Htype; [|intros [= <-]; eauto].
    key e0 "message" message Hmessage; [|intros [= <-]; eauto].
    key e0 "details" details Hdetails; [|intros [= <-]; eauto].
    step.
    destruct err_type as [| | | |et|l|m]; simpl;
      try (intros [= <-]; eauto).
    - destruct (bool_decide (et ∈ ALLOWED_ERROR_TYPES)); simpl;
        [discriminate | intros [= <-]; eauto].
    - right. split; [reflexivity|].
      exists (VDict e0), (VList l). by repeat split.
    - right. split; [reflexivity|].
      exists (VDict e0), (VDict m). by repeat split. }
  destruct ok as [|[]| | | | |]; try exact Hfailed.
  step. destruct (is_none err); step; [discriminate | intros [= <-]; eauto].
Qed.

(** Whatever value it is given, [validate_envelope] without [strict]
    returns a value that it accepts with [strict], and the only exception
    it can raise is the [TypeError] of an error type that is a list or a
    dict. *)
Theorem lenient_validation_is_strictly_valid resp :
  (forall env, validate_envelope resp false = Ok env ->
               validate_envelope env true = Ok env)
  /\ (forall e, validate_envelope resp false = Raise e ->
                e = PyErr TypeError "unhashable type"
                /\ unhashable_error_type resp).
Proof.
  unfold validate_envelope at 1 3.
  destruct (validate_checks resp) as [r|e] eqn:Hchecks; simpl.
  - split; [|discriminate]. intros env [= <-].
    pose proof (validate_checks_id _ _ Hchecks) as ->.
    by apply validate_envelope_accepts.
  - destruct (validate_checks_raises _ _ Hchecks) as [[msg ->] | [-> Hun]];
      simpl.
    + split; [|discriminate]. intros env [= <-].
      apply validate_envelope_accepts. apply checks_validation_failure.
    + split; [discriminate|]. intros e' [= <-]. by split.
Qed.

Lemma validate_checks_sound resp r :
  validate_checks resp = Ok r -> well_formed resp.
Proof.
  unfold validate_checks.
  destruct resp as [| | | | | |d]; try discriminate.
  key d "ok" ok Hok. key d "data" data Hdata. key d "error" err Herror.
  key d "meta" meta Hmeta. key d "provenance" provenance Hprov.
  step.
  destruct meta as [| | | | | |m]; step; try discriminate.
  destruct provenance as [| | | | | |p]; step; try discriminate.
  assert (Hfailed :
    (data0 ← Ok data;
     assert_ (is_none data0) "ok False requires data=None." ;;
     error0 ← Ok err;
     match error0 with
     | VDict e0 =>
         assert_ (contains e0 "type") "error missing type." ;;
         assert_ (contains e0 "message") "error missing message." ;;
         assert_ (contains e0 "details") "error missing details." ;;
         err_type ← getitem e0 "type";
         allowed ← in_str_set err_type ALLOWED_ERROR_TYPES;
         assert_ allowed ("Invalid error.type: " +:+ py_str err_type) ;;
         Ok (VDict d)
     | _ => Raise (PyErr AssertionError "error must be dict.")
     end) = Ok r ->
    ok <> VBool true -> well_formed (VDict d)).
  { step. destruct data; step; try discriminate.
    destruct err as [| | | | | |e0]; try discriminate.
    key e0 "type" err_type Htype. key e0 "message" message Hmessage.
    key e0 "details" details Hdetails.
    step.
    destruct err_type as [| | | |et| |]; simpl; try discriminate.
    destruct (bool_decide_reflect (et ∈ ALLOWED_ERROR_TYPES)) as [Hin|];
      simpl; [|discriminate].
    intros _ Hnot. exists d, m, p. repeat split; try assumption.
    right. exists ok, e0, et. by repeat split. }
  destruct ok as [|[]| | | | |]; try (intros Hr; by apply Hfailed).
  step. destruct err; step; try discriminate.
  intros _. exists d, m, p. repeat split; try assumption.
  left. by repeat split.
Qed.

Lemma checks_not_ok_shape (d e : gmap string value) ok meta provenance et
    msg det :
  d !! "ok" = Some ok -> ok <> VBool true -> d !! "data" = Some VNone ->
  d !! "error" = Some (VDict e) -> d !! "meta" = Some (VDict meta) ->
  d !! "provenance" = Some (VDict provenance) ->
  e !! "type" = Some (VStr et) -> e !! "message" = Some msg ->
  e !! "details" = Some det -> et ∈ ALLOWED_ERROR_TYPES ->
  validate_checks (VDict d) = Ok (VDict d).
Proof.
  intros Hok Hnot Hdata Herr Hmeta Hprov Htype Hmsg Hdet Hin.
  unfold validate_checks. lookups. step.
  assert (Hbranch :
    (data0 ← Ok VNone;
     assert_ (is_none data0) "ok False requires data=None." ;;
     error0 ← Ok (VDict e);
     match error0 with
     | VDict e0 =>
         assert_ (contains e0 "type") "error missing type." ;;
         assert_ (contains e0 "message") "error missing message." ;;
         assert_ (contains e0 "details") "error missing details." ;;
         err_type ← getitem e0 "type";
         allowed ← in_str_set err_type ALLOWED_ERROR_TYPES;
         assert_ allowed ("Invalid error.type: " +:+ py_str err_type) ;;
         Ok (VDict d)
     | _ => Raise (PyErr AssertionError "error must be dict.")
     end) = Ok (VDict d)).
  { step. lookups. step. simpl. by rewrite bool_decide_true. }
  destruct ok as [|[]| | | | |]; try exact Hbranch. done.
Qed.

(** With [strict], [validate_envelope] returns its argument and nothing
    else, and it does so exactly for the values that satisfy the envelope
    invariants: a dict with dicts for [meta] and [provenance] and either
    [ok] the constant [True] with no error, or no data and an error with
    its three fields and a type of the closed set. *)
Theorem strict_validation_accepts_the_well_formed resp :
  (forall env, validate_envelope resp true = Ok env -> env = resp)
  /\ (validate_envelope resp true = Ok resp <-> well_formed resp).
Proof.
  assert (Hid : forall env, validate_envelope resp true = Ok env ->
                            validate_checks resp = Ok resp /\ env = resp).
  { intros env. unfold validate_envelope.
    destruct (validate_checks resp) as [r|e] eqn:Hchecks; simpl.
    - intros [= <-]. pose proof (validate_checks_id _ _ Hchecks) as ->.
      by split.
    - destruct (isinstance e AssertionError); discriminate. }
  split; [intros env Henv; exact (proj2 (Hid env Henv))|].
  split.
  - intros Hok. apply Hid in Hok as [Hchecks _].
    by apply validate_checks_sound in Hchecks.
  - intros (d & meta & provenance & -> & Hmeta & Hprov & Hcases).
    apply validate_envelope_accepts.
    destruct Hcases as [(Hok & [data Hdata] & Herr)
                       | (ok & e & et & Hok & Hnot & Hdata & Herr & Htype
                          & Hin & [msg Hmsg] & [det Hdet])].
    + by rewrite (checks_ok_shape d data VNone (VDict meta) (VDict provenance)).
    + by apply (checks_not_ok_shape d e ok meta provenance et msg det).
Qed.

Lemma py_or_dict (m : gmap string value) : py_or (VDict m) (VDict ∅) = VDict m.
Proof.
  unfold py_or. simpl. destruct (Nat.eqb_spec (size m) 0) as [E|]; [|done].
  simpl. by apply map_size_empty_inv in E as ->.
Qed.

(** The assertions accept exactly the well-formed values. *)
Lemma well_formed_checks resp :
  well_formed resp <-> validate_checks resp = Ok resp.
Proof.
  split; [|apply validate_checks_sound].
  intros (d & meta & provenance & -> & Hmeta & Hprov & Hcases).
  destruct Hcases as [(Hok & [data Hdata] & Herr)
                     | (ok & e & et & Hok & Hnot & Hdata & Herr & Htype
                        & Hin & [msg Hmsg] & [det Hdet])].
  - by rewrite (checks_ok_shape d data VNone (VDict meta) (VDict provenance)).
  - by apply (checks_not_ok_shape d e ok meta provenance et msg det).
Qed.

Lemma validation_failure_substituted details :
  substituted (validation_failure details).
Proof.
  unfold validation_failure. do 2 eexists. exists details.
  split; [reflexivity|]. by repeat split.
Qed.

(** What the validation without [strict] makes of a value whose error
    type, if it has one, can be hashed: the value itself when it is well
    formed, the substituted envelope when it is not; in both cases a
    well-formed value. *)
Lemma piped_through_validation built :
  ~ unhashable_error_type built ->
  exists env,
    validate_envelope built false = Ok env
    /\ well_formed env
    /\ validate_envelope env true = Ok env
    /\ (well_formed built -> env = built)
    /\ (~ well_formed built -> substituted env).
Proof.
  intros Hhash. unfold validate_envelope at 1.
  destruct (validate_checks built) as [r|e] eqn:Hchecks; simpl.
  - pose proof (validate_checks_id _ _ Hchecks) as ->.
    exists built. split; [reflexivity|].
    split; [by apply well_formed_checks|].
    split; [by apply validate_envelope_accepts|].
    split; [reflexivity|].
    intros Hnot. destruct Hnot. by apply well_formed_checks.
  - destruct (validate_checks_raises _ _ Hchecks) as [[msg ->] | [_ Hun]];
      [|by destruct Hhash].
    simpl. exists (validation_failure msg). split; [reflexivity|].
    split; [apply well_formed_checks, checks_validation_failure|].
    split; [apply validate_envelope_accepts, checks_validation_failure|].
    split; [|intros _; apply validation_failure_substituted].
    intros Hwf. apply well_formed_checks in Hwf. congruence.
Qed.

Lemma dict_or_falsy_spec v :
  dict_or_falsy v <-> is_dict (py_or v (VDict ∅)) = true.
Proof.
  unfold dict_or_falsy, py_or. split.
  - intros [Hd | Hf].
    + by destruct (truthy v).
    + by rewrite Hf.
  - destruct (truthy v); [by left | by right].
Qed.

Lemma envelope_fields ok data error meta provenance d :
  _envelope ok data error meta provenance = VDict d ->
  d !! "ok" = Some (VBool ok) /\ d !! "data" = Some data
  /\ d !! "error" = Some error
  /\ d !! "meta" = Some (py_or meta (VDict ∅))
  /\ d !! "provenance" = Some (py_or provenance (VDict ∅)).
Proof. unfold _envelope. intros [= <-]. by repeat split. Qed.

Lemma error_fields error_type message details (e : gmap string value) :
  dict [ ("type", error_type); ("message", message); ("details", details) ]
    = e ->
  e !! "type" = Some error_type /\ e !! "message" = Some message
  /\ e !! "details" = Some details.
Proof. intros <-. by repeat split. Qed.

(** C2, amended. Whatever [data], [message], [details], [meta] and
    [provenance] are, and whatever value that can be hashed the error type
    is, [make_ok] and [make_err] return (they do not raise) an envelope
    that satisfies the envelope invariants and that [validate_envelope]
    accepts with [strict] set.  The envelope they built satisfies the
    invariants exactly when [meta] and [provenance] are dicts or falsy
    and, for [make_err], the error type is a string of the closed set;
    then it is what they return.  Otherwise what they return is not that
    envelope but the substituted one: [ok] false, error type
    [runtime_error], message [Envelope validation failed.], [meta] and
    [provenance] empty. *)
Theorem make_ok_make_err_strictly_valid :
  (forall data meta provenance,
     let built := _envelope true data VNone meta provenance in
     exists env,
       make_ok data meta provenance = Ok env
       /\ well_formed env
       /\ validate_envelope env true = Ok env
       /\ (well_formed built <->
           dict_or_falsy meta /\ dict_or_falsy provenance)
       /\ (well_formed built -> env = built)
       /\ (~ well_formed built -> substituted env))
  /\
  (forall error_type message details meta provenance,
     hashable error_type ->
     let built := _envelope false VNone
                    (VDict (dict [ ("type", error_type);
                                   ("message", message);
                                   ("details", details) ]))
                    meta provenance in
     exists env,
       make_err error_type message details meta provenance = Ok env
       /\ well_formed env
       /\ validate_envelope env true = Ok env
       /\ (well_formed built <->
           (exists name : string,
              error_type = VStr name /\ name ∈ ALLOWED_ERROR_TYPES)
           /\ dict_or_falsy meta /\ dict_or_falsy provenance)
       /\ (well_formed built -> env = built)
       /\ (~ well_formed built -> substituted env)).
Proof.
  split.
  - intros data meta provenance built.
    destruct (piped_through_validation built)
      as (env & Hrun & Hwf & Hstrict & Hsame & Hother).
    { intros (error & error_type & Herror & Htype & _).
      subst built. simpl in Herror. by injection Herror as <-. }
    exists env. split; [exact Hrun|]. split; [exact Hwf|].
    split; [exact Hstrict|]. split; [|by split].
    rewrite well_formed_checks, !dict_or_falsy_spec. subst built.
    rewrite checks_ok_envelope.
    destruct (is_dict (py_or meta (VDict ∅)));
      destruct (is_dict (py_or provenance (VDict ∅)));
      split; try discriminate; try done; intros []; discriminate.
  - intros error_type message details meta provenance Hhash built.
    destruct (piped_through_validation built)
      as (env & Hrun & Hwf & Hstrict & Hsame & Hother).
    { intros (error & ty & Herror & Htype & Hun).
      subst built. simpl in Herror. injection Herror as <-.
      simpl in Htype. injection Htype as <-.
      by destruct error_type. }
    exists env. split; [exact Hrun|]. split; [exact Hwf|].
    split; [exact Hstrict|]. split; [|by split].
    rewrite !dict_or_falsy_spec. split.
    + intros (d & m & p & Hd & Hmeta & Hprov & Hcases).
      apply envelope_fields in Hd as (Hok & Hdata & Herr & Hm & Hp).
      rewrite Hm in Hmeta. rewrite Hp in Hprov.
      injection Hmeta as ->. injection Hprov as ->.
      split; [|by split].
      destruct Hcases as [(Hok' & _) | (ok & e & name & _ & _ & _ & Herr'
                                        & Htype & Hin & _)].
      * rewrite Hok in Hok'. discriminate.
      * rewrite Herr in Herr'. injection Herr' as He.
        apply error_fields in He as (Hty & _).
        rewrite Hty in Htype. injection Htype as ->. by exists name.
    + intros ((name & -> & Hin) & Hmeta & Hprov).
      apply well_formed_checks. subst built.
      rewrite checks_err_envelope, Hmeta, Hprov.
      by rewrite bool_decide_true.
Qed.

(** The constructors keep what they are given: with dicts for [meta] and
    [provenance] and, for [make_err], an error type of the closed set,
    every argument can be read back from the envelope. *)
Theorem constructors_keep_their_arguments data (error_type message : string)
    details (meta provenance : gmap string value) :
  (exists env,
     make_ok data (VDict meta) (VDict provenance) = Ok env
     /\ field env "ok" = Some (VBool true)
     /\ field env "data" = Some data
     /\ field env "error" = Some VNone
     /\ field env "meta" = Some (VDict meta)
     /\ field env "provenance" = Some (VDict provenance))
  /\ (error_type ∈ ALLOWED_ERROR_TYPES ->
      exists env error,
        make_err error_type message details (VDict meta) (VDict provenance)
          = Ok env
        /\ field env "ok" = Some (VBool false)
        /\ field env "data" = Some VNone
        /\ field env "error" = Some error
        /\ field error "type" = Some (VStr error_type)
        /\ field error "message" = Some (VStr message)
        /\ field error "details" = Some details
        /\ field env "meta" = Some (VDict meta)
        /\ field env "provenance" = Some (VDict provenance)).
Proof.
  split.
  - eexists. split; [apply make_ok_dicts|].
    unfold _envelope. rewrite !py_or_dict. by repeat split.
  - intros Hin. eexists. eexists. split.
    + unfold make_err. apply validate_envelope_accepts.
      rewrite checks_err_envelope. rewrite !py_or_dict. simpl.
      by rewrite bool_decide_true.
    + unfold _envelope. rewrite !py_or_dict. by repeat split.
Qed.

End WithBuiltins.

Lemma strict_validation_example :
  Envelope.well_formed
    (VDict (dict [ ("ok", VBool true); ("data", VInt 1); ("error", VNone);
                   ("meta", VDict ∅); ("provenance", VDict ∅) ])).
Proof.
  apply (@strict_validation_accepts_the_well_formed constants_builtins).
  reflexivity.
Defined.

(** An error type outside the closed set is answered with the
    substituted envelope. *)
Lemma foreign_type_is_substituted :
  exists env,
    @make_err constants_builtins "bogus" "m" VNone VNone VNone = Ok env
    /\ Envelope.substituted env
    /\ Envelope.well_formed env.
Proof.
  destruct (@make_ok_make_err_strictly_valid constants_builtins) as [_ Herr].
  destruct (Herr (VStr "bogus") (VStr "m") VNone VNone VNone I)
    as (env & Hrun & Hwf & _ & Hiff & _ & Hsub).
  exists env. split; [exact Hrun|]. split; [|exact Hwf].
  apply Hsub. intros Hbuilt.
  apply Hiff in Hbuilt as [(name & Hname & Hin) _].
  injection Hname as <-. revert Hin.
  apply (bool_decide_unpack ("bogus" ∉ ALLOWED_ERROR_TYPES)). by vm_compute.
Defined.

(** C2 as stated fails for an error type that cannot be hashed: the
    membership test of the validation raises [TypeError], which is not
    caught, and [make_err] returns no envelope at all. *)
Lemma unhashable_error_type_escapes :
  @make_err constants_builtins (VList []) "m" VNone VNone VNone
  = Raise (PyErr TypeError "unhashable type").
Proof. reflexivity. Qed.

Lemma constructors_example :
  exists env error,
    @make_err constants_builtins "file_not_found" "File not found."
      (VStr "x.cif") (VDict ∅) (VDict ∅) = Ok env
    /\ field env "error" = Some error
    /\ field error "type" = Some (VStr "file_not_found").
Proof.
  destruct (@constructors_keep_their_arguments constants_builtins VNone
              "file_not_found" "File not found." (VStr "x.cif") ∅ ∅)
    as [_ Herr].
  destruct Herr as (env & error & Hrun & _ & _ & Herror & Htype & _).
  { apply (bool_decide_unpack _). by vm_compute. }
  exists env, error. by repeat split.
Defined.

(** An envelope whose [ok] is [1] rather than [True] is held to the rules
    of a failure. *)
Example ok_must_be_True :
  @validate_envelope constants_builtins
    (VDict (dict [ ("ok", VInt 1); ("data", VInt 7); ("error", VNone);
                   ("meta", VDict ∅); ("provenance", VDict ∅) ])) true
  = Raise (PyErr AssertionError "ok False requires data=None.").
Proof. reflexivity. Qed.

(** An error type that is a list makes the validation itself fail. *)
Example list_error_type_raises :
  @validate_envelope constants_builtins
    (VDict (dict [ ("ok", VBool false); ("data", VNone);
                   ("error", VDict (dict [ ("type", VList []);
                                           ("message", VStr "m");
                                           ("details", VNone) ]));
                   ("meta", VDict ∅); ("provenance", VDict ∅) ])) false
  = Raise (PyErr TypeError "unhashable type").
Proof. reflexivity. Qed.

End EnvelopeFacts.

(** * More of report_io.py: safe names, and writes that fail *)

Module ReportFacts.
Import ReportIO StrFacts ReportIOFacts FS FSFacts.

Lemma lstrip_head p s :
  match Str.lstrip p s with
  | EmptyString => True
  | String c _ => p c = false
  end.
Proof.
  induction s as [|c s IH]; simpl; [exact I|].
  destruct (p c) eqn:Hc; [exact IH | exact Hc].
Qed.

Lemma rstrip_head p c s :
  p c = false -> exists rest, Str.rstrip p (String c s) = String c rest.
Proof.
  intros Hc. simpl. destruct (Str.rstrip p s); rewrite ?Hc; eauto.
Qed.

Lemma strip_with_head p s :
  match Str.strip_with p s with
  | EmptyString => True
  | String c _ => p c = false
  end.
Proof.
  unfold Str.strip_with. pose proof (lstrip_head p s) as Hl.
  destruct (Str.lstrip p s) as [|c t]; [exact I|].
  destruct (rstrip_head p c t Hl) as [rest ->]. exact Hl.
Qed.

Lemma slug_head text n :
  exists c rest,
    _slugify text (S n) = String c rest
    /\ slug_char c = true /\ c <> "_"%char.
Proof.
  pose proof (slugify_chars text (S n)) as Hchars.
  unfold _slugify in *.
  pose proof (strip_with_head is_underscore (sub_runs false text)) as Hhead.
  destruct (Str.strip_with is_underscore (sub_runs false text)) as [|c t].
  - exists "r"%char, (Str.take n "eport"). by repeat split.
  - simpl in *. apply andb_true_iff in Hchars as [Hc _].
    exists c, (Str.take n t). repeat split; [assumption|].
    intros ->. discriminate.
Qed.

(** A slug is safe as a file name: it consists of characters of
    [A-Za-z0-9_-], has at most [max_len] of them, and when [max_len] is
    positive it is not empty and does not start with [_]. *)
Theorem slug_is_safe text max_len :
  Str.all_chars slug_char (_slugify text max_len) = true
  /\ (String.length (_slugify text max_len) <= max_len)%nat
  /\ ((0 < max_len)%nat ->
      exists c rest,
        _slugify text max_len = String c rest
        /\ slug_char c = true /\ c <> "_"%char).
Proof.
  split; [apply slugify_chars|]. split; [apply take_length|].
  intros Hpos. destruct max_len as [|n]; [lia|]. apply slug_head.
Qed.

Lemma parse_relative c s :
  c <> "/"%char -> PurePath.absolute (PurePath.parse (String c s)) = false.
Proof.
  intros Hc. simpl.
  destruct c as [[] [] [] [] [] [] [] []]; try reflexivity.
  by destruct Hc.
Qed.

Lemma is_prefix_app xs ys : PurePath.is_prefix xs (xs ++ ys) = true.
Proof.
  induction xs as [|x xs IH]; simpl; [reflexivity|].
  by rewrite String.eqb_refl, IH.
Qed.

(** When the text of the identifier holds no [/], the path of a report is
    the reports directory extended by one component, whatever the query:
    its parent is the reports directory, its name is [slug_uid.html],
    which holds no [/] and is neither [.] nor [..], and the file it
    denotes is a direct child of the directory that [reports_dir]
    denotes. *)
Theorem report_path_stays_in_directory query reports_dir uuid_func :
  Str.all_chars not_slash (uuid_func tt) = true ->
  let path := build_report_path query reports_dir uuid_func in
  let filename := _slugify query 50 +:+ "_" +:+ uuid_func tt +:+ ".html" in
  PurePath.parent path = reports_dir
  /\ PurePath.name path = filename
  /\ Str.all_chars not_slash filename = true
  /\ filename <> "." /\ filename <> ".."
  /\ (forall st, locate st path = locate st reports_dir ++ [filename]).
Proof.
  intros Huid path filename. subst path filename.
  pose proof (slugify_chars query 50) as Hchars.
  destruct (slug_head query 49) as (c & rest & Hslug & Hc & _).
  unfold build_report_path. rewrite Hslug in *. rewrite append_cons.
  simpl in Hchars. apply andb_true_iff in Hchars as [_ Hrest].
  assert (Htail : Str.all_chars not_slash
                    (rest +:+ "_" +:+ uuid_func tt +:+ ".html") = true).
  { rewrite !all_chars_append, Huid.
    rewrite (all_chars_weaken slug_char not_slash rest slug_char_not_slash
               Hrest).
    reflexivity. }
  unfold PurePath.joinpath. rewrite parse_plain_name by assumption.
  cbn [PurePath.absolute PurePath.parts].
  split.
  { unfold PurePath.parent. cbn [PurePath.absolute PurePath.parts].
    rewrite removelast_last. by destruct reports_dir. }
  split.
  { unfold PurePath.name. cbn [PurePath.parts]. by rewrite last_last. }
  split.
  { cbn [Str.all_chars]. by rewrite (slug_char_not_slash c Hc), Htail. }
  assert (Hdot : c <> "."%char) by (by apply slug_char_not_dot).
  split; [intros [= Hcd _]; by destruct Hdot|].
  split; [intros [= Hcd _]; by destruct Hdot|].
  intros st. rewrite locate_snoc.
  destruct (String.eqb_spec
              (String c (rest +:+ "_" +:+ uuid_func tt +:+ ".html")) "..")
    as [[= Hcd _]|_]; [by destruct Hdot|].
  by destruct reports_dir.
Qed.

Lemma report_path_example :
  PurePath.parent
    (build_report_path "Fe2O3" (PurePath.parse "/srv/sky/work/sky_reports")
       fixed_uuid)
  = PurePath.parse "/srv/sky/work/sky_reports".
Proof.
  destruct (report_path_stays_in_directory "Fe2O3"
              (PurePath.parse "/srv/sky/work/sky_reports") fixed_uuid eq_refl)
    as [Hparent _].
  exact Hparent.
Defined.

(** An identifier with [/] in its text can lead out of the reports
    directory. *)
Example identifier_with_slashes :
  locate bare_state
    (build_report_path "Fe2O3" (PurePath.parse "sky_reports")
       (fun _ => "x/../../../../../etc/cron.d/job"))
  = ["etc"; "cron.d"; "job.html"].
Proof. reflexivity. Qed.

Lemma slug_example :
  exists c rest, _slugify "  (LiFePO4) olivine!" 50 = String c rest
                 /\ slug_char c = true /\ c <> "_"%char.
Proof.
  destruct (slug_is_safe "  (LiFePO4) olivine!" 50) as (_ & _ & Hhead).
  apply Hhead. lia.
Defined.

(** *** A write that fails *)

Record untouched (st st' : state) : Prop := {
  same_cwd : cwd st' = cwd st;
  kept : nodes st ⊆ nodes st';
  no_rename : exists calls, log st' = log st ++ calls
                            /\ Forall (fun c => ~ is_rename c) calls
}.

Lemma untouched_refl st : untouched st st.
Proof. split; try done. exists []. by rewrite app_nil_r. Qed.

Lemma untouched_trans st1 st2 st3 :
  untouched st1 st2 -> untouched st2 st3 -> untouched st1 st3.
Proof.
  intros [Hc1 Hk1 (l1 & Hl1 & Hf1)] [Hc2 Hk2 (l2 & Hl2 & Hf2)]. split.
  - congruence.
  - by etrans.
  - exists (l1 ++ l2). split; [by rewrite Hl2, Hl1, app_assoc|].
    by apply Forall_app.
Qed.

Lemma untouched_new st l n c :
  lookup_node st l = None -> ~ is_rename c ->
  untouched st (update l (Some n) c st).
Proof.
  intros Hnew Hc. split.
  - reflexivity.
  - simpl. apply insert_subseteq.
    pose proof (lookup_none_nonempty _ _ Hnew).
    unfold lookup_node in Hnew. by destruct l.
  - exists [c]. split; [reflexivity|]. by repeat constructor.
Qed.

Lemma os_mkdir_untouched p st r st' :
  os_mkdir p st = (r, st') -> untouched st st'.
Proof.
  intros Hos.
  apply os_mkdir_inv in Hos as [(_ & Hnew & _ & ->) | (e & _ & ->)].
  - apply untouched_new; [assumption | by intros []].
  - apply untouched_refl.
Qed.

(** Whether it succeeds or not, [mkdir] only adds directories. *)
Lemma mkdir_untouched fuel p parents exist_ok st r st' :
  mkdir fuel p parents exist_ok st = (r, st') -> untouched st st'.
Proof.
  revert p parents exist_ok st r st'.
  induction fuel as [|fuel IH]; intros p parents exist_ok st r st'; simpl;
    destruct (os_mkdir p st) as [[[]|e] st0] eqn:Hos;
    apply os_mkdir_untouched in Hos.
  - by intros [= <- <-].
  - destruct (isinstance e FileNotFoundError).
    + destruct (negb parents || bool_decide (PurePath.parent p = p));
        by intros [= <- <-].
    + destruct (isinstance e OSError); [|by intros [= <- <-]].
      destruct (negb exist_ok || negb (is_dir st0 (locate st0 p)));
        by intros [= <- <-].
  - by intros [= <- <-].
  - destruct (isinstance e FileNotFoundError).
    + destruct (negb parents || bool_decide (PurePath.parent p = p));
        [by intros [= <- <-]|].
      destruct (mkdir fuel (PurePath.parent p) true true st0)
        as [[[]|e1] st1] eqn:H1; apply IH in H1.
      * intros H2. apply IH in H2.
        eapply untouched_trans; [exact Hos|].
        by eapply untouched_trans.
      * intros [= <- <-]. by eapply untouched_trans.
    + destruct (isinstance e OSError); [|by intros [= <- <-]].
      destruct (negb exist_ok || negb (is_dir st0 (locate st0 p)));
        by intros [= <- <-].
Qed.

Lemma named_temporary_file_raise names dir prefix suffix st e st' :
  named_temporary_file names dir prefix suffix st = (Raise e, st') -> st' = st.
Proof.
  induction names as [|name names IH]; simpl; [by intros [= _ <-]|].
  destruct (open_excl _ st) as [r st0] eqn:Hopen.
  apply open_excl_inv in Hopen as [(-> & _ & _ & ->) | (e' & -> & ->)];
    [discriminate|].
  destruct (isinstance e' FileExistsError); [exact IH | by intros [= _ <-]].
Qed.

Lemma os_replace_raise src dst st e st' :
  os_replace src dst st = (Raise e, st') -> st' = st.
Proof.
  unfold os_replace.
  destruct (lookup_node st (locate st src)) as [[|content]|];
    try (by intros [= _ <-]).
  destruct (lookup_node st (locate st dst)) as [[|old]|];
    try (by intros [= _ <-]);
    destruct (lookup_node st (removelast (locate st dst))) as [[|c]|];
    try (by intros [= _ <-]);
    destruct (bool_decide (locate st src = locate st dst)); discriminate.
Qed.

(** A call of [atomic_write_text] that raises, be it while the directory
    is made, the temporary file created or written, or the rename tried,
    has renamed nothing, and every file and directory that existed before
    the call is still there with its content: the target, if it existed,
    is as it was.  (Stated for a target path without a [..] component,
    where the place of a path in the tree is read off its text.) *)
Theorem failed_write_keeps_every_file names target_path content st e st' :
  Forall (fun part => part <> "..") (PurePath.parts target_path) ->
  atomic_write_text names target_path content st = (Raise e, st') ->
  nodes st ⊆ nodes st'
  /\ (forall old,
        lookup_node st (locate st target_path) = Some (File old) ->
        lookup_node st' (locate st target_path) = Some (File old))
  /\ exists calls, log st' = log st ++ calls
                   /\ Forall (fun c => ~ is_rename c) calls.
Proof.
  intros _ Hrun.
  assert (Huntouched : untouched st st').
  { revert Hrun. unfold atomic_write_text, mbind, io_bind.
    destruct (mkdir _ _ true true st) as [[[]|e0] st1] eqn:Hmk;
      apply mkdir_untouched in Hmk; [|by intros [= _ <-]].
    destruct (named_temporary_file _ _ _ _ st1) as [[tmp|e1] st2] eqn:Htmp.
    2: { apply named_temporary_file_raise in Htmp as ->. by intros [= _ <-]. }
    apply named_temporary_file_ok in Htmp as (name & _ & _ & Hfresh & _ & ->).
    unfold write_close.
    set (P := locate st1 tmp) in *.
    assert (Hwritten : forall text,
      untouched st1
        (update (locate (update P (Some (File "")) (SysOpenExcl P) st1) tmp)
           (Some (File text))
           (SysWriteClose
              (locate (update P (Some (File "")) (SysOpenExcl P) st1) tmp)
              text)
           (update P (Some (File "")) (SysOpenExcl P) st1))).
    { intros text. change (locate (update P (Some (File ""))
                                     (SysOpenExcl P) st1) tmp) with P.
      split.
      - reflexivity.
      - simpl. rewrite insert_insert_eq. apply insert_subseteq.
        pose proof (lookup_none_nonempty _ _ Hfresh).
        unfold lookup_node in Hfresh. by destruct P.
      - eexists [_; _]. split; [simpl; by rewrite <- app_assoc|].
        repeat constructor; by intros []. }
    destruct (write_fault _ _ content) as [[e1 written]|].
    - intros [= _ <-]. eapply untouched_trans; [exact Hmk|]. apply Hwritten.
    - intros Hrep. apply os_replace_raise in Hrep as ->.
      eapply untouched_trans; [exact Hmk|]. apply Hwritten. }
  destruct Huntouched as [_ Hkept Hlog].
  split; [assumption|]. split; [|assumption].
  intros old. unfold lookup_node.
  destruct (locate st target_path); [done|].
  intros Hold. by eapply lookup_weaken.
Qed.

(** The device fails while the new report is written: the earlier report
    is as it was, beside a temporary file that holds what reached the
    device. *)
Lemma failed_write_example :
  exists st',
    atomic_write_text ["k3x9q2ab"] (PurePath.parse "r.html")
      "<html>new</html>" full_state
      = (Raise (PyErr OSError "No space left on device"), st')
    /\ lookup_node st' ["srv"; "sky"; "work"; "r.html"]
       = Some (File "<html>old</html>")
    /\ lookup_node st' ["srv"; "sky"; "work"; "r_k3x9q2ab.tmp"]
       = Some (File "<html>").
Proof.
  destruct (atomic_write_text ["k3x9q2ab"] (PurePath.parse "r.html")
              "<html>new</html>" full_state) as [r st'] eqn:Hrun.
  assert (r = Raise (PyErr OSError "No space left on device")) as ->
    by (by vm_compute in Hrun; injection Hrun as <- _).
  exists st'. split; [reflexivity|].
  assert (Hparts : Forall (fun part => part <> "..")
                     (PurePath.parts (PurePath.parse "r.html")))
    by (apply (bool_decide_unpack _); by vm_compute).
  destruct (failed_write_keeps_every_file _ _ _ _ _ _ Hparts Hrun)
    as (_ & Hold & _).
  split; [by apply Hold|].
  vm_compute in Hrun. by injection Hrun as <-.
Defined.

(** Writing onto a directory fails after the temporary file is written:
    the directory stays, and so does the orphaned temporary file. *)
Example write_onto_directory :
  exists e st',
    atomic_write_text ["k3x9q2ab"] (PurePath.parse "/srv/sky/work")
      "<html>ok</html>" bare_state = (Raise e, st')
    /\ lookup_node st' ["srv"; "sky"; "work"] = Some Dir
    /\ lookup_node st' ["srv"; "sky"; "work_k3x9q2ab.tmp"]
       = Some (File "<html>ok</html>").
Proof. do 2 eexists. split; [by vm_compute|]. split; reflexivity. Qed.

End ReportFacts.

(** * More of server.py: the backend that serves *)

Module LauncherFacts.
Import Server Launcher.

Lemma every_class_is_an_exception e : isinstance e Exception = true.
Proof. by destruct e as [[]|]. Qed.

Section WithRuntime.
Context {S : Type}.
Variable rt : Runtime S.

Lemma try_fastmcp_cases :
  (exists factory backend registered,
     fastmcp rt = Ok (factory, backend)
     /\ _register_tools factory backend = Ok registered
     /\ _try_fastmcp rt = Ok (Some registered))
  \/ ((forall factory backend,
         fastmcp rt = Ok (factory, backend) ->
         exists e, _register_tools factory backend = Raise e)
      /\ _try_fastmcp rt = Ok None).
Proof.
  unfold _try_fastmcp.
  destruct (fastmcp rt) as [[factory backend]|e] eqn:Hinit; simpl.
  - destruct (_register_tools factory backend) as [registered|e] eqn:Hreg;
      simpl.
    + left. by exists factory, backend, registered.
    + right. rewrite every_class_is_an_exception. split; [|reflexivity].
      intros ? ? [= <- <-]. eauto.
  - right. rewrite every_class_is_an_exception. split; [|reflexivity].
    discriminate.
Qed.

(** [main] serves with one backend, and only after every descriptor of
    the registry was registered on that backend.  The fallback serves
    exactly when the preferred backend could not be set up or a
    registration on it failed; a preferred backend that fails while
    serving is not replaced. *)
Theorem main_serves_a_registered_backend :
  (forall registered,
     main rt = Ok (ByFastMCP registered) ->
     exists factory backend,
       fastmcp rt = Ok (factory, backend)
       /\ _register_tools factory backend = Ok registered
       /\ fastmcp_run rt registered = Ok tt)
  /\ (forall registered,
        main rt = Ok (ByStdio registered) ->
        (forall factory backend,
           fastmcp rt = Ok (factory, backend) ->
           exists e, _register_tools factory backend = Raise e)
        /\ exists factory backend,
             stdio rt = Ok (factory, backend)
             /\ _register_tools factory backend = Ok registered
             /\ stdio_run rt registered = Ok tt)
  /\ (forall factory backend registered e,
        fastmcp rt = Ok (factory, backend) ->
        _register_tools factory backend = Ok registered ->
        fastmcp_run rt registered = Raise e ->
        main rt = Raise e).
Proof.
  unfold main.
  destruct try_fastmcp_cases
    as [(factory & backend & registered0 & Hinit & Hreg & ->)
       | [Hfailed ->]]; simpl.
  - split; [|split].
    + intros registered.
      destruct (fastmcp_run rt registered0) as [[]|e] eqn:Hrun; simpl;
        [|discriminate].
      intros [= <-]. by exists factory, backend.
    + intros registered.
      by destruct (fastmcp_run rt registered0) as [[]|e].
    + intros factory' backend' registered e Hinit' Hreg' Hrun.
      rewrite Hinit in Hinit'. injection Hinit' as <- <-.
      rewrite Hreg in Hreg'. injection Hreg' as <-.
      by rewrite Hrun.
  - split; [|split].
    + intros registered. by destruct (_run_stdio rt).
    + intros registered. unfold _run_stdio.
      destruct (stdio rt) as [[factory backend]|e] eqn:Hinit; simpl;
        [|discriminate].
      destruct (_register_tools factory backend) as [registered0|e] eqn:Hreg;
        simpl; [|discriminate].
      destruct (stdio_run rt registered0) as [[]|e] eqn:Hrun; simpl;
        [|discriminate].
      intros [= <-]. split; [assumption|]. by exists factory, backend.
    + intros factory backend registered e Hinit Hreg.
      destruct (Hfailed factory backend Hinit) as [e' He']. congruence.
Qed.

End WithRuntime.

(** The preferred backend rejects one tool: the fallback serves, with the
    twelve tools. *)
Lemma fallback_example :
  exists registered,
    main sample_runtime = Ok (ByStdio registered)
    /\ fn_name <$> (snd <$> registered) = td_name <$> TOOL_DEFS.
Proof.
  destruct (main sample_runtime) as [[registered|registered]|e] eqn:Hmain;
    try (by vm_compute in Hmain).
  exists registered. split; [reflexivity|].
  destruct (main_serves_a_registered_backend sample_runtime)
    as (_ & Hstdio & _).
  destruct (Hstdio registered Hmain)
    as (_ & factory & backend & Hinit & Hreg & _).
  injection Hinit as <- <-.
  vm_compute in Hreg. by injection Hreg as <-.
Defined.

End LauncherFacts.

(** * More of tools.py: the tools as seen by the caller *)

Module AnswerFacts.
Import Response ResponseFacts EnvelopeFacts.
Section WithBuiltins.
Context `{Builtins}.

(** What a tool gets from [make_err] when it passes an error type of the
    closed set, its own [meta] and no provenance. *)
Lemma make_err_answer (error_type message : string) details
    (meta : gmap string value) :
  error_type ∈ ALLOWED_ERROR_TYPES ->
  exists env error,
    make_err error_type message details (VDict meta) VNone = Ok env
    /\ validate_envelope env true = Ok env
    /\ field env "ok" = Some (VBool false)
    /\ field env "data" = Some VNone
    /\ field env "error" = Some error
    /\ field error "type" = Some (VStr error_type)
    /\ field error "message" = Some (VStr message)
    /\ field error "details" = Some details
    /\ field env "meta" = Some (VDict meta)
    /\ Envelope.well_formed env.
Proof.
  intros Hin.
  assert (Hchecks :
    validate_checks
      (_envelope false VNone
         (VDict (dict [ ("type", VStr error_type); ("message", VStr message);
                        ("details", details) ])) (VDict meta) VNone)
    = Ok (_envelope false VNone
            (VDict (dict [ ("type", VStr error_type); ("message", VStr message);
                           ("details", details) ])) (VDict meta) VNone)).
  { rewrite checks_err_envelope. rewrite py_or_dict. simpl.
    by rewrite bool_decide_true. }
  eexists. eexists. split.
  - unfold make_err. apply validate_envelope_accepts. exact Hchecks.
  - split; [by apply validate_envelope_accepts|].
    unfold _envelope. rewrite py_or_dict.
    repeat (split; [reflexivity|]).
    apply well_formed_checks. unfold _envelope in Hchecks.
    rewrite py_or_dict in Hchecks. exact Hchecks.
Qed.

Lemma make_ok_answer data (meta provenance : gmap string value) :
  exists env,
    make_ok data (VDict meta) (VDict provenance) = Ok env
    /\ validate_envelope env true = Ok env
    /\ field env "ok" = Some (VBool true)
    /\ field env "data" = Some data
    /\ field env "error" = Some VNone
    /\ Envelope.well_formed env.
Proof.
  assert (Hchecks :
    validate_checks (_envelope true data VNone (VDict meta) (VDict provenance))
    = Ok (_envelope true data VNone (VDict meta) (VDict provenance))).
  { rewrite checks_ok_envelope. by rewrite !py_or_dict. }
  eexists. split; [apply make_ok_dicts|].
  split; [by apply validate_envelope_accepts|].
  repeat (split; [reflexivity|]).
  by apply well_formed_checks.
Qed.

End WithBuiltins.
End AnswerFacts.

Module PathToolsFacts.
Import Response Paths Tools PathTools AnswerFacts.
Section WithServices.
Context `{Builtins} {comp : Type}.
Variable svc : Services comp.
Variable w : World.
Variable summary_of_file : PurePath.t -> result value.

(** [read_cif_path] turns an error of the resolver into an envelope with
    the same type, message and details, which passes the strict
    validation; an exception of pathlib that the resolver lets through
    leaves the tool as well. *)
Theorem read_cif_path_reports_the_resolver cif_path :
  library_world w ->
  (forall error_type message details,
     resolve_local_path w cif_path None None
       = Raise (PathResolutionError error_type message details) ->
     exists env error,
       read_cif_path svc w summary_of_file cif_path = Ok env
       /\ validate_envelope env true = Ok env
       /\ field env "ok" = Some (VBool false)
       /\ field env "data" = Some VNone
       /\ field env "error" = Some error
       /\ field error "type" = Some (VStr error_type)
       /\ field error "message" = Some (VStr message)
       /\ field error "details" = Some details)
  /\ (forall candidate c msg,
        blank cif_path = false ->
        expanduser w (PurePath.parse cif_path) = Ok candidate ->
        resolve w candidate = Raise (PyErr c msg) ->
        read_cif_path svc w summary_of_file cif_path = Raise (PyErr c msg)).
Proof.
  intros Hlib. split.
  - intros error_type message details Hrun.
    destruct (ResolverFacts.resolver_raises_known w _ _ _ _ _ _ Hlib Hrun)
      as [Hown _].
    apply ResolverFacts.resolver_types_allowed in Hown.
    unfold read_cif_path. rewrite Hrun. unfold _meta.
    destruct (make_err_answer error_type message details
                (dict [ ("tool", VStr "read_cif_path");
                        ("version", VStr (sky_version svc));
                        ("warnings", py_or VNone (VList [])) ]) Hown)
      as (env & error & Herr & Hvalid & Hok & Hdata & Herror & Htype
          & Hmessage & Hdet & _).
    exists env, error. split; [exact Herr|]. split; [exact Hvalid|].
    split; [exact Hok|]. split; [exact Hdata|]. split; [exact Herror|].
    split; [exact Htype|]. split; [exact Hmessage | exact Hdet].
  - intros candidate c msg Hblank Hexp Hres.
    unfold read_cif_path.
    by rewrite (PathsFacts.resolve_exception_escapes w _ _ _ candidate
                  (PyErr c msg)).
Qed.

(** Once the path is resolved [read_cif_path] always answers with an
    envelope that passes the strict validation: the summary of the file
    as data, or a [runtime_error] with the text of the parser's
    exception. *)
Theorem read_cif_path_answers_after_resolution cif_path path :
  resolve_local_path w cif_path None None = Ok path ->
  exists env,
    read_cif_path svc w summary_of_file cif_path = Ok env
    /\ validate_envelope env true = Ok env
    /\ (forall data,
          summary_of_file path = Ok data ->
          field env "ok" = Some (VBool true)
          /\ field env "data" = Some data)
    /\ (forall e,
          summary_of_file path = Raise e ->
          exists error,
            field env "ok" = Some (VBool false)
            /\ field env "error" = Some error
            /\ field error "type" = Some (VStr "runtime_error")
            /\ field error "details" = Some (VStr (exn_str e))).
Proof.
  intros Hrun. unfold read_cif_path. rewrite Hrun. unfold _meta.
  destruct (summary_of_file path) as [data|e]; simpl.
  - destruct (make_ok_answer data
                (dict [ ("tool", VStr "read_cif_path");
                        ("version", VStr (sky_version svc));
                        ("warnings", py_or VNone (VList [])) ])
                (dict [("source", VStr "local"); ("ids", VList [])]))
      as (env & Hok & Hvalid & Hfield & Hdata & _).
    exists env. unfold local_provenance. rewrite Hok.
    split; [reflexivity|]. split; [exact Hvalid|]. split.
    + intros data' [= <-]. split; [exact Hfield | exact Hdata].
    + discriminate.
  - rewrite LauncherFacts.every_class_is_an_exception.
    destruct (make_err_answer "runtime_error" "Failed to read CIF file."
                (VStr (exn_str e))
                (dict [ ("tool", VStr "read_cif_path");
                        ("version", VStr (sky_version svc));
                        ("warnings", py_or VNone (VList [])) ]))
      as (env & error & Herr & Hvalid & Hok & _ & Herror & Htype & _ & Hdet & _).
    { apply (bool_decide_unpack _). by vm_compute. }
    exists env. rewrite Herr.
    split; [reflexivity|]. split; [exact Hvalid|]. split.
    + discriminate.
    + intros e' [= <-]. exists error.
      split; [exact Hok|]. split; [exact Herror|].
      split; [exact Htype | exact Hdet].
Qed.

(** The similarity search by composition lets one exception through and
    no other: what the lookup of the embedding file raises, which happens
    outside every [try], and only for a formula that was accepted.  In
    every other case the tool answers, whatever the collaborators do, with
    an envelope that satisfies the envelope invariants, and a failure is
    an [invalid_input], a [file_not_found] or a [runtime_error]. *)
Theorem search_always_answers formula top_n :
  answered ["invalid_input"; "file_not_found"; "runtime_error"]
    (search_similar_by_composition svc formula top_n)
  \/ (exists composition exc,
        blank formula = false
        /\ parse_composition svc formula = Ok composition
        /\ composition_embedding svc = Raise exc
        /\ search_similar_by_composition svc formula top_n = Raise exc).
Proof.
  assert (Hfail : forall (error_type message : string) details,
    error_type ∈ ["invalid_input"; "file_not_found"; "runtime_error"] ->
    answered ["invalid_input"; "file_not_found"; "runtime_error"]
      (make_err error_type message details
         (_meta svc "search_similar_by_composition" VNone) VNone)).
  { intros error_type message details Hin. unfold _meta.
    destruct (make_err_answer error_type message details
                (dict [ ("tool", VStr "search_similar_by_composition");
                        ("version", VStr (sky_version svc));
                        ("warnings", py_or VNone (VList [])) ]))
      as (env & error & Herr & Hvalid & Hok & _ & Herror & Htype & _ & _ & _
          & Hwf).
    { revert Hin. unfold ALLOWED_ERROR_TYPES. rewrite !elem_of_cons.
      intros Hin. repeat (destruct Hin as [->|Hin]; [tauto|]).
      by apply elem_of_nil in Hin. }
    exists env. split; [exact Herr|]. split; [exact Hwf|].
    split; [exact Hvalid|].
    right. exists error, error_type.
    split; [exact Hok|]. split; [exact Herror|]. split; [exact Htype | exact Hin]. }
  assert (Hinvalid : "invalid_input"
                       ∈ ["invalid_input"; "file_not_found"; "runtime_error"])
    by (apply (bool_decide_unpack _); by vm_compute).
  assert (Hmissing : "file_not_found"
                       ∈ ["invalid_input"; "file_not_found"; "runtime_error"])
    by (apply (bool_decide_unpack _); by vm_compute).
  assert (Hruntime : "runtime_error"
                       ∈ ["invalid_input"; "file_not_found"; "runtime_error"])
    by (apply (bool_decide_unpack _); by vm_compute).
  unfold search_similar_by_composition, blank.
  destruct (negb (Str.nonempty formula) || negb (Str.nonempty (Str.strip formula)));
    [left; by apply Hfail|].
  destruct (parse_composition svc formula) as [composition|exc].
  2: { left. rewrite LauncherFacts.every_class_is_an_exception.
       by apply Hfail. }
  destruct (composition_embedding svc) as [[path|]|exc]; simpl;
    [|left; unfold _missing_asset_error; by apply Hfail
     |right; by exists composition, exc].
  left.
  assert (Hcaught : forall exc,
    answered ["invalid_input"; "file_not_found"; "runtime_error"]
      (if isinstance exc FileNotFoundError then
         make_err "file_not_found" "Embedding dataset not found."
           (VStr (exn_str exc))
           (_meta svc "search_similar_by_composition" VNone) VNone
       else if isinstance exc Exception then
         make_err "runtime_error" "Similarity search failed."
           (VStr (exn_str exc))
           (_meta svc "search_similar_by_composition" VNone) VNone
       else Raise exc)).
  { intros exc. rewrite LauncherFacts.every_class_is_an_exception.
    destruct (isinstance exc FileNotFoundError); by apply Hfail. }
  destruct (search_query svc composition (Z.max 100 top_n) top_n)
    as [neighbors|exc]; simpl; [|apply Hcaught].
  destruct (rank_from 1 (py_sorted sort_key key_lt neighbors))
    as [results|exc]; simpl; [|apply Hcaught].
  unfold _meta.
  destruct (make_ok_answer
              (VDict (dict [ ("query", VStr formula);
                             ("num_results", VInt (Z.of_nat (length results)));
                             ("neighbors", VList (entry_value <$> results)) ]))
              (dict [ ("tool", VStr "search_similar_by_composition");
                      ("version", VStr (sky_version svc));
                      ("warnings", py_or VNone (VList [])) ])
              (dict [ ("source", VStr "computed");
                      ("ids", VList ((fun n => VStr (e_material_id n))
                                       <$> results)) ]))
    as (env & Hok & Hvalid & Hfield & _ & _ & Hwf).
  exists env. rewrite Hok. split; [reflexivity|]. split; [exact Hwf|].
  split; [exact Hvalid|]. left. exact Hfield.
Qed.

End WithServices.

Lemma read_cif_path_escape_example :
  exists env error,
    @read_cif_path constants_builtins _ (answering []) sample_world
      naming_summary "../../etc/passwd" = Ok env
    /\ field env "error" = Some error
    /\ field error "type" = Some (VStr "permission_denied").
Proof.
  destruct (@read_cif_path_reports_the_resolver constants_builtins _
              (answering []) sample_world naming_summary "../../etc/passwd"
              ResolverFacts.sample_world_library) as [Herrors _].
  destruct (Herrors "permission_denied" "Path is outside allowed roots."
              (VDict (dict [ ("path", VStr "/srv/etc/passwd");
                             ("allowed_roots",
                              VList [ VStr "/srv/sky"; VStr "/srv/sky/assets";
                                      VStr "/srv/sky/work" ]) ])) eq_refl)
    as (env & error & Hrun & _ & _ & _ & Herror & Htype & _).
  exists env, error. split; [exact Hrun|]. split; [exact Herror | exact Htype].
Defined.

Lemma read_cif_path_answer_example :
  exists env,
    @read_cif_path constants_builtins _ (answering []) sample_world
      naming_summary "../a.cif" = Ok env
    /\ field env "ok" = Some (VBool true)
    /\ field env "data" = Some (VDict (dict [("formula", VStr "a.cif")])).
Proof.
  destruct (@read_cif_path_answers_after_resolution constants_builtins _
              (answering []) sample_world naming_summary "../a.cif"
              (PurePath.parse "/srv/sky/a.cif") eq_refl)
    as (env & Hrun & _ & Hdata & _).
  exists env. split; [exact Hrun|]. exact (Hdata _ eq_refl).
Defined.

(** A failure of the embedding lookup leaves the search tool as it
    is. *)
Example lookup_failure_escapes :
  @search_similar_by_composition constants_builtins _ unreadable_assets
    "Fe2O3" 10 = Raise (PyErr OSError "File name too long").
Proof. reflexivity. Qed.

(** The string with a NUL character goes through [read_cif_path] as a
    [ValueError]. *)
Example read_cif_path_nul :
  @read_cif_path constants_builtins _ (answering []) sample_world
    naming_summary nul_path = Raise (PyErr ValueError "embedded null byte").
Proof. reflexivity. Qed.

End PathToolsFacts.
